(** * The self-updater of yt_dlp/update.py

    A shallow embedding of [yt_dlp/update.py]: the [Updater] class
    (target parsing, version comparison, lock-rule evaluation, memoized
    release metadata, checksum verification and the replace-with-rollback
    file transaction) and the properties of its update-resolution state
    machine.

    Python values are modelled as follows.
    - [str] and [bytes] are [string]; [None] for an optional string is [None].
    - a version tuple is a [list Z], compared the way Python compares tuples.
    - an exception is a value [exn]; a computation that may raise returns
      [Res]; the interpreter state that survives an exception (console
      output, exit code, memo tables, file system) is threaded explicitly.
    - everything the module imports from elsewhere ([re], [hashlib], [os],
      the HTTP opener, [.utils], [.version]) is a field of [Env]. *)

From Stdlib Require Import ZArith List Ascii String Bool Lia.
From stdpp Require Import base strings gmap pretty.
Import ListNotations.
Open Scope string_scope.
Open Scope list_scope.

(** ** Python strings *)

Module PyStr.

(** [s[n:]] *)
Fixpoint drop (n : nat) (s : string) : string :=
  match n, s with
  | O, _ => s
  | S _, EmptyString => EmptyString
  | S n', String _ s' => drop n' s'
  end.

(** [s.startswith(p)] *)
Definition startswith (p s : string) : bool := String.prefix p s.

(** [s.rpartition(sep)] for a one-character separator: [Some (head, tail)]
    around the last occurrence, [None] when [sep] does not occur (Python
    then returns [('', '', s)]). *)
Fixpoint rpartition (sep : ascii) (s : string) : option (string * string) :=
  match s with
  | EmptyString => None
  | String c s' =>
      match rpartition sep s' with
      | Some (h, t) => Some (String c h, t)
      | None => if Ascii.eqb c sep then Some (EmptyString, s') else None
      end
  end.

(** [s.partition(sep)]: split around the first occurrence. *)
Fixpoint partition (sep : ascii) (s : string) : option (string * string) :=
  match s with
  | EmptyString => None
  | String c s' =>
      if Ascii.eqb c sep then Some (EmptyString, s')
      else match partition sep s' with
           | Some (h, t) => Some (String c h, t)
           | None => None
           end
  end.

Definition is_linebreak (c : ascii) : bool :=
  let n := nat_of_ascii c in
  (Nat.eqb n 10 || Nat.eqb n 11 || Nat.eqb n 12 || Nat.eqb n 13
   || Nat.eqb n 28 || Nat.eqb n 29 || Nat.eqb n 30)%bool.

(** [s.splitlines()]: [cur] is the line being read, reversed; [after_cr]
    says the previous character was a carriage return, so that a line
    feed right after it belongs to the same boundary; a final boundary
    adds no empty line. *)
Fixpoint splitlines_aux (cur : list ascii) (started after_cr : bool)
    (s : string) : list string :=
  match s with
  | EmptyString =>
      if started then [string_of_list_ascii (rev cur)] else []
  | String c s' =>
      if (after_cr && Nat.eqb (nat_of_ascii c) 10)%bool
      then splitlines_aux cur started false s'
      else if is_linebreak c
      then string_of_list_ascii (rev cur)
             :: splitlines_aux [] false (Nat.eqb (nat_of_ascii c) 13) s'
      else splitlines_aux (c :: cur) true false s'
  end.

Definition splitlines (s : string) : list string :=
  splitlines_aux [] false false s.

Definition is_space (c : ascii) : bool :=
  let n := nat_of_ascii c in
  (Nat.eqb n 32 || (Nat.leb 9 n && Nat.leb n 13)
   || (Nat.leb 28 n && Nat.leb n 31))%bool.

(** [s.split()]: the maximal runs of non-whitespace characters. *)
Fixpoint split_aux (cur : list ascii) (s : string) : list string :=
  match s with
  | EmptyString =>
      match cur with
      | [] => []
      | _ => [string_of_list_ascii (rev cur)]
      end
  | String c s' =>
      if is_space c
      then match cur with
           | [] => split_aux [] s'
           | _ => string_of_list_ascii (rev cur) :: split_aux [] s'
           end
      else split_aux (c :: cur) s'
  end.

Definition split (s : string) : list string := split_aux [] s.

End PyStr.

(** ** Python tuples of integers *)

Module PyTuple.

(** [a == b] *)
Fixpoint eqb (a b : list Z) : bool :=
  match a, b with
  | [], [] => true
  | x :: a', y :: b' => Z.eqb x y && eqb a' b'
  | _, _ => false
  end.

(** [a < b]: the first position where the items differ decides; when one
    tuple is a prefix of the other, the shorter is the smaller. *)
Fixpoint ltb (a b : list Z) : bool :=
  match a, b with
  | [], [] => false
  | [], _ :: _ => true
  | _ :: _, [] => false
  | x :: a', y :: b' => if Z.eqb x y then ltb a' b' else Z.ltb x y
  end.

(** [a >= b] *)
Fixpoint geb (a b : list Z) : bool :=
  match a, b with
  | _, [] => true
  | [], _ :: _ => false
  | x :: a', y :: b' => if Z.eqb x y then geb a' b' else Z.leb y x
  end.

(** The lexicographic order, as a relation. *)
Inductive lex_lt : list Z -> list Z -> Prop :=
| lex_lt_nil y b : lex_lt [] (y :: b)
| lex_lt_head x y a b : (x < y)%Z -> lex_lt (x :: a) (y :: b)
| lex_lt_tail x a b : lex_lt a b -> lex_lt (x :: a) (x :: b).

End PyTuple.

(** ** Exceptions and results *)

Inductive exn_kind : Type :=
| OSError | ValueError | KeyError | ReError | OtherException.

Record exn : Type := Exn { exn_kind_of : exn_kind; exn_msg : string }.

Definition is_kind (k : exn_kind) (e : exn) : bool :=
  match k, exn_kind_of e with
  | OSError, OSError | ValueError, ValueError | KeyError, KeyError
  | ReError, ReError | OtherException, OtherException => true
  | _, _ => false
  end.

Inductive Res (A : Type) : Type :=
| Ok (a : A)
| Raise (e : exn).
Arguments Ok {A} a.
Arguments Raise {A} e.

(** ** The data of the module *)

(** Release metadata: the JSON object of the releases API, with the two
    keys the module reads.  [tag_name = None] is a reply without that key. *)
Record VersionInfo : Type := {
  tag_name : option string;
  assets : list (string * string)   (* name, browser_download_url *)
}.

(** A file of the file system: its bytes and its [st_mode]. *)
Record file : Type := { content : string; st_mode : Z }.

(** The calls into [os] that may raise [OSError]. *)
Inductive os_call : Type :=
| Remove (path : string)
| OpenWrite (path : string)
| WriteAll (path : string) (data : string)
| ReadAll (path : string)
| Stat (path : string)
| Rename (src dst : string)
| Chmod (path : string) (mode : Z).

(** What the console of the host program receives. *)
Inductive event : Type :=
| to_screen (msg : string)
| report_warning (msg : string)
| report_error (msg : string) (tb : option bool)
| write_debug (msg : string).

(** The environment: the constants of [.version], the helpers of [.utils]
    and [.compat], the standard library and the collaborators of the host
    program.
    - [version_tuple] may raise (a [ValueError] on a component that is not
      an integer);
    - [re_match pattern text] is [re.match]: [Ok true] on a match at the
      start of [text], [Raise] on a malformed pattern;
    - [urlopen_json url] is the release metadata the API answers for [url]
      ([json.loads(ydl.urlopen(Request(url)).read().decode())]) and
      [urlopen url] the bytes behind a download URL; the remote side is
      a snapshot, the same for the whole run;
    - [os_fault history call] says whether the operating system refuses
      [call] after the calls of [history] (most recent first). *)
Record Env : Type := {
  CHANNEL : string;
  __version__ : string;
  VARIANT : option string;
  UPDATE_HINT : option string;
  variant_and_executable_path : string * string;
  system_identifier : string;
  version_tuple : string -> Res (list Z);
  compat_realpath : string -> string;
  compat_shlex_quote : string -> string;
  re_match : string -> string -> Res bool;
  sha256_hexdigest : string -> string;
  decode : string -> Res string;
  urlopen_json : string -> Res VersionInfo;
  urlopen : string -> Res string;
  os_path_dirname : string -> string;
  os_access_W_OK : string -> bool;
  os_fault : list (os_call * bool) -> os_call -> bool
}.

(** The mutable state: the console, [ydl._download_retcode], the memo
    table of [_get_version_info], the two cached properties that run
    effects, the file system, the history of [os] calls with their outcome
    ([true]: the call succeeded) and the commands registered with
    [atexit]. *)
Record State : Type := {
  console : list event;
  _download_retcode : option Z;
  cache_version_info : gmap string VersionInfo;
  cache_tag : option string;
  cache_release_hash : option string;
  fs : gmap string file;
  os_history : list (os_call * bool);
  atexit : list string
}.

Definition set_console (f : list event -> list event) (st : State) : State :=
  {| console := f (console st);
     _download_retcode := _download_retcode st;
     cache_version_info := cache_version_info st;
     cache_tag := cache_tag st;
     cache_release_hash := cache_release_hash st;
     fs := fs st; os_history := os_history st; atexit := atexit st |}.

Definition set_retcode (c : Z) (st : State) : State :=
  {| console := console st;
     _download_retcode := Some c;
     cache_version_info := cache_version_info st;
     cache_tag := cache_tag st;
     cache_release_hash := cache_release_hash st;
     fs := fs st; os_history := os_history st; atexit := atexit st |}.

Definition set_cache_version_info (m : gmap string VersionInfo) (st : State)
  : State :=
  {| console := console st;
     _download_retcode := _download_retcode st;
     cache_version_info := m;
     cache_tag := cache_tag st;
     cache_release_hash := cache_release_hash st;
     fs := fs st; os_history := os_history st; atexit := atexit st |}.

Definition set_cache_tag (t : string) (st : State) : State :=
  {| console := console st;
     _download_retcode := _download_retcode st;
     cache_version_info := cache_version_info st;
     cache_tag := Some t;
     cache_release_hash := cache_release_hash st;
     fs := fs st; os_history := os_history st; atexit := atexit st |}.

Definition set_cache_release_hash (h : string) (st : State) : State :=
  {| console := console st;
     _download_retcode := _download_retcode st;
     cache_version_info := cache_version_info st;
     cache_tag := cache_tag st;
     cache_release_hash := Some h;
     fs := fs st; os_history := os_history st; atexit := atexit st |}.

Definition set_os (m : gmap string file) (h : list (os_call * bool))
    (st : State) : State :=
  {| console := console st;
     _download_retcode := _download_retcode st;
     cache_version_info := cache_version_info st;
     cache_tag := cache_tag st;
     cache_release_hash := cache_release_hash st;
     fs := m; os_history := h; atexit := atexit st |}.

Definition set_atexit (l : list string) (st : State) : State :=
  {| console := console st;
     _download_retcode := _download_retcode st;
     cache_version_info := cache_version_info st;
     cache_tag := cache_tag st;
     cache_release_hash := cache_release_hash st;
     fs := fs st; os_history := os_history st; atexit := l |}.

(** ** Computations: state that survives exceptions *)

Definition M (A : Type) : Type := State -> Res A * State.

Definition ret {A} (a : A) : M A := fun st => (Ok a, st).

Definition bind {A B} (m : M A) (k : A -> M B) : M B :=
  fun st =>
    match m st with
    | (Ok a, st') => k a st'
    | (Raise e, st') => (Raise e, st')
    end.

Definition raise {A} (e : exn) : M A := fun st => (Raise e, st).

(** A value that may raise, read without touching the state. *)
Definition lift {A} (r : Res A) : M A := fun st => (r, st).

(** [try: m  except <handles>: h] *)
Definition try_except {A} (m : M A) (handles : exn -> bool) (h : exn -> M A)
  : M A :=
  fun st =>
    match m st with
    | (Ok a, st') => (Ok a, st')
    | (Raise e, st') => if handles e then h e st' else (Raise e, st')
    end.

Notation "'do' x <- m ; k" := (bind m (fun x => k))
  (at level 10, x name, m at level 100, k at level 200).
Notation "'do' ' pat <- m ; k" := (bind m (fun x => match x with pat => k end))
  (at level 10, pat pattern, m at level 100, k at level 200).

Definition emit (e : event) : M unit :=
  fun st => (Ok tt, set_console (fun l => l ++ [e]) st).

(** A value read off the state. *)
Definition gets {A} (f : State -> A) : M A := fun st => (Ok (f st), st).

(** ** Module constants *)

(** A Python [dict] with string keys whose order matters: an association
    list without repeated keys. *)
Fixpoint dict_get {V : Type} (k : string) (d : list (string * V)) : option V :=
  match d with
  | [] => None
  | (k', v) :: d' => if String.eqb k k' then Some v else dict_get k d'
  end.

Definition dict_mem {V : Type} (k : string) (d : list (string * V)) : bool :=
  match dict_get k d with Some _ => true | None => false end.

Definition UPDATE_SOURCES : list (string * string) :=
  [ ("stable", "Grub4K/actions-test");
    ("nightly", "Grub4K/actions-archive-test") ].

Definition WARN_BEFORE_TAG : list Z := [2023; 3; 2]%Z.

Definition API_BASE_URL : string := "https://api.github.com/repos".

Definition _FILE_SUFFIXES : list (string * string) :=
  [ ("zip", "");
    ("py2exe", "_min.exe");
    ("win_exe", ".exe");
    ("win_x86_exe", "_x86.exe");
    ("darwin_exe", "_macos");
    ("darwin_legacy_exe", "_macos_legacy");
    ("linux_exe", "_linux");
    ("linux_aarch64_exe", "_linux_aarch64");
    ("linux_armv7l_exe", "_linux_armv7l") ].

Definition unpackaged_reason (name : string) : string :=
  "Auto-update is not supported for unpackaged " +:+ name
  +:+ " executable; Re-download the latest release".

Definition _NON_UPDATEABLE_REASONS : list (string * option string) :=
  map (fun kv => (fst kv, @None string)) _FILE_SUFFIXES
  ++ map (fun kv => (fst kv, Some (unpackaged_reason (snd kv))))
       [ ("win32_dir", "Windows"); ("darwin_dir", "MacOS");
         ("linux_dir", "Linux") ]
  ++ [ ("source", Some "You cannot update when running from source code; Use git to pull the latest changes");
       ("unknown", Some "You installed yt-dlp with a package manager or setup.py; Use that to update");
       ("other", Some "You are using an unofficial build of yt-dlp; Build the executable again") ].

(** Truth value of an optional string: [None] and [''] are false. *)
Definition truthy (o : option string) : bool :=
  match o with
  | None | Some EmptyString => false
  | Some _ => true
  end.

Definition is_digit (c : ascii) : bool :=
  (Nat.leb 48 (nat_of_ascii c) && Nat.leb (nat_of_ascii c) 57)%bool.

(** [re.fullmatch(r'(\d+\.?)*\d+', s)]: runs of digits, each optionally
    followed by one dot, the last run without a dot.  [prev_digit] says the
    character just read was a digit. *)
Fixpoint fullmatch_dotted_aux (prev_digit : bool) (s : string) : bool :=
  match s with
  | EmptyString => prev_digit
  | String c s' =>
      if is_digit c then fullmatch_dotted_aux true s'
      else if Ascii.eqb c "."%char
      then prev_digit && fullmatch_dotted_aux false s'
      else false
  end.

Definition fullmatch_dotted (s : string) : bool :=
  fullmatch_dotted_aux false s.

(** [str(x)] of an optional string inside an f-string. *)
Definition fmt_opt (o : option string) : string :=
  match o with Some s => s | None => "None" end.

(** [repr] of a string without quotes or escapes in it. *)
Definition fmt_repr (s : string) : string := "'" +:+ s +:+ "'".

(** The one-character string holding a double quote. *)
Definition dquote : string := String (ascii_of_nat 34) EmptyString.

(** [', '.join(l)] *)
Fixpoint join_comma (l : list string) : string :=
  match l with
  | [] => ""
  | [x] => x
  | x :: l' => x +:+ ", " +:+ join_comma l'
  end.

(** The attributes [Updater.__init__] sets (besides [ydl], which is the
    console of [State]). *)
Record Updater : Type := {
  _exact : bool;
  _target_channel : string;
  _target_tag : string;
  _target_repo : option string
}.

(** [cached_property] and [cached_method]: the body runs when the memo has
    no entry, and only a body that returns fills the memo. *)
Definition cached {A} (get : State -> option A) (set : A -> State -> State)
    (body : M A) : M A :=
  fun st =>
    match get st with
    | Some a => (Ok a, st)
    | None =>
        match body st with
        | (Ok a, st') => (Ok a, set a st')
        | (Raise e, st') => (Raise e, st')
        end
    end.

Section Update.

Variable env : Env.

(** *** Variant detection *)

Definition detect_variant : string :=
  if truthy (VARIANT env)
  then fmt_opt (VARIANT env)
  else fst (variant_and_executable_path env).

Definition is_non_updateable : option string :=
  if truthy (UPDATE_HINT env) then UPDATE_HINT env
  else match dict_get detect_variant _NON_UPDATEABLE_REASONS with
       | Some reason => reason
       | None =>
           match dict_get (if truthy (VARIANT env) then "unknown" else "other")
                   _NON_UPDATEABLE_REASONS with
           | Some reason => reason
           | None => None
           end
       end.

(** *** Updater.__init__ *)

(** The first half of the constructor, up to the prefixing of the tag:
    the values of [_exact], [_target_channel] and [_target_tag]. *)
Definition target_attributes (target : option string)
  : bool * string * string :=
  let target := match target with Some t => t | None => CHANNEL env end in
  let '(channel, sep, tag) :=
    match PyStr.rpartition "@"%char target with
    | Some (h, t) => (h, true, t)
    | None => ("", false, target)
    end in
  let '(channel, tag) :=
    if (negb sep && dict_mem tag UPDATE_SOURCES)%bool
    then (tag, @None string) else (channel, Some tag) in
  let channel := if truthy (Some channel) then channel else CHANNEL env in
  let '(exact, tag) :=
    if negb (truthy tag) then (false, "latest")
    else if String.eqb (fmt_opt tag) "latest" then (true, "latest")
    else (true, "tags/" +:+ fmt_opt tag) in
  (exact, channel, tag).

Definition __init__ (target : option string) : M Updater :=
  let '(exact, channel, tag) := target_attributes target in
  do _ <- (if (match WARN_BEFORE_TAG with [] => false | _ => true end
               && fullmatch_dotted (PyStr.drop 5 tag))%bool
           then do v <- lift (version_tuple env tag);
                if PyTuple.ltb v WARN_BEFORE_TAG
                then emit (report_warning
                       "You are downgrading to a version without --update-to")
                else ret tt
           else ret tt);
  ret {| _exact := exact;
         _target_channel := channel;
         _target_tag := tag;
         _target_repo := dict_get channel UPDATE_SOURCES |}.

Variable self : Updater.

(** *** Version comparison *)

Definition _version_compare (a b : string) : Res bool :=
  if negb (String.eqb (CHANNEL env) (_target_channel self)) then Ok false
  else match version_tuple env a with
       | Raise e => Raise e
       | Ok ta =>
           match version_tuple env b with
           | Raise e => Raise e
           | Ok tb =>
               Ok (if _exact self then PyTuple.eqb ta tb
                   else PyTuple.geb ta tb)
           end
       end.

(** *** Release metadata *)

Definition _get_version_info (tag : string) : M VersionInfo :=
  cached (fun st => cache_version_info st !! tag)
         (fun v st => set_cache_version_info (<[tag := v]> (cache_version_info st)) st)
         (let url := API_BASE_URL +:+ "/" +:+ fmt_opt (_target_repo self)
                     +:+ "/releases/" +:+ _target_tag self in
          do _ <- emit (write_debug ("Fetching release info: " +:+ url));
          lift (urlopen_json env url)).

(** [info['tag_name']] *)
Definition get_tag_name (info : VersionInfo) : M string :=
  match tag_name info with
  | Some t => ret t
  | None => raise (Exn KeyError "'tag_name'")
  end.

Definition current_version : string := __version__ env.

Definition _full_current_version : string :=
  CHANNEL env +:+ "@" +:+ __version__ env.

Definition latest_version : M string :=
  do info <- _get_version_info (_target_tag self);
  get_tag_name info.

(** [traverse_obj(info, ('assets', lambda _, v: v['name'] == name,
    'browser_download_url'), get_all=False)]: the URL of the first asset
    with that name. *)
Definition asset_url (name : string) (info : VersionInfo) : option string :=
  match List.find (fun a => String.eqb (fst a) name) (assets info) with
  | Some a => Some (snd a)
  | None => None
  end.

Definition _download (name tag : string) : M string :=
  do info <- _get_version_info tag;
  let url := asset_url name info in
  if negb (truthy url)
  then raise (Exn OtherException "Unable to find download URL")
  else do _ <- emit (write_debug ("Downloading " +:+ name +:+ " from "
                                  +:+ fmt_opt url));
       lift (urlopen env (fmt_opt url)).

(** *** Lock rules *)

(** [_, tag, pattern = line.split(' ', 2)] on a line that starts with
    ['lock ']: unpacking fails when there is no second space. *)
Definition split_lock (line : string) : Res (string * string) :=
  match PyStr.partition " "%char (PyStr.drop 5 line) with
  | Some (tag, pattern) => Ok (tag, pattern)
  | None => Raise (Exn ValueError "not enough values to unpack (expected 3, got 2)")
  end.

(** [version_tuple(tag) >= version_tuple(self._target_tag[5:])] *)
Definition lock_not_lower (tag : string) : Res bool :=
  match version_tuple env tag with
  | Raise e => Raise e
  | Ok tl =>
      match version_tuple env (PyStr.drop 5 (_target_tag self)) with
      | Raise e => Raise e
      | Ok tt' => Ok (PyTuple.geb tl tt')
      end
  end.

(** The [for] loop of [_tag] over the lines of the update spec. *)
Fixpoint scan_locks (identifier : string) (lines : list string)
  : Res string :=
  match lines with
  | [] => Ok (_target_tag self)
  | line :: rest =>
      if negb (PyStr.startswith "lock " line)
      then scan_locks identifier rest
      else
        match split_lock line with
        | Raise e => Raise e
        | Ok (tag, pattern) =>
            match re_match env pattern identifier with
            | Raise e => Raise e
            | Ok false => scan_locks identifier rest
            | Ok true =>
                if negb (String.eqb (_target_tag self) "latest")
                then match lock_not_lower tag with
                     | Ok true => scan_locks identifier rest
                     | Ok false => Ok ("tags/" +:+ tag)
                     | Raise e =>
                         if is_kind ValueError e then Ok ("tags/" +:+ tag)
                         else Raise e
                     end
                else Ok ("tags/" +:+ tag)
            end
        end
  end.

Definition identifier : string :=
  detect_variant +:+ " " +:+ _target_channel self +:+ " "
  +:+ system_identifier env.

Definition _tag : M string :=
  cached cache_tag set_cache_tag
    (do latest <- latest_version;
     do same <- lift (_version_compare current_version latest);
     if same then ret (_target_tag self)
     else
       do spec <- _download "_update_spec" "latest";
       do text <- lift (decode env spec);
       lift (scan_locks identifier (PyStr.splitlines text))).

Definition new_version : M string :=
  do tag <- _tag;
  if PyStr.startswith "tags/" tag then ret (PyStr.drop 5 tag)
  else do tag' <- _tag;
       do info <- _get_version_info tag';
       get_tag_name info.

Definition _full_new_version : M string :=
  do v <- new_version;
  ret (_target_channel self +:+ "@" +:+ v).

Definition has_update : M bool :=
  do v <- new_version;
  do same <- lift (_version_compare current_version v);
  ret (negb same).

(** *** Release assets *)

Definition filename : string :=
  compat_realpath env (snd (variant_and_executable_path env)).

Definition release_name : Res string :=
  match dict_get detect_variant _FILE_SUFFIXES with
  | Some suffix => Ok ("yt-dlp" +:+ suffix)
  | None => Raise (Exn KeyError (fmt_repr detect_variant))
  end.

(** [dict(ln.split()[::-1] for ln in lines)]: every line must have
    exactly two fields, the digest and then the file name; a later line
    replaces an earlier one for the same name. *)
Fixpoint hash_dict (lines : list string) (d : gmap string string)
  : Res (gmap string string) :=
  match lines with
  | [] => Ok d
  | ln :: rest =>
      match PyStr.split ln with
      | [digest; name] => hash_dict rest (<[name := digest]> d)
      | _ => Raise (Exn ValueError
                      "dictionary update sequence element has the wrong length")
      end
  end.

Definition release_hash : M string :=
  cached cache_release_hash set_cache_release_hash
    (do tag <- _tag;
     do sums <- _download "SHA2-256SUMS" tag;
     do text <- lift (decode env sums);
     do hash_data <- lift (hash_dict (PyStr.splitlines text) ∅);
     do name <- lift release_name;
     match hash_data !! name with
     | Some h => ret h
     | None => raise (Exn KeyError (fmt_repr name))
     end).

(** *** Reporting *)

Definition _report_error (msg : string) (expected : bool) : M unit :=
  do _ <- emit (report_error msg (if expected then Some false else None));
  fun st => (Ok tt, set_retcode 100 st).

Definition _report_permission_error (path : string) : M unit :=
  _report_error ("Unable to write to " +:+ path
                 +:+ "; Try running as administrator") true.

Definition _report_network_error (action delim : string) : M unit :=
  let target_tag :=
    if PyStr.startswith "tags/" (_target_tag self)
    then "tag/" +:+ PyStr.drop 5 (_target_tag self)
    else _target_tag self in
  _report_error
    ("Unable to " +:+ action +:+ delim +:+ " visit  "
     +:+ "https://github.com/" +:+ fmt_opt (_target_repo self)
     +:+ "/releases/" +:+ target_tag) true.

(** *** The operating system *)

(** One call into [os]: it raises [OSError] when the environment refuses
    it or when [possible] does not hold of the file system; otherwise
    [effect] is applied.  Either way the call is recorded. *)
Definition os_do (c : os_call) (possible : gmap string file -> bool)
    (effect : gmap string file -> gmap string file) : M unit :=
  fun st =>
    if (negb (os_fault env (os_history st) c) && possible (fs st))%bool
    then (Ok tt, set_os (effect (fs st)) ((c, true) :: os_history st) st)
    else (Raise (Exn OSError "OSError"),
          set_os (fs st) ((c, false) :: os_history st) st).

Definition exists_in (p : string) (m : gmap string file) : bool :=
  match m !! p with Some _ => true | None => false end.

Definition os_path_exists (p : string) : M bool :=
  gets (fun st => exists_in p (fs st)).

Definition os_remove (p : string) : M unit :=
  os_do (Remove p) (exists_in p) (delete p).

Definition os_rename (src dst : string) : M unit :=
  os_do (Rename src dst) (exists_in src)
    (fun m => match m !! src with
              | Some f => <[dst := f]> (delete src m)
              | None => m
              end).

Definition os_chmod (p : string) (mode : Z) : M unit :=
  os_do (Chmod p mode) (exists_in p)
    (fun m => match m !! p with
              | Some f => <[p := {| content := content f; st_mode := mode |}]> m
              | None => m
              end).

Definition os_stat_st_mode (p : string) : M Z :=
  do _ <- os_do (Stat p) (exists_in p) (fun m => m);
  gets (fun st => match fs st !! p with Some f => st_mode f | None => 0%Z end).

Definition read_file (p : string) : M string :=
  do _ <- os_do (ReadAll p) (exists_in p) (fun m => m);
  gets (fun st => match fs st !! p with Some f => content f | None => "" end).

(** [with open(p, 'wb') as outf: outf.write(data)]: opening creates the
    file or empties it; a failed write leaves it empty. *)
Definition write_file (p data : string) : M unit :=
  do _ <- os_do (OpenWrite p) (fun _ => true)
            (fun m => <[p := {| content := "";
                                st_mode := match m !! p with
                                           | Some f => st_mode f
                                           | None => 33188%Z
                                           end |}]> m);
  os_do (WriteAll p data) (exists_in p)
    (fun m => match m !! p with
              | Some f => <[p := {| content := data; st_mode := st_mode f |}]> m
              | None => m
              end).

Definition _sha256_file (p : string) : M string :=
  do data <- read_file p;
  ret (sha256_hexdigest env data).

Definition atexit_register (cmd : string) : M unit :=
  fun st => (Ok tt, set_atexit (atexit st ++ [cmd]) st).

(** *** check_update *)

Definition check_update : M bool :=
  if negb (truthy (_target_repo self))
  then
    do _ <- _report_error
              ("No channel source for " +:+ fmt_repr (_target_channel self)
               +:+ " set. Valid channels are "
               +:+ join_comma (map fst UPDATE_SOURCES)) false;
    ret false
  else
    do shown <-
      try_except
        (do latest <- latest_version;
         do _ <- emit (to_screen
                   ("Available: " +:+ _target_channel self +:+ "@" +:+ latest
                    +:+ ", Current: " +:+ _full_current_version));
         ret true)
        (fun _ => true)
        (fun err =>
           do _ <- _report_network_error
                     ("obtain version info (" +:+ exn_msg err +:+ ")")
                     "; Please try again later or";
           ret false);
    if negb shown then ret false
    else
      do upd <- has_update;
      if upd then
        do _ <- (if negb (truthy is_non_updateable)
                 then do h <- _sha256_file filename;
                      emit (to_screen ("Current Build Hash: " +:+ h))
                 else ret tt);
        ret true
      else
        do tag <- _tag;
        do _ <- (if String.eqb (_target_tag self) tag
                 then emit (to_screen ("yt-dlp is up to date ("
                                       +:+ _full_current_version +:+ ")"))
                 else
                   let msg := "yt-dlp cannot be updated "
                              +:+ (if _exact self then "to the specified version"
                                   else "any further")
                              +:+ " since you are on an older Python version" in
                   if _exact self then _report_error msg true
                   else emit (report_warning msg));
        ret false.

(** *** update

    [update] returns [None] through a bare [return] or through
    [return self._report_error(...)], and [True] at its end: the result is
    an [option bool].  The body is cut at the places where the source
    starts a new [try], each part ending in the next one. *)

(** The end of [update]: disposal of the backup, the permission bits and
    the success message.  [old] is [old_filename] with the [mask] read
    before the swap. *)
Definition update_cleanup (old : option (string * Z)) : M (option bool) :=
  let variant := detect_variant in
  do go_on <-
    (if (PyStr.startswith "win" variant || String.eqb variant "py2exe")%bool
     then
       do _ <- atexit_register
                 ("ping 127.0.0.1 -n 5 -w 1000 & del /F " +:+ dquote
                  +:+ fmt_opt (option_map fst old) +:+ dquote);
       ret true
     else
       match old with
       | Some (old_filename, mask) =>
           do _ <- try_except (os_remove old_filename) (is_kind OSError)
                     (fun _ => _report_error "Unable to remove the old version" false);
           try_except
             (do _ <- os_chmod filename mask; ret true)
             (is_kind OSError)
             (fun _ =>
                do _ <- _report_error
                          ("Unable to set permissions. Run: sudo chmod a+rx "
                           +:+ compat_shlex_quote env filename) false;
                ret false)
       | None => ret true
       end);
  if negb go_on then ret None
  else
    do v <- _full_new_version;
    do _ <- emit (to_screen ("Updated yt-dlp to " +:+ v));
    ret (Some true).

(** The swap: [current -> old], then [new -> current], with the rename
    back when the second one fails. *)
Definition update_swap (new_filename : string) (old_filename : option string)
  : M (option bool) :=
  match old_filename with
  | Some old =>
      do mask <- os_stat_st_mode filename;
      do moved <-
        try_except (do _ <- os_rename filename old; ret true)
          (is_kind OSError)
          (fun _ =>
             do _ <- _report_error "Unable to move current version" false;
             ret false);
      if negb moved then ret None
      else
        do swapped <-
          try_except (do _ <- os_rename new_filename filename; ret true)
            (is_kind OSError)
            (fun _ =>
               do _ <- _report_error "Unable to overwrite current version" false;
               do _ <- os_rename old filename;
               ret false);
        if negb swapped then ret None
        else update_cleanup (Some (old, mask))
  | None => update_cleanup None
  end.

(** The write of the new file. *)
Definition update_write (newcontent new_filename : string)
    (old_filename : option string) : M (option bool) :=
  do written <-
    try_except (do _ <- write_file new_filename newcontent; ret true)
      (is_kind OSError)
      (fun _ => do _ <- _report_permission_error new_filename; ret false);
  if negb written then ret None
  else update_swap new_filename old_filename.

(** Verification of the downloaded bytes. *)
Definition update_install (newcontent new_filename : string)
    (old_filename : option string) : M (option bool) :=
  do expected <-
    try_except (do h <- release_hash; ret (Some h))
      (fun _ => true)
      (fun _ =>
         do _ <- emit (report_warning
                         "no hash information found for the release");
         ret None);
  if match expected with
     | Some h => negb (String.eqb (sha256_hexdigest env newcontent) h)
     | None => false
     end
  then do _ <- _report_network_error "verify the new executable" ";";
       ret None
  else update_write newcontent new_filename old_filename.

(** Removal of a stale backup and the download. *)
Definition update_download (new_filename : string)
    (old_filename : option string) : M (option bool) :=
  do removed <-
    try_except
      (match old_filename with
       | Some old =>
           do there <- os_path_exists old;
           if there then do _ <- os_remove old; ret true else ret true
       | None => ret true
       end)
      (is_kind OSError)
      (fun _ =>
         do _ <- _report_error "Unable to remove the old version" false;
         ret false);
  if negb removed then ret None
  else
    do newcontent <-
      try_except
        (do name <- lift release_name;
         do tag <- _tag;
         do data <- _download name tag;
         ret (Some data))
        (fun _ => true)
        (fun err =>
           do _ <- (if is_kind OSError err
                    then _report_network_error "download latest version" ";"
                    else _report_network_error
                           ("fetch updates: " +:+ exn_msg err) ";");
           ret None);
    match newcontent with
    | None => ret None
    | Some data => update_install data new_filename old_filename
    end.

Definition update : M (option bool) :=
  do available <- check_update;
  if negb available then ret None
  else
    let err := is_non_updateable in
    if truthy err
    then do _ <- _report_error (fmt_opt err) true; ret None
    else
      do v <- _full_new_version;
      do _ <- emit (to_screen ("Updating to " +:+ v +:+ " ..."));
      let directory := os_path_dirname env filename in
      if negb (os_access_W_OK env filename)
      then do _ <- _report_permission_error filename; ret None
      else if negb (os_access_W_OK env directory)
      then do _ <- _report_permission_error directory; ret None
      else
        let '(new_filename, old_filename) :=
          if String.eqb detect_variant "zip" then (filename, None)
          else (filename +:+ ".new", Some (filename +:+ ".old")) in
        update_download new_filename old_filename.

End Update.

(** [run_update(ydl)] *)
Definition run_update (env : Env) : M (option bool) :=
  do self <- __init__ env None;
  update env self.

(** ** A concrete environment

    The theorems below hold for every [Env].  To run the updater on actual
    inputs the external helpers get executable stand-ins here. *)

Module Concrete.

(** Decimal integer of a non-empty string of digits. *)
Fixpoint int_of_digits (acc : Z) (s : string) : option Z :=
  match s with
  | EmptyString => Some acc
  | String c s' =>
      if is_digit c
      then int_of_digits (10 * acc + Z.of_nat (nat_of_ascii c - 48)) s'
      else None
  end.

Definition py_int (s : string) : option Z :=
  match s with
  | EmptyString => None
  | _ => int_of_digits 0 s
  end.

(** The fields of [s] between dots; [cur] is the field being read,
    reversed. *)
Fixpoint split_dots (cur : list ascii) (s : string) : list string :=
  match s with
  | EmptyString => [string_of_list_ascii (rev cur)]
  | String c s' =>
      if Ascii.eqb c "."%char
      then string_of_list_ascii (rev cur) :: split_dots [] s'
      else split_dots (c :: cur) s'
  end.

Fixpoint ints_of (fields : list string) : option (list Z) :=
  match fields with
  | [] => Some []
  | f :: fields' =>
      match py_int f, ints_of fields' with
      | Some n, Some ns => Some (n :: ns)
      | _, _ => None
      end
  end.

(** Modelled from the spec: [version_tuple] of [yt_dlp/utils.py], which is
    not part of the sources at hand.  The spec compares versions as
    dotted-numeric tuples and calls a version string that is not one
    unparseable: the string is cut at the dots, each field is read as a
    decimal integer, and a field that is not one raises [ValueError]. *)
Definition dotted_version_tuple (v : string) : Res (list Z) :=
  match ints_of (split_dots [] v) with
  | Some t => Ok t
  | None => Raise (Exn ValueError "invalid literal for int() with base 10")
  end.

(** [re.match] for the patterns made of plain characters, [.] and a [*]
    after either; other patterns are outside this matcher and are
    answered with an error. *)
Inductive re_atom : Type := AnyChar | Lit (c : ascii).

Definition is_meta (c : ascii) : bool :=
  existsb (Ascii.eqb c)
    (list_ascii_of_string "[](){}+?|^$\*").

Fixpoint re_parse (p : string) : option (list (re_atom * bool)) :=
  match p with
  | EmptyString => Some []
  | String c p' =>
      if is_meta c then None
      else
        let atom := if Ascii.eqb c "."%char then AnyChar else Lit c in
        match p' with
        | String c' p'' =>
            if Ascii.eqb c' "*"%char
            then option_map (cons (atom, true)) (re_parse p'')
            else option_map (cons (atom, false)) (re_parse p')
        | EmptyString => Some [(atom, false)]
        end
  end.

Definition atom_matches (a : re_atom) (c : ascii) : bool :=
  match a with
  | AnyChar => negb (Nat.eqb (nat_of_ascii c) 10)
  | Lit c' => Ascii.eqb c c'
  end.

Fixpoint match_here (items : list (re_atom * bool)) (s : string) : bool :=
  match items with
  | [] => true
  | (a, false) :: items' =>
      match s with
      | EmptyString => false
      | String c s' => atom_matches a c && match_here items' s'
      end
  | (a, true) :: items' =>
      (fix star (s : string) : bool :=
         match_here items' s
         || match s with
            | EmptyString => false
            | String c s' => atom_matches a c && star s'
            end) s
  end.

Definition re_match_fragment (pattern text : string) : Res bool :=
  match re_parse pattern with
  | Some items => Ok (match_here items text)
  | None => Raise (Exn ReError "pattern outside the supported fragment")
  end.

(** A stand-in for [hashlib.sha256(data).hexdigest()]: the sum of the
    bytes, in decimal.  No theorem depends on what the digest function
    is. *)
Definition byte_sum (data : string) : string :=
  pretty (fold_right (fun c n => nat_of_ascii c + n) 0
            (list_ascii_of_string data)).

(** [os.path.dirname] for POSIX paths without trailing slashes. *)
Definition posix_dirname (p : string) : string :=
  match PyStr.rpartition "/"%char p with
  | Some (EmptyString, _) => "/"
  | Some (h, _) => h
  | None => ""
  end.

(** An environment for a Linux executable at [/opt/yt-dlp]. *)
Definition linux_env (channel version : string)
    (api : string -> Res VersionInfo) (net : string -> Res string)
    (fault : list (os_call * bool) -> os_call -> bool) : Env :=
  {| CHANNEL := channel;
     __version__ := version;
     VARIANT := None;
     UPDATE_HINT := None;
     variant_and_executable_path := ("linux_exe", "/opt/yt-dlp");
     system_identifier := "CPython 3.7.17 (x86_64) - posix-linux-5.4 (glibc 2.31)";
     version_tuple := dotted_version_tuple;
     compat_realpath := fun p => p;
     compat_shlex_quote := fun p => p;
     re_match := re_match_fragment;
     sha256_hexdigest := byte_sum;
     decode := fun b => Ok b;
     urlopen_json := api;
     urlopen := net;
     os_path_dirname := posix_dirname;
     os_access_W_OK := fun _ => true;
     os_fault := fault |}.

(** A remote side given as tables from URLs to replies. *)
Definition table {A} (t : list (string * A)) (url : string) : Res A :=
  match dict_get url t with
  | Some a => Ok a
  | None => Raise (Exn OSError "HTTP Error 404: Not Found")
  end.

Definition no_fault : list (os_call * bool) -> os_call -> bool :=
  fun _ _ => false.

Definition initial_state (files : gmap string file) : State :=
  {| console := [];
     _download_retcode := None;
     cache_version_info := ∅;
     cache_tag := None;
     cache_release_hash := None;
     fs := files;
     os_history := [];
     atexit := [] |}.

Definition LF : string := String (ascii_of_nat 10) EmptyString.

End Concrete.

(** ** Reading the lock file: the vocabulary of the statements *)

Section LockVocabulary.

Variables (env : Env) (self : Updater).

(** The tag of the lock rule on [line], when [line] is a lock rule whose
    pattern matches the identifier of the running build. *)
Definition matching_lock (line : string) : option string :=
  if PyStr.startswith "lock " line
  then match split_lock line with
       | Ok (tag, pattern) =>
           match re_match env pattern (identifier env self) with
           | Ok true => Some tag
           | _ => None
           end
       | Raise _ => None
       end
  else None.

(** [line] is not a lock rule, or its pattern does not match. *)
Definition not_matching (line : string) : bool :=
  if PyStr.startswith "lock " line
  then match split_lock line with
       | Ok (tag, pattern) =>
           match re_match env pattern (identifier env self) with
           | Ok false => true
           | _ => false
           end
       | Raise _ => false
       end
  else true.

(** With an explicit target tag, the loop also goes on after a matching
    rule whose tag is not lower than the requested one. *)
Definition passed_over (line : string) : bool :=
  not_matching line
  || match matching_lock line with
     | Some tag =>
         match lock_not_lower env self tag with
         | Ok true => true
         | _ => false
         end
     | None => false
     end.

End LockVocabulary.

(** ** Scenarios *)

Module Scenario.
Import Concrete.

Definition exe : file := {| content := "OLD"; st_mode := 33261 |}.

Definition stable_api (what : string) : string :=
  "https://api.github.com/repos/Grub4K/actions-test/releases/" +:+ what.

Definition nightly_api (what : string) : string :=
  "https://api.github.com/repos/Grub4K/actions-archive-test/releases/" +:+ what.

Definition release (tag : string) (dl : string) : VersionInfo :=
  {| tag_name := Some tag;
     assets := [ ("_update_spec", dl +:+ "/_update_spec");
                 ("yt-dlp_linux", dl +:+ "/yt-dlp_linux");
                 ("SHA2-256SUMS", dl +:+ "/SHA2-256SUMS") ] |}.

Definition two_locks : string :=
  "lock 2024.01.01 .*-linux.*" +:+ LF +:+ "lock 2024.02.01 .*-linux.*" +:+ LF.

(** A stable build 2023.01.01; the latest stable release is 2024.03.01
    and publishes two lock rules that both match the build. *)
Module Locked.
Definition api : string -> Res VersionInfo :=
  table [ (stable_api "latest", release "2024.03.01" "https://dl/latest") ].
Definition net : string -> Res string :=
  table [ ("https://dl/latest/_update_spec", two_locks);
          ("https://dl/latest/yt-dlp_linux", "NEWBIN");
          ("https://dl/latest/SHA2-256SUMS",
           byte_sum "NEWBIN" +:+ "  yt-dlp_linux" +:+ LF) ].
Definition env : Env := linux_env "stable" "2023.01.01" api net no_fault.
Definition self : Updater :=
  {| _exact := false; _target_channel := "stable";
     _target_tag := "latest"; _target_repo := Some "Grub4K/actions-test" |}.
Definition st : State := initial_state {[ "/opt/yt-dlp" := exe ]}.
End Locked.

(** A stable build 2024.06.01 asked to move to the nightly channel, whose
    latest release 2023.01.01 is numerically older. *)
Module CrossChannel.
Definition api : string -> Res VersionInfo :=
  table [ (nightly_api "latest", release "2023.01.01" "https://dl/nightly") ].
Definition net : string -> Res string :=
  table [ ("https://dl/nightly/_update_spec", "") ].
Definition env : Env := linux_env "stable" "2024.06.01" api net no_fault.
Definition self : Updater :=
  {| _exact := false; _target_channel := "nightly";
     _target_tag := "latest";
     _target_repo := Some "Grub4K/actions-archive-test" |}.
Definition st : State := initial_state {[ "/opt/yt-dlp" := exe ]}.
End CrossChannel.

(** A stable build asked for [nightly@experimental]; the release of that
    name and the latest nightly release publish different lock rules. *)
Module Pinned.
Definition api : string -> Res VersionInfo :=
  table [ (nightly_api "latest", release "2024.03.01" "https://dl/latest");
          (nightly_api "tags/experimental",
           release "experimental" "https://dl/experimental") ].
Definition net : string -> Res string :=
  table [ ("https://dl/latest/_update_spec", two_locks);
          ("https://dl/experimental/_update_spec",
           "lock py37 .*-linux.*" +:+ LF +:+ "lock 2022.08.18 .*-linux.*" +:+ LF) ].
Definition env : Env := linux_env "stable" "2023.01.01" api net no_fault.
Definition self : Updater :=
  {| _exact := true; _target_channel := "nightly";
     _target_tag := "tags/experimental";
     _target_repo := Some "Grub4K/actions-archive-test" |}.
Definition st : State := initial_state {[ "/opt/yt-dlp" := exe ]}.
End Pinned.

(** The build of [Locked] with a checksum list that names another
    digest. *)
Module BadDigest.
Definition net : string -> Res string :=
  table [ ("https://dl/latest/_update_spec", two_locks);
          ("https://dl/latest/yt-dlp_linux", "NEWBIN");
          ("https://dl/latest/SHA2-256SUMS",
           "0  yt-dlp_linux" +:+ LF) ].
Definition env : Env :=
  linux_env "stable" "2023.01.01" Locked.api net no_fault.
End BadDigest.

(** The build of [Locked] on a system that refuses to rename anything
    onto the executable from its [.new] file. *)
Module SwapFails.
Definition fault (history : list (os_call * bool)) (c : os_call) : bool :=
  match c with
  | Rename src _ => String.eqb src "/opt/yt-dlp.new"
  | _ => false
  end.
Definition env : Env :=
  linux_env "stable" "2023.01.01" Locked.api Locked.net fault.
Definition st : State :=
  initial_state {[ "/opt/yt-dlp" := exe;
                   "/opt/yt-dlp.new" := {| content := "NEWBIN"; st_mode := 33188 |} ]}.
Definition after_stat : State :=
  snd (os_stat_st_mode env (filename env) st).
Definition after_move : State :=
  snd (os_rename env (filename env) "/opt/yt-dlp.old" after_stat).
Definition after_swap : State :=
  snd (os_rename env "/opt/yt-dlp.new" (filename env) after_move).
Definition reported : State :=
  set_retcode 100
    (set_console
       (fun l => l ++ [report_error "Unable to overwrite current version" None])
       after_swap).
End SwapFails.

End Scenario.

(** ** Computations: the vocabulary of the statements *)

(** [wp m Q st]: every outcome of [m] from [st] satisfies [Q]. *)
Definition wp {A} (m : M A) (Q : Res A -> State -> Prop) (st : State) : Prop :=
  forall r st', m st = (r, st') -> Q r st'.

(** A step that only talks to the network leaves the file system, the
    history of [os] calls, the [atexit] registrations and the exit code
    alone, and only adds to the console. *)
Definition net_step (st st' : State) : Prop :=
  fs st' = fs st /\ os_history st' = os_history st /\
  atexit st' = atexit st /\ _download_retcode st' = _download_retcode st /\
  exists l, console st' = console st ++ l.

Definition net_only {A} (m : M A) : Prop :=
  forall st, wp m (fun _ st' => net_step st st') st.

(** [quiet_step allowed st st']: from [st] to [st'] the console only grew,
    and every call into [os] made in between that failed is one of
    [allowed]. *)
Definition quiet_step (allowed : os_call -> Prop) (st st' : State) : Prop :=
  length (console st) <= length (console st') /\
  exists h, os_history st' = h ++ os_history st /\
            forall c, In (c, false) h -> allowed c.

(** What a part of [update] that starts in [st] promises about its result:
    an exception it lets through satisfies [raised]; after [None] the
    console has grown; [False] is never returned; after [True] the step was
    quiet, the last line printed is the success message, and [F] holds of
    the final state. *)
Definition outcome (raised : exn -> State -> Prop)
    (allowed : os_call -> Prop) (F : State -> Prop)
    (st : State) (r : Res (option bool)) (st' : State) : Prop :=
  match r with
  | Raise e => raised e st'
  | Ok None => length (console st) < length (console st')
  | Ok (Some false) => False
  | Ok (Some true) =>
      quiet_step allowed st st' /\
      (exists l v, console st' = l ++ [to_screen ("Updated yt-dlp to " +:+ v)]) /\
      F st'
  end.

(** Where an exception that leaves a run of [update] from [st] comes from:
    [check_update], which the run starts with, the computation of the
    label of the new version, or a call into [os] that is one of [fatal]
    and is the last call made. *)
Definition unguarded (env : Env) (self : Updater) (st : State)
    (fatal : os_call -> Prop) (e : exn) (st' : State) : Prop :=
  check_update env self st = (Raise e, st') \/
  (exists s, _full_new_version env self s = (Raise e, st')) \/
  (exists c h, os_history st' = (c, false) :: h /\ fatal c).

(** The file at the path of the executable holds [data]. *)
Definition holds (env : Env) (data : string) (m : gmap string file) : Prop :=
  content <$> m !! filename env = Some data.

(** From [st] to [st'] nothing memoized was forgotten or replaced: the
    tag that [_tag] resolved and the release metadata of every tag asked
    for are in [st'] what they were in [st]. *)
Definition memo_kept (st st' : State) : Prop :=
  (forall t, cache_tag st = Some t -> cache_tag st' = Some t) /\
  (forall k i, cache_version_info st !! k = Some i ->
               cache_version_info st' !! k = Some i).

(** [data] is what [self._download(self.release_name, self._tag)] gives
    in [st]: [_tag] is resolved there to a tag, the metadata of that tag is
    memoized there, it has an asset with the release name of the build,
    and [data] are the bytes behind the download URL of that asset.  A
    state has at most one such [data]. *)
Definition fetched (env : Env) (st : State) (data : string) : Prop :=
  exists name tag info url,
    release_name env = Ok name /\
    cache_tag st = Some tag /\
    cache_version_info st !! tag = Some info /\
    asset_url name info = Some url /\ url <> "" /\
    urlopen env url = Ok data.

(** At the end of a run, the file at the path of the executable holds the
    bytes that the run fetched for the resolved tag. *)
Definition installed (env : Env) (st' : State) : Prop :=
  exists data, fetched env st' data /\ holds env data (fs st').

(** The preconditions [update] checks before it writes anything. *)
Definition updatable (env : Env) : Prop :=
  truthy (is_non_updateable env) = false /\
  os_access_W_OK env (filename env) = true /\
  os_access_W_OK env (os_path_dirname env (filename env)) = true.

(** The only call into [os] that may fail in a successful update: the
    disposal of the backup. *)
Definition backup_disposal (env : Env) (c : os_call) : Prop :=
  c = Remove (filename env +:+ ".old").

(** The calls into [os] that [update] makes outside any [try]: [os.stat]
    on the executable and, in the handler of a failed swap, the rename of
    the backup back onto the executable. *)
Definition outside_try (env : Env) (c : os_call) : Prop :=
  c = Stat (filename env) \/
  c = Rename (filename env +:+ ".old") (filename env).

(** What the result of [update] says about the run from [st] to [st']. *)
Definition update_postcondition (env : Env) (self : Updater)
    (st : State) (r : Res (option bool)) (st' : State) : Prop :=
  match r with
  | Raise e => unguarded env self st (outside_try env) e st'
  | Ok (Some true) =>
      updatable env /\
      quiet_step (backup_disposal env) st st' /\
      (exists l v,
          console st' = l ++ [to_screen ("Updated yt-dlp to " +:+ v)]) /\
      installed env st'
  | Ok (Some false) => False
  | Ok None => length (console st) < length (console st')
  end.

(** ** The checksum list: the vocabulary of the statements *)

(** [ln] has exactly two fields. *)
Definition two_fields (ln : string) : bool :=
  match PyStr.split ln with
  | [_; _] => true
  | _ => false
  end.

(** The digest that the last line of [lines] naming [name] gives it. *)
Fixpoint last_digest (name : string) (lines : list string) : option string :=
  match lines with
  | [] => None
  | ln :: rest =>
      match last_digest name rest with
      | Some d => Some d
      | None =>
          match PyStr.split ln with
          | [digest; n] => if String.eqb n name then Some digest else None
          | _ => None
          end
      end
  end.

(** ** The constructor: the vocabulary of the statements *)

(** What holds of the three values the first half of the constructor
    computes. *)
Definition target_shape (r : bool * string * string) : Prop :=
  let '(exact, channel, tag) := r in
  channel <> "" /\
  (tag = "latest" \/
   exists x, x <> "" /\ x <> "latest" /\ tag = "tags/" +:+ x /\ exact = true) /\
  (exact = false -> tag = "latest").

(** ** Other builds *)

Module Builds.

(** The build [e] packaged as [variant]. *)
Definition as_variant (variant : string) (e : Env) : Env :=
  {| CHANNEL := CHANNEL e;
     __version__ := __version__ e;
     VARIANT := VARIANT e;
     UPDATE_HINT := UPDATE_HINT e;
     variant_and_executable_path :=
       (variant, snd (variant_and_executable_path e));
     system_identifier := system_identifier e;
     version_tuple := version_tuple e;
     compat_realpath := compat_realpath e;
     compat_shlex_quote := compat_shlex_quote e;
     re_match := re_match e;
     sha256_hexdigest := sha256_hexdigest e;
     decode := decode e;
     urlopen_json := urlopen_json e;
     urlopen := urlopen e;
     os_path_dirname := os_path_dirname e;
     os_access_W_OK := os_access_W_OK e;
     os_fault := os_fault e |}.

(** The build of [Scenario.Locked] run from its source tree. *)
Definition source_env : Env := as_variant "source" Scenario.Locked.env.

(** A stable build 2023.01.01 packaged as [win_exe]; the latest release
    2024.03.01 publishes no lock rule. *)
Module Windows.
Import Concrete.
Definition api : string -> Res VersionInfo :=
  table [ (Scenario.stable_api "latest",
           {| tag_name := Some "2024.03.01";
              assets := [ ("_update_spec", "https://dl/latest/_update_spec");
                          ("yt-dlp.exe", "https://dl/latest/yt-dlp.exe");
                          ("SHA2-256SUMS", "https://dl/latest/SHA2-256SUMS") ] |}) ].
Definition net : string -> Res string :=
  table [ ("https://dl/latest/_update_spec", "");
          ("https://dl/latest/yt-dlp.exe", "NEWEXE");
          ("https://dl/latest/SHA2-256SUMS",
           byte_sum "NEWEXE" +:+ "  yt-dlp.exe" +:+ LF) ].
Definition env : Env :=
  as_variant "win_exe" (linux_env "stable" "2023.01.01" api net no_fault).
End Windows.

(** The build of [Scenario.Locked] on a system that refuses every rename
    onto the executable: the swap fails, and so does the rename back. *)
Module RollbackFails.
Definition fault (history : list (os_call * bool)) (c : os_call) : bool :=
  match c with
  | Rename _ dst => String.eqb dst "/opt/yt-dlp"
  | _ => false
  end.
Definition env : Env :=
  Concrete.linux_env "stable" "2023.01.01" Scenario.Locked.api
    Scenario.Locked.net fault.
End RollbackFails.

(** The build of [Scenario.Locked] on a system that refuses to remove the
    backup. *)
Module BackupStays.
Definition fault (history : list (os_call * bool)) (c : os_call) : bool :=
  match c with
  | Remove p => String.eqb p "/opt/yt-dlp.old"
  | _ => false
  end.
Definition env : Env :=
  Concrete.linux_env "stable" "2023.01.01" Scenario.Locked.api
    Scenario.Locked.net fault.
End BackupStays.

(** The build of [Scenario.Locked] at the version of the latest release. *)
Definition current_env : Env :=
  Concrete.linux_env "stable" "2024.03.01" Scenario.Locked.api
    Scenario.Locked.net Concrete.no_fault.

(** A request for the stable release 2024.02.01. *)
Definition pinned_self : Updater :=
  {| _exact := true; _target_channel := "stable";
     _target_tag := "tags/2024.02.01";
     _target_repo := Some "Grub4K/actions-test" |}.

(** The build of [Scenario.Locked] installed where nothing can be
    written. *)
Definition readonly_env : Env :=
  {| CHANNEL := CHANNEL Scenario.Locked.env;
     __version__ := __version__ Scenario.Locked.env;
     VARIANT := VARIANT Scenario.Locked.env;
     UPDATE_HINT := UPDATE_HINT Scenario.Locked.env;
     variant_and_executable_path :=
       variant_and_executable_path Scenario.Locked.env;
     system_identifier := system_identifier Scenario.Locked.env;
     version_tuple := version_tuple Scenario.Locked.env;
     compat_realpath := compat_realpath Scenario.Locked.env;
     compat_shlex_quote := compat_shlex_quote Scenario.Locked.env;
     re_match := re_match Scenario.Locked.env;
     sha256_hexdigest := sha256_hexdigest Scenario.Locked.env;
     decode := decode Scenario.Locked.env;
     urlopen_json := urlopen_json Scenario.Locked.env;
     urlopen := urlopen Scenario.Locked.env;
     os_path_dirname := os_path_dirname Scenario.Locked.env;
     os_access_W_OK := fun _ => false;
     os_fault := os_fault Scenario.Locked.env |}.

End Builds.

(** ** The footprint of a run: the vocabulary of the statements *)

(** The paths a call into [os] names. *)
Definition paths_of (c : os_call) : list string :=
  match c with
  | Remove p | OpenWrite p | WriteAll p _ | ReadAll p | Stat p | Chmod p _ => [p]
  | Rename src dst => [src; dst]
  end.

(** From [st] to [st'] no file outside [paths] was created, changed or
    removed, and every call into [os] made in between names paths of
    [paths] only. *)
Definition confined (paths : list string) (st st' : State) : Prop :=
  (forall p, ~ In p paths -> fs st' !! p = fs st !! p) /\
  exists h, os_history st' = h ++ os_history st /\
            forall c ok p, In (c, ok) h -> In p (paths_of c) -> In p paths.

(** The paths [update] works on: the executable, the new file written next
    to it and the backup. *)
Definition update_paths (env : Env) : list string :=
  [filename env; filename env +:+ ".new"; filename env +:+ ".old"].

(** ** The swap as a transaction: the vocabulary of the statements *)

(** The variants for which [update] leaves the backup to a command run at
    exit. *)
Definition windows_like (env : Env) : bool :=
  (PyStr.startswith "win" (detect_variant env)
   || String.eqb (detect_variant env) "py2exe")%bool.

(** The command registered with [atexit] to delete [path]. *)
Definition deferred_delete (path : string) : string :=
  "ping 127.0.0.1 -n 5 -w 1000 & del /F " +:+ dquote +:+ path +:+ dquote.

(** The three states [update] can leave the executable in, [f] being the
    file at its path and [registered] the [atexit] commands before the
    run. *)

(** The executable is the file it was. *)
Definition kept (env : Env) (f : file) (registered : list string)
    (st' : State) : Prop :=
  fs st' !! filename env = Some f /\ atexit st' = registered.

(** There is no file at the path of the executable; the file it was is the
    backup, and the run ended in the exception of the rename back. *)
Definition stranded (env : Env) (f : file) (registered : list string)
    (r : Res (option bool)) (st' : State) : Prop :=
  fs st' !! filename env = None /\
  fs st' !! (filename env +:+ ".old") = Some f /\
  atexit st' = registered /\
  exists e h,
    r = Raise e /\
    os_history st'
    = (Rename (filename env +:+ ".old") (filename env), false) :: h.

(** The executable holds [data] and the new file is gone.  On the
    Windows-like variants the backup is the file the executable was and
    its deletion is registered with [atexit]; on the others nothing is
    registered, the backup is gone or is that file, and after [True] the
    executable has the permission bits it had. *)
Definition replaced (env : Env) (f : file) (registered : list string)
    (data : string) (r : Res (option bool)) (st' : State) : Prop :=
  exists mode,
    fs st' !! filename env = Some {| content := data; st_mode := mode |} /\
    fs st' !! (filename env +:+ ".new") = None /\
    if windows_like env
    then atexit st' = registered ++ [deferred_delete (filename env +:+ ".old")] /\
         fs st' !! (filename env +:+ ".old") = Some f
    else atexit st' = registered /\
         (fs st' !! (filename env +:+ ".old") = None \/
          fs st' !! (filename env +:+ ".old") = Some f) /\
         (r = Ok (Some true) -> mode = st_mode f).

Definition swap_outcome (env : Env) (f : file)
    (registered : list string) (data : string) (r : Res (option bool))
    (st' : State) : Prop :=
  (r <> Ok (Some true) /\ kept env f registered st') \/
  stranded env f registered r st' \/
  replaced env f registered data r st'.

Definition update_outcome (env : Env) (f : file)
    (registered : list string) (r : Res (option bool)) (st' : State) : Prop :=
  (r <> Ok (Some true) /\ kept env f registered st') \/
  stranded env f registered r st' \/
  exists data, fetched env st' data /\
               replaced env f registered data r st'.

(** ** The interpreter and the process *)

(** More of Python's [str], on ASCII text. *)
Module PyText.

(** [s[:n]] *)
Fixpoint take (n : nat) (s : string) : string :=
  match n, s with
  | O, _ | _, EmptyString => EmptyString
  | S n', String c s' => String c (take n' s')
  end.

(** [s.endswith(e)] *)
Definition endswith (e s : string) : bool :=
  (Nat.leb (String.length e) (String.length s)
   && String.eqb (PyStr.drop (String.length s - String.length e) s) e)%bool.

Definition lower_char (c : ascii) : ascii :=
  let n := nat_of_ascii c in
  if (Nat.leb 65 n && Nat.leb n 90)%bool then ascii_of_nat (n + 32) else c.

(** [s.lower()] *)
Fixpoint lower (s : string) : string :=
  match s with
  | EmptyString => EmptyString
  | String c s' => String (lower_char c) (lower s')
  end.

(** [s.lstrip()] *)
Fixpoint lstrip (s : string) : string :=
  match s with
  | EmptyString => EmptyString
  | String c s' => if PyStr.is_space c then lstrip s' else s
  end.

(** [s.rstrip()]: [None] stands for a string that is all whitespace. *)
Fixpoint rstrip_aux (s : string) : option string :=
  match s with
  | EmptyString => None
  | String c s' =>
      match rstrip_aux s' with
      | Some t => Some (String c t)
      | None => if PyStr.is_space c then None else Some (String c EmptyString)
      end
  end.

Definition rstrip (s : string) : string :=
  match rstrip_aux s with Some t => t | None => EmptyString end.

(** [s.strip()] *)
Definition strip (s : string) : string := rstrip (lstrip s).

End PyText.

(** [remove_end(s, end)] of [.utils]: [s[:-len(end)]] when [s] ends with
    [end], which is the empty string when [end] is empty. *)
Definition remove_end (s e : string) : string :=
  if PyText.endswith e s
  then match e with
       | EmptyString => EmptyString
       | _ => PyText.take (String.length s - String.length e) s
       end
  else s.

Definition is_hex_digit (c : ascii) : bool :=
  let n := nat_of_ascii c in
  ((Nat.leb 48 n && Nat.leb n 57) || (Nat.leb 97 n && Nat.leb n 102))%bool.

(** [re.fullmatch('[0-9a-f]+', s)] *)
Definition fullmatch_hex (s : string) : bool :=
  match s with
  | EmptyString => false
  | _ => forallb is_hex_digit (list_ascii_of_string s)
  end.

(** What the module reads of the interpreter, the platform and the process
    it runs in.
    - [sys_MEIPASS] is [None] when [sys] has no attribute [_MEIPASS];
    - [sys_orig_argv] is [None] when [sys] has no attribute [orig_argv];
    - [module_dirname] is [os.path.dirname(__file__)];
    - [git_rev_parse] is what [Popen.run(['git', 'rev-parse', '--short',
      'HEAD'], ...)] gives in the directory of the module: its standard
      output, or the exception it raises;
    - [Popen_run cmd] is the return code of [Popen.run(cmd)], or the
      exception it raises. *)
Record Runtime : Type := {
  sys_frozen : bool;
  sys_executable : string;
  sys_MEIPASS : option string;
  sys_platform : string;
  sys_argv : list string;
  sys_orig_argv : option (list string);
  platform_mac_ver : string;
  platform_machine : string;
  platform_architecture : string;
  module_dirname : string;
  loader_is_zipimporter : bool;
  os_path_basename : string -> string;
  os_path_join : string -> string -> string;
  os_path_exists_when_detected : string -> bool;
  git_rev_parse : Res string;
  shell_quote : list string -> string;
  Popen_run : list string -> Res Z
}.

Definition x86_names : list string :=
  ["x86"; "x86_64"; "amd64"; "i386"; "i686"].

Definition in_list (s : string) (l : list string) : bool :=
  existsb (String.eqb s) l.

Section Detection.

Variables (env : Env) (rt : Runtime).

(** The suffix for the machine of a one-file executable. *)
Definition machine_suffix : Res string :=
  if String.eqb (sys_platform rt) "darwin"
  then match version_tuple env (platform_mac_ver rt) with
       | Raise e => Raise e
       | Ok v => Ok (if PyTuple.ltb v [10; 15]%Z then "_legacy" else "")
       end
  else
    let machine := "_" +:+ PyText.lower (platform_machine rt) in
    Ok (if in_list (PyStr.drop 1 machine) x86_names
        then if String.eqb (PyText.take 2 (platform_architecture rt)) "32"
             then "_x86" else ""
        else machine).

Definition _get_variant_and_executable_path : Res (string * string) :=
  if sys_frozen rt
  then
    let path := sys_executable rt in
    match sys_MEIPASS rt with
    | None => Ok ("py2exe", path)
    | Some meipass =>
        if String.eqb meipass (os_path_dirname env path)
        then Ok (sys_platform rt +:+ "_dir", path)
        else match machine_suffix with
             | Raise e => Raise e
             | Ok machine =>
                 Ok (remove_end (sys_platform rt) "32" +:+ machine +:+ "_exe",
                     path)
             end
    end
  else
    let path := module_dirname rt in
    if loader_is_zipimporter rt then Ok ("zip", os_path_join rt path "..")
    else
      match sys_argv rt with
      | [] => Raise (Exn OtherException "list index out of range")
      | argv0 :: _ =>
          if (in_list (os_path_basename rt argv0) ["__main__.py"; "-m"]
              && os_path_exists_when_detected rt (os_path_join rt path "../.git/HEAD"))%bool
          then Ok ("source", path)
          else Ok ("unknown", path)
      end.

(** [detect_variant()] where the detection runs in [rt]: [VARIANT], or
    the variant that [_get_variant_and_executable_path] gives, with the
    exception it raises. *)
Definition detect_variant_in : Res string :=
  if truthy (VARIANT env) then Ok (fmt_opt (VARIANT env))
  else match _get_variant_and_executable_path with
       | Ok (variant, _) => Ok variant
       | Raise e => Raise e
       end.

(** [current_git_head()]: the call of [detect_variant] comes before
    [contextlib.suppress(Exception)] and can raise; the call of [git] and
    the test of its output are inside it: whatever is raised there, the
    result is [None]. *)
Definition current_git_head : Res (option string) :=
  match detect_variant_in with
  | Raise e => Raise e
  | Ok variant =>
      if negb (String.eqb variant "source") then Ok None
      else match git_rev_parse rt with
           | Raise _ => Ok None
           | Ok stdout =>
               if fullmatch_hex (PyText.strip stdout)
               then Ok (Some (PyText.strip stdout))
               else Ok None
           end
  end.

(** [Updater.cmd]: a list is true when it is not empty. *)
Definition cmd : option (list string) :=
  match sys_orig_argv rt with
  | Some (a :: l) => Some (a :: l)
  | _ => if sys_frozen rt then Some (sys_argv rt) else None
  end.

(** [Updater.restart], with assertions enabled. *)
Definition restart : M Z :=
  match cmd with
  | Some (a :: l) =>
      do _ <- emit (write_debug ("Restarting: " +:+ shell_quote rt (a :: l)));
      lift (Popen_run rt (a :: l))
  | _ => raise (Exn OtherException "Must be frozen or Py >= 3.10")
  end.

End Detection.

(** The build that a detection gives [env]: no variant and no hint fixed
    at build time, and the memoized result of the detection. *)
Definition detected (env : Env) (rt : Runtime) : Prop :=
  truthy (VARIANT env) = false /\ truthy (UPDATE_HINT env) = false /\
  _get_variant_and_executable_path env rt = Ok (variant_and_executable_path env).

(** The last character of a string. *)
Fixpoint last_char (s : string) : option ascii :=
  match s with
  | EmptyString => None
  | String c s' =>
      match last_char s' with
      | Some d => Some d
      | None => Some c
      end
  end.

Module Runtimes.

(** A one-file Linux executable on x86_64, unpacked under [/tmp]. *)
Definition linux_onefile : Runtime :=
  {| sys_frozen := true;
     sys_executable := "/opt/yt-dlp";
     sys_MEIPASS := Some "/tmp/_MEI1234";
     sys_platform := "linux";
     sys_argv := ["/opt/yt-dlp"; "-U"];
     sys_orig_argv := Some ["/opt/yt-dlp"; "-U"];
     platform_mac_ver := "";
     platform_machine := "x86_64";
     platform_architecture := "64bit";
     module_dirname := "/tmp/_MEI1234/yt_dlp";
     loader_is_zipimporter := false;
     os_path_basename := fun p => p;
     os_path_join := fun a b => a +:+ "/" +:+ b;
     os_path_exists_when_detected := fun _ => false;
     git_rev_parse := Raise (Exn OSError "git");
     shell_quote := fun l => join_comma l;
     Popen_run := fun _ => Ok 0%Z |}.

(** The same executable on a machine that calls itself [AMD64]. *)
Definition linux_onefile_amd64 : Runtime :=
  {| sys_frozen := true;
     sys_executable := "/opt/yt-dlp";
     sys_MEIPASS := Some "/tmp/_MEI1234";
     sys_platform := "linux";
     sys_argv := ["/opt/yt-dlp"; "-U"];
     sys_orig_argv := Some ["/opt/yt-dlp"; "-U"];
     platform_mac_ver := "";
     platform_machine := "AMD64";
     platform_architecture := "64bit";
     module_dirname := "/tmp/_MEI1234/yt_dlp";
     loader_is_zipimporter := false;
     os_path_basename := fun p => p;
     os_path_join := fun a b => a +:+ "/" +:+ b;
     os_path_exists_when_detected := fun _ => false;
     git_rev_parse := Raise (Exn OSError "git");
     shell_quote := fun l => join_comma l;
     Popen_run := fun _ => Ok 0%Z |}.

(** A checkout run with [python -m yt_dlp]. *)
Definition checkout : Runtime :=
  {| sys_frozen := false;
     sys_executable := "/usr/bin/python3";
     sys_MEIPASS := None;
     sys_platform := "linux";
     sys_argv := ["-m"; "-U"];
     sys_orig_argv := None;
     platform_mac_ver := "";
     platform_machine := "x86_64";
     platform_architecture := "64bit";
     module_dirname := "/src/yt_dlp";
     loader_is_zipimporter := false;
     os_path_basename := fun p => p;
     os_path_join := fun a b => a +:+ "/" +:+ b;
     os_path_exists_when_detected := fun _ => true;
     git_rev_parse := Ok ("1a2b3c4" +:+ Concrete.LF);
     shell_quote := fun l => join_comma l;
     Popen_run := fun _ => Ok 0%Z |}.

(** The build that the detection gives for [checkout]. *)
Definition checkout_env : Env :=
  {| CHANNEL := "stable";
     __version__ := "2023.01.01";
     VARIANT := None;
     UPDATE_HINT := None;
     variant_and_executable_path := ("source", "/src/yt_dlp");
     system_identifier := system_identifier Scenario.Locked.env;
     version_tuple := Concrete.dotted_version_tuple;
     compat_realpath := fun p => p;
     compat_shlex_quote := fun p => p;
     re_match := Concrete.re_match_fragment;
     sha256_hexdigest := Concrete.byte_sum;
     decode := fun b => Ok b;
     urlopen_json := Scenario.Locked.api;
     urlopen := Scenario.Locked.net;
     os_path_dirname := Concrete.posix_dirname;
     os_access_W_OK := fun _ => true;
     os_fault := Concrete.no_fault |}.

End Runtimes.

(** * Properties *)

(** ** Tuple comparison *)

Module PyTupleFacts.
Import PyTuple.

Lemma eqb_eq (a b : list Z) : eqb a b = true <-> a = b.
Proof.
  revert b; induction a as [|x a IH]; intros [|y b]; simpl;
    try (split; [discriminate | congruence]); [tauto|].
  rewrite andb_true_iff, Z.eqb_eq, IH.
  split; [intros [-> ->]; reflexivity | intros [= -> ->]; auto].
Qed.

Lemma geb_ltb (a b : list Z) : geb a b = negb (ltb a b).
Proof.
  revert b; induction a as [|x a IH]; intros [|y b]; simpl; auto.
  destruct (Z.eqb_spec x y) as [->|Hne]; [apply IH|].
  destruct (Z.leb_spec y x), (Z.ltb_spec x y); simpl; auto; lia.
Qed.

Lemma ltb_lex_lt (a b : list Z) : ltb a b = true <-> lex_lt a b.
Proof.
  revert b; induction a as [|x a IH]; intros [|y b]; simpl.
  - split; [discriminate | inversion 1].
  - split; [constructor | reflexivity].
  - split; [discriminate | inversion 1].
  - destruct (Z.eqb_spec x y) as [->|Hne].
    + rewrite IH. split; [apply lex_lt_tail|].
      inversion 1; subst; [lia | assumption].
    + rewrite Z.ltb_lt. split; [apply lex_lt_head|].
      inversion 1; subst; [assumption | congruence].
Qed.

Lemma lex_lt_irrefl (a : list Z) : ~ lex_lt a a.
Proof.
  induction a as [|x a IH]; inversion 1; subst; [lia | auto].
Qed.

End PyTupleFacts.

(** A run, named by its result and the state it ends in. *)
Lemma run_to {A} (m : M A) (st : State) (r : Res A) :
  fst (m st) = r -> m st = (r, snd (m st)).
Proof. intros <-. apply surjective_pairing. Qed.

(** ** Version comparison and [has_update] *)

Lemma _version_compare_other_channel (env : Env) (self : Updater) (a b : string) :
  CHANNEL env <> _target_channel self ->
  _version_compare env self a b = Ok false.
Proof.
  intros Hne. unfold _version_compare.
  apply String.eqb_neq in Hne. rewrite Hne. reflexivity.
Qed.

Lemma _version_compare_same_channel (env : Env) (self : Updater)
    (a b : string) (ta tb : list Z) :
  CHANNEL env = _target_channel self ->
  version_tuple env a = Ok ta ->
  version_tuple env b = Ok tb ->
  _version_compare env self a b =
    Ok (if _exact self then PyTuple.eqb ta tb else PyTuple.geb ta tb).
Proof.
  intros Hc Ha Hb. unfold _version_compare.
  rewrite Hc, String.eqb_refl, Ha, Hb. reflexivity.
Qed.

Lemma has_update_unfold (env : Env) (self : Updater) (st st' : State)
    (cand : string) :
  new_version env self st = (Ok cand, st') ->
  has_update env self st =
    (match _version_compare env self (current_version env) cand with
     | Ok same => Ok (negb same)
     | Raise e => Raise e
     end, st').
Proof.
  intros Hn. unfold has_update, bind, lift, ret. rewrite Hn.
  destruct (_version_compare env self (current_version env) cand); reflexivity.
Qed.

(** C7. On the channel of the running build, [has_update] holds exactly
    when the tuple of the candidate version is strictly greater than the
    tuple of the current version (non-exact mode), and exactly when the two
    tuples differ (exact mode). *)
Theorem has_update_same_channel (env : Env) (self : Updater) (st st' : State)
    (cand : string) (tc tn : list Z) :
  CHANNEL env = _target_channel self ->
  new_version env self st = (Ok cand, st') ->
  version_tuple env (current_version env) = Ok tc ->
  version_tuple env cand = Ok tn ->
  exists b : bool,
    has_update env self st = (Ok b, st') /\
    (b = true <-> if _exact self then tc <> tn else PyTuple.lex_lt tc tn).
Proof.
  intros Hc Hn Htc Htn.
  rewrite (has_update_unfold _ _ _ _ _ Hn).
  rewrite (_version_compare_same_channel _ _ _ _ _ _ Hc Htc Htn).
  eexists; split; [reflexivity|].
  destruct (_exact self).
  - rewrite negb_true_iff, <- not_true_iff_false, PyTupleFacts.eqb_eq. tauto.
  - rewrite PyTupleFacts.geb_ltb, negb_involutive. apply PyTupleFacts.ltb_lex_lt.
Qed.

(** C3 (amended). When the channel of the running build differs from the
    target channel, [_version_compare] answers [False] for every pair of
    version strings, and [has_update], its negation, is [True] whenever the
    candidate version can be determined, whatever the numeric order. *)
Theorem has_update_other_channel (env : Env) (self : Updater) (st st' : State)
    (cand : string) :
  CHANNEL env <> _target_channel self ->
  (forall a b : string, _version_compare env self a b = Ok false) /\
  (new_version env self st = (Ok cand, st') ->
   has_update env self st = (Ok true, st')).
Proof.
  intros Hne. split.
  - intros a b. apply _version_compare_other_channel, Hne.
  - intros Hn. rewrite (has_update_unfold _ _ _ _ _ Hn).
    rewrite _version_compare_other_channel by exact Hne. reflexivity.
Qed.

(** ** Reasoning about computations *)

Lemma bind_Ok {A B} (m : M A) (k : A -> M B) (st st1 : State) (a : A) :
  m st = (Ok a, st1) -> bind m k st = k a st1.
Proof. intros H. unfold bind. rewrite H. reflexivity. Qed.

Lemma bind_Raise {A B} (m : M A) (k : A -> M B) (st st1 : State) (e : exn) :
  m st = (Raise e, st1) -> bind m k st = (Raise e, st1).
Proof. intros H. unfold bind. rewrite H. reflexivity. Qed.

Lemma try_except_Ok {A} (m : M A) (handles : exn -> bool) (h : exn -> M A)
    (st st1 : State) (a : A) :
  m st = (Ok a, st1) -> try_except m handles h st = (Ok a, st1).
Proof. intros H. unfold try_except. rewrite H. reflexivity. Qed.

Lemma try_except_Raise {A} (m : M A) (handles : exn -> bool) (h : exn -> M A)
    (st st1 : State) (e : exn) :
  m st = (Raise e, st1) ->
  try_except m handles h st = if handles e then h e st1 else (Raise e, st1).
Proof. intros H. unfold try_except. rewrite H. reflexivity. Qed.


Lemma wp_conseq {A} (m : M A) (Q Q' : Res A -> State -> Prop) (st : State) :
  wp m Q st -> (forall r st', Q r st' -> Q' r st') -> wp m Q' st.
Proof. intros H HQ r st' E. apply HQ, H, E. Qed.

Lemma wp_ret {A} (a : A) (Q : Res A -> State -> Prop) (st : State) :
  Q (Ok a) st -> wp (ret a) Q st.
Proof. intros H r st' [= <- <-]. exact H. Qed.

Lemma wp_raise {A} (e : exn) (Q : Res A -> State -> Prop) (st : State) :
  Q (Raise e) st -> wp (raise e) Q st.
Proof. intros H r st' [= <- <-]. exact H. Qed.

Lemma wp_lift {A} (x : Res A) (Q : Res A -> State -> Prop) (st : State) :
  Q x st -> wp (lift x) Q st.
Proof. intros H r st' [= <- <-]. exact H. Qed.

Lemma wp_bind {A B} (m : M A) (k : A -> M B) (Q : Res B -> State -> Prop)
    (st : State) :
  wp m (fun r st1 => match r with
                     | Ok a => wp (k a) Q st1
                     | Raise e => Q (Raise e) st1
                     end) st ->
  wp (bind m k) Q st.
Proof.
  intros H r st' E. unfold bind in E.
  destruct (m st) as [[a|e] st1] eqn:Em; specialize (H _ _ Em); simpl in H.
  - apply H, E.
  - injection E as <- <-. exact H.
Qed.

Lemma wp_try_except {A} (m : M A) (handles : exn -> bool) (h : exn -> M A)
    (Q : Res A -> State -> Prop) (st : State) :
  wp m (fun r st1 => match r with
                     | Ok a => Q (Ok a) st1
                     | Raise e => if handles e then wp (h e) Q st1
                                  else Q (Raise e) st1
                     end) st ->
  wp (try_except m handles h) Q st.
Proof.
  intros H r st' E. unfold try_except in E.
  destruct (m st) as [[a|e] st1] eqn:Em; specialize (H _ _ Em); simpl in H.
  - injection E as <- <-. exact H.
  - destruct (handles e); [apply H, E | injection E as <- <-; exact H].
Qed.

Lemma wp_emit (ev : event) (Q : Res unit -> State -> Prop) (st : State) :
  Q (Ok tt) (set_console (fun l => l ++ [ev]) st) -> wp (emit ev) Q st.
Proof. intros H r st' [= <- <-]. exact H. Qed.

Lemma wp_cached {A} (get : State -> option A) (set : A -> State -> State)
    (body : M A) (Q : Res A -> State -> Prop) (st : State) :
  (forall a, get st = Some a -> Q (Ok a) st) ->
  (get st = None ->
   wp body (fun r st1 => match r with
                         | Ok a => Q (Ok a) (set a st1)
                         | Raise e => Q (Raise e) st1
                         end) st) ->
  wp (cached get set body) Q st.
Proof.
  intros Hhit Hmiss r st' E. unfold cached in E.
  destruct (get st) as [a|] eqn:Eg.
  - injection E as <- <-. apply Hhit. reflexivity.
  - specialize (Hmiss eq_refl).
    destruct (body st) as [[a|e] st1] eqn:Eb; specialize (Hmiss _ _ Eb);
      injection E as <- <-; exact Hmiss.
Qed.


Lemma net_step_refl (st : State) : net_step st st.
Proof. repeat split; exists []; symmetry; apply app_nil_r. Qed.

Lemma net_step_trans (a b c : State) :
  net_step a b -> net_step b c -> net_step a c.
Proof.
  intros (F1 & H1 & A1 & R1 & l1 & C1) (F2 & H2 & A2 & R2 & l2 & C2).
  repeat split; try congruence.
  exists (l1 ++ l2). rewrite C2, C1, app_assoc. reflexivity.
Qed.


Lemma net_only_ret {A} (a : A) : net_only (ret a).
Proof. intros st. apply wp_ret, net_step_refl. Qed.

Lemma net_only_raise {A} (e : exn) : net_only (@raise A e).
Proof. intros st. apply wp_raise, net_step_refl. Qed.

Lemma net_only_lift {A} (x : Res A) : net_only (lift x).
Proof. intros st. apply wp_lift, net_step_refl. Qed.

Lemma net_only_gets {A} (f : State -> A) : net_only (gets f).
Proof. intros st r st' [= <- <-]. apply net_step_refl. Qed.

Lemma net_only_emit (ev : event) : net_only (emit ev).
Proof.
  intros st. apply wp_emit. repeat split. exists [ev]. reflexivity.
Qed.

Lemma net_only_bind {A B} (m : M A) (k : A -> M B) :
  net_only m -> (forall a, net_only (k a)) -> net_only (bind m k).
Proof.
  intros Hm Hk st. apply wp_bind.
  eapply wp_conseq; [apply Hm|]. intros [a|e] st1 H1; [|exact H1].
  eapply wp_conseq; [apply Hk|]. intros r st2 H2.
  eapply net_step_trans; eassumption.
Qed.

Lemma net_only_cached {A} (get : State -> option A)
    (set : A -> State -> State) (body : M A) :
  net_only body -> (forall a st, net_step st (set a st)) ->
  net_only (cached get set body).
Proof.
  intros Hb Hs st. apply wp_cached.
  - intros _ _. apply net_step_refl.
  - intros _. eapply wp_conseq; [apply Hb|]. intros [a|e] st1 H1; [|exact H1].
    eapply net_step_trans; [exact H1 | apply Hs].
Qed.

Create HintDb net.

#[local] Hint Resolve net_only_ret net_only_raise net_only_lift net_only_emit
  : net.

Section NetOnly.

Variables (env : Env) (self : Updater).

Lemma net_only_get_version_info (tag : string) :
  net_only (_get_version_info env self tag).
Proof.
  apply net_only_cached.
  - apply net_only_bind; auto with net.
  - intros a st. repeat split. exists []. symmetry. apply app_nil_r.
Qed.

Lemma net_only_get_tag_name (info : VersionInfo) :
  net_only (get_tag_name info).
Proof. unfold get_tag_name. destruct (tag_name info); auto with net. Qed.

Lemma net_only_latest_version : net_only (latest_version env self).
Proof.
  apply net_only_bind;
    auto using net_only_get_version_info, net_only_get_tag_name.
Qed.

Lemma net_only_download (name tag : string) :
  net_only (_download env self name tag).
Proof.
  apply net_only_bind; [apply net_only_get_version_info|]. intros info.
  cbv beta zeta. destruct (negb _); [auto with net|].
  apply net_only_bind; auto with net.
Qed.

Lemma net_only_tag : net_only (_tag env self).
Proof.
  apply net_only_cached.
  - apply net_only_bind; [apply net_only_latest_version|]. intros latest.
    apply net_only_bind; [auto with net|]. intros [|]; [auto with net|].
    apply net_only_bind; [apply net_only_download|]. intros spec.
    apply net_only_bind; auto with net.
  - intros a st. repeat split. exists []. symmetry. apply app_nil_r.
Qed.

Lemma net_only_new_version : net_only (new_version env self).
Proof.
  apply net_only_bind; [apply net_only_tag|]. intros tag.
  cbv beta. destruct (PyStr.startswith _ _); [auto with net|].
  apply net_only_bind; [apply net_only_tag|]. intros tag'.
  apply net_only_bind;
    auto using net_only_get_version_info, net_only_get_tag_name.
Qed.

Lemma net_only_full_new_version : net_only (_full_new_version env self).
Proof. apply net_only_bind; [apply net_only_new_version | auto with net]. Qed.

Lemma net_only_has_update : net_only (has_update env self).
Proof.
  apply net_only_bind; [apply net_only_new_version|]. intros v.
  apply net_only_bind; auto with net.
Qed.

Lemma net_only_release_hash : net_only (release_hash env self).
Proof.
  apply net_only_cached.
  - apply net_only_bind; [apply net_only_tag|]. intros tag.
    apply net_only_bind; [apply net_only_download|]. intros sums.
    apply net_only_bind; [auto with net|]. intros text.
    apply net_only_bind; [auto with net|]. intros d.
    apply net_only_bind; [auto with net|]. intros name.
    cbv beta. destruct (d !! name); auto with net.
  - intros a st. repeat split. exists []. symmetry. apply app_nil_r.
Qed.

End NetOnly.

Lemma has_update_same_channel_witness :
  exists b : bool,
    has_update Scenario.Locked.env Scenario.Locked.self Scenario.Locked.st
    = (Ok b, snd (new_version Scenario.Locked.env Scenario.Locked.self
                    Scenario.Locked.st)) /\
    (b = true <-> PyTuple.lex_lt [2023; 1; 1]%Z [2024; 1; 1]%Z).
Proof.
  apply (has_update_same_channel Scenario.Locked.env Scenario.Locked.self
           Scenario.Locked.st _ "2024.01.01").
  - reflexivity.
  - apply run_to; vm_compute; reflexivity.
  - reflexivity.
  - reflexivity.
Defined.

Lemma has_update_other_channel_witness :
  (forall a b : string,
      _version_compare Scenario.CrossChannel.env Scenario.CrossChannel.self a b
      = Ok false) /\
  (new_version Scenario.CrossChannel.env Scenario.CrossChannel.self
     Scenario.CrossChannel.st
   = (Ok "2023.01.01",
      snd (new_version Scenario.CrossChannel.env Scenario.CrossChannel.self
             Scenario.CrossChannel.st)) ->
   has_update Scenario.CrossChannel.env Scenario.CrossChannel.self
     Scenario.CrossChannel.st
   = (Ok true,
      snd (new_version Scenario.CrossChannel.env Scenario.CrossChannel.self
             Scenario.CrossChannel.st))).
Proof.
  apply (has_update_other_channel Scenario.CrossChannel.env
           Scenario.CrossChannel.self Scenario.CrossChannel.st).
  vm_compute. discriminate.
Defined.

(** C3 as stated fails: a stable build 2024.06.01 that targets the nightly
    channel, whose latest release 2023.01.01 is older, reports an update. *)
Lemma has_update_other_channel_counterexample :
  CHANNEL Scenario.CrossChannel.env
  <> _target_channel Scenario.CrossChannel.self /\
  fst (new_version Scenario.CrossChannel.env Scenario.CrossChannel.self
         Scenario.CrossChannel.st) = Ok "2023.01.01" /\
  fst (has_update Scenario.CrossChannel.env Scenario.CrossChannel.self
         Scenario.CrossChannel.st) = Ok true.
Proof.
  split; [vm_compute; discriminate|].
  split; vm_compute; reflexivity.
Qed.

(** ** Target parsing *)

Lemma rpartition_append (sep : ascii) (c t : string) :
  PyStr.rpartition sep t = None ->
  PyStr.rpartition sep (c +:+ String sep t) = Some (c, t).
Proof.
  intros Ht. induction c as [|x c IH]; simpl.
  - rewrite Ht, Ascii.eqb_refl. reflexivity.
  - rewrite IH. reflexivity.
Qed.

Lemma truthy_Some (s : string) : s <> "" -> truthy (Some s) = true.
Proof. destruct s; [congruence | reflexivity]. Qed.

Lemma target_attributes_tag (env : Env) (target : option string) :
  snd (target_attributes env target) = "latest" \/
  exists x, snd (target_attributes env target) = "tags/" +:+ x.
Proof.
  unfold target_attributes.
  destruct (PyStr.rpartition _ _) as [[h t]|]; simpl;
    repeat match goal with
           | |- context [if ?b then _ else _] => destruct b; simpl
           end; eauto.
Qed.

(** ** The downgrade warning of the constructor *)

Lemma split_dots_head (cur : list ascii) (s : string) :
  exists f rest,
    Concrete.split_dots cur s = string_of_list_ascii (rev cur ++ f) :: rest.
Proof.
  revert cur; induction s as [|c s IH]; intros cur; simpl.
  - exists [], []. rewrite app_nil_r. reflexivity.
  - destruct (Ascii.eqb c "."%char).
    + exists [], (Concrete.split_dots [] s). rewrite app_nil_r. reflexivity.
    + destruct (IH (c :: cur)) as (f & rest & E).
      exists (c :: f), rest. rewrite E. simpl. rewrite <- app_assoc. reflexivity.
Qed.

Lemma dotted_version_tuple_prefixed (s : string) :
  Concrete.dotted_version_tuple ("tags/" +:+ s)
  = Raise (Exn ValueError "invalid literal for int() with base 10").
Proof.
  unfold Concrete.dotted_version_tuple.
  change (Concrete.split_dots [] ("tags/" +:+ s))
    with (Concrete.split_dots (rev (list_ascii_of_string "tags/")) s).
  destruct (split_dots_head (rev (list_ascii_of_string "tags/")) s)
    as (f & rest & ->).
  reflexivity.
Qed.

(** C9 (the code departs from it).  The constructor tests
    [self._target_tag[5:]] against the pattern of a bare numeric version
    but hands the whole [self._target_tag], prefix [tags/] included, to
    [version_tuple].  With versions read as dotted-numeric tuples that call
    raises [ValueError] for every such target: the constructor does not
    complete and no warning is printed. *)
Theorem init_numeric_tag_raises (env : Env) (target : option string)
    (st : State) :
  version_tuple env = Concrete.dotted_version_tuple ->
  fullmatch_dotted (PyStr.drop 5 (snd (target_attributes env target))) = true ->
  __init__ env target st
  = (Raise (Exn ValueError "invalid literal for int() with base 10"), st).
Proof.
  intros Hv Hm. unfold __init__.
  destruct (target_attributes_tag env target) as [E | [x E]];
    destruct (target_attributes env target) as [[exact channel] tag];
    cbn [snd] in E, Hm; subst tag.
  - discriminate Hm.
  - unfold bind, lift. rewrite Hm, Hv, dotted_version_tuple_prefixed.
    reflexivity.
Qed.

Lemma init_numeric_tag_raises_witness :
  __init__ Scenario.Locked.env (Some "2023.01.01") Scenario.Locked.st
  = (Raise (Exn ValueError "invalid literal for int() with base 10"),
     Scenario.Locked.st).
Proof.
  apply (init_numeric_tag_raises Scenario.Locked.env (Some "2023.01.01"));
    reflexivity.
Defined.

(** ** What the constructor returns *)

Lemma init_not_numeric (env : Env) (target : option string) (st : State) :
  fullmatch_dotted (PyStr.drop 5 (snd (target_attributes env target))) = false ->
  __init__ env target st
  = (Ok {| _exact := fst (fst (target_attributes env target));
           _target_channel := snd (fst (target_attributes env target));
           _target_tag := snd (target_attributes env target);
           _target_repo := dict_get (snd (fst (target_attributes env target)))
                             UPDATE_SOURCES |}, st).
Proof.
  unfold __init__.
  destruct (target_attributes env target) as [[exact channel] tag].
  cbn [fst snd]. intros Hm. rewrite Hm. reflexivity.
Qed.

Lemma init_numeric (env : Env) (target : option string) (st : State) (e : exn) :
  fullmatch_dotted (PyStr.drop 5 (snd (target_attributes env target))) = true ->
  version_tuple env (snd (target_attributes env target)) = Raise e ->
  __init__ env target st = (Raise e, st).
Proof.
  unfold __init__.
  destruct (target_attributes env target) as [[exact channel] tag].
  cbn [fst snd]. intros Hm Hv. unfold bind, lift. rewrite Hm, Hv. reflexivity.
Qed.

Lemma target_of_channel (env : Env) (s : string) :
  PyStr.rpartition "@"%char s = None ->
  dict_mem s UPDATE_SOURCES = true ->
  target_attributes env (Some s) = (false, s, "latest").
Proof.
  intros Hs Hk. unfold target_attributes. rewrite Hs, Hk.
  destruct s; [discriminate Hk | reflexivity].
Qed.

Lemma target_of_tag (env : Env) (s : string) :
  PyStr.rpartition "@"%char s = None ->
  dict_mem s UPDATE_SOURCES = false ->
  s <> "" ->
  target_attributes env (Some s)
  = (true, CHANNEL env, if String.eqb s "latest" then "latest" else "tags/" +:+ s).
Proof.
  intros Hs Hk Hne. unfold target_attributes. rewrite Hs, Hk.
  destruct s as [|a s]; [congruence|]. cbn [negb andb truthy fmt_opt].
  destruct (String.eqb (String a s) "latest"); reflexivity.
Qed.

Lemma target_of_channel_and_tag (env : Env) (c t : string) :
  PyStr.rpartition "@"%char t = None ->
  c <> "" -> t <> "" ->
  target_attributes env (Some (c +:+ "@" +:+ t))
  = (true, c, if String.eqb t "latest" then "latest" else "tags/" +:+ t).
Proof.
  intros Ht Hc Hne. unfold target_attributes.
  change (c +:+ "@" +:+ t) with (c +:+ String "@"%char t).
  rewrite (rpartition_append _ _ _ Ht).
  destruct c as [|a c]; [congruence|]. destruct t as [|b t]; [congruence|].
  cbn [negb andb truthy fmt_opt].
  destruct (String.eqb (String b t) "latest"); reflexivity.
Qed.

Lemma tag_not_numeric (t : string) :
  fullmatch_dotted t = false ->
  fullmatch_dotted
    (PyStr.drop 5 (if String.eqb t "latest" then "latest" else "tags/" +:+ t))
  = false.
Proof.
  intros H. destruct (String.eqb t "latest"); [reflexivity | exact H].
Qed.

(** C4 (the code departs from it).  The constructor cuts the target at
    its last [@]: for a string without [@] that names a known channel it
    returns that channel with the tag [latest] and [exact = false]; for any
    other non-empty string without [@] it computes the channel of the
    running build and that string as an exact tag, and for
    [<channel>@<tag>] that channel and that tag, a tag other than [latest]
    in the form [tags/<tag>] that the releases API takes.  It returns
    these values, printing nothing, whenever the tag is not a bare dotted
    number.  For a bare dotted number, as in the examples
    [nightly@2024.01.01] and [2024.01.01] of the specification, it
    computes the same values and then hands [tags/<tag>], prefix included,
    to [version_tuple]: with versions read as dotted-numeric tuples the
    constructor raises [ValueError] and returns nothing. *)
Theorem init_target_parsing (env : Env) (st : State) :
  (forall s : string,
      PyStr.rpartition "@"%char s = None ->
      dict_mem s UPDATE_SOURCES = true ->
      __init__ env (Some s) st
      = (Ok {| _exact := false; _target_channel := s;
               _target_tag := "latest";
               _target_repo := dict_get s UPDATE_SOURCES |}, st)) /\
  (forall s : string,
      PyStr.rpartition "@"%char s = None ->
      dict_mem s UPDATE_SOURCES = false ->
      s <> "" ->
      fullmatch_dotted s = false ->
      __init__ env (Some s) st
      = (Ok {| _exact := true; _target_channel := CHANNEL env;
               _target_tag := if String.eqb s "latest" then "latest"
                              else "tags/" +:+ s;
               _target_repo := dict_get (CHANNEL env) UPDATE_SOURCES |}, st)) /\
  (forall c t : string,
      PyStr.rpartition "@"%char t = None ->
      c <> "" -> t <> "" ->
      fullmatch_dotted t = false ->
      __init__ env (Some (c +:+ "@" +:+ t)) st
      = (Ok {| _exact := true; _target_channel := c;
               _target_tag := if String.eqb t "latest" then "latest"
                              else "tags/" +:+ t;
               _target_repo := dict_get c UPDATE_SOURCES |}, st)) /\
  __init__ env (Some "nightly") st
  = (Ok {| _exact := false; _target_channel := "nightly";
           _target_tag := "latest";
           _target_repo := Some "Grub4K/actions-archive-test" |}, st) /\
  target_attributes env (Some "nightly@2024.01.01")
  = (true, "nightly", "tags/2024.01.01") /\
  target_attributes env (Some "2024.01.01")
  = (true, CHANNEL env, "tags/2024.01.01") /\
  (version_tuple env = Concrete.dotted_version_tuple ->
   __init__ env (Some "nightly@2024.01.01") st
   = (Raise (Exn ValueError "invalid literal for int() with base 10"), st) /\
   __init__ env (Some "2024.01.01") st
   = (Raise (Exn ValueError "invalid literal for int() with base 10"), st)).
Proof.
  split; [|split; [|split; [|split; [|split; [|split]]]]].
  - intros s Hs Hk.
    rewrite init_not_numeric; rewrite (target_of_channel env s Hs Hk);
      reflexivity.
  - intros s Hs Hk Hne Hn.
    rewrite init_not_numeric; rewrite (target_of_tag env s Hs Hk Hne);
      [reflexivity | apply tag_not_numeric, Hn].
  - intros c t Ht Hc Hne Hn.
    rewrite init_not_numeric;
      rewrite (target_of_channel_and_tag env c t Ht Hc Hne);
      [reflexivity | apply tag_not_numeric, Hn].
  - apply (init_not_numeric env (Some "nightly")). reflexivity.
  - reflexivity.
  - apply (target_of_tag env "2024.01.01"); [reflexivity.. | discriminate].
  - intros Hv. split.
    + apply init_numeric; [reflexivity|].
      rewrite Hv. apply (dotted_version_tuple_prefixed "2024.01.01").
    + apply init_numeric;
        rewrite (target_of_tag env "2024.01.01" eq_refl eq_refl
                   ltac:(discriminate)); cbn [snd];
        [reflexivity|].
      rewrite Hv. apply (dotted_version_tuple_prefixed "2024.01.01").
Qed.

Lemma init_target_parsing_witness :
  __init__ Scenario.Locked.env (Some "nightly@2024.01.01") Scenario.Locked.st
  = (Raise (Exn ValueError "invalid literal for int() with base 10"),
     Scenario.Locked.st) /\
  __init__ Scenario.Locked.env (Some "2024.01.01") Scenario.Locked.st
  = (Raise (Exn ValueError "invalid literal for int() with base 10"),
     Scenario.Locked.st).
Proof.
  apply (proj2 (proj2 (proj2 (proj2 (proj2 (proj2
           (init_target_parsing Scenario.Locked.env Scenario.Locked.st))))))).
  reflexivity.
Defined.

(** ** Release metadata *)

(** C2 (the code departs from it).  [_get_version_info(tag)] builds its
    URL from [self._target_tag], not from [tag]: whatever tag is asked for,
    the metadata requested is that of the target tag, and the reply is
    memoized under the tag asked for. *)
Theorem get_version_info_requests_target_tag (env : Env) (self : Updater)
    (tag : string) (st : State) :
  cache_version_info st !! tag = None ->
  _get_version_info env self tag st =
    let url := API_BASE_URL +:+ "/" +:+ fmt_opt (_target_repo self)
               +:+ "/releases/" +:+ _target_tag self in
    let st1 := set_console
                 (fun l => l ++ [write_debug ("Fetching release info: " +:+ url)])
                 st in
    match urlopen_json env url with
    | Ok v => (Ok v, set_cache_version_info
                       (<[tag := v]> (cache_version_info st)) st1)
    | Raise e => (Raise e, st1)
    end.
Proof.
  intros Hc. unfold _get_version_info, cached, bind, emit, lift.
  rewrite Hc. cbv zeta.
  destruct (urlopen_json env _); reflexivity.
Qed.

Lemma get_version_info_requests_target_tag_witness :
  fst (_get_version_info Scenario.Pinned.env Scenario.Pinned.self "latest"
         Scenario.Pinned.st)
  = Ok (Scenario.release "experimental" "https://dl/experimental") /\
  urlopen_json Scenario.Pinned.env (Scenario.nightly_api "latest")
  = Ok (Scenario.release "2024.03.01" "https://dl/latest").
Proof.
  split; [|reflexivity].
  rewrite (get_version_info_requests_target_tag Scenario.Pinned.env
             Scenario.Pinned.self "latest" Scenario.Pinned.st eq_refl).
  reflexivity.
Defined.

(** ** Lock rules *)

Section Locks.

Variables (env : Env) (self : Updater).

Lemma scan_locks_not_matching (line : string) (rest : list string) :
  not_matching env self line = true ->
  scan_locks env self (identifier env self) (line :: rest)
  = scan_locks env self (identifier env self) rest.
Proof.
  unfold not_matching. simpl.
  destruct (PyStr.startswith "lock " line); [|reflexivity]. simpl.
  destruct (split_lock line) as [[tag pattern]|e]; [|discriminate].
  destruct (re_match env pattern _) as [[|]|e]; try discriminate.
  reflexivity.
Qed.

Lemma scan_locks_passed_over (line : string) (rest : list string) :
  _target_tag self <> "latest" ->
  passed_over env self line = true ->
  scan_locks env self (identifier env self) (line :: rest)
  = scan_locks env self (identifier env self) rest.
Proof.
  intros Hne. unfold passed_over. rewrite orb_true_iff. intros [H|H].
  - apply scan_locks_not_matching, H.
  - revert H. unfold matching_lock. simpl.
    destruct (PyStr.startswith "lock " line); [|discriminate]. simpl.
    destruct (split_lock line) as [[tag pattern]|e]; [|discriminate].
    destruct (re_match env pattern _) as [[|]|e]; try discriminate.
    apply String.eqb_neq in Hne. rewrite Hne. simpl.
    destruct (lock_not_lower env self tag) as [[|]|e]; try discriminate.
    reflexivity.
Qed.

Lemma scan_locks_matching (line tag : string) (rest : list string) :
  matching_lock env self line = Some tag ->
  scan_locks env self (identifier env self) (line :: rest)
  = if negb (String.eqb (_target_tag self) "latest")
    then match lock_not_lower env self tag with
         | Ok true => scan_locks env self (identifier env self) rest
         | Ok false => Ok ("tags/" +:+ tag)
         | Raise e => if is_kind ValueError e then Ok ("tags/" +:+ tag)
                      else Raise e
         end
    else Ok ("tags/" +:+ tag).
Proof.
  unfold matching_lock. simpl.
  destruct (PyStr.startswith "lock " line); [|discriminate]. simpl.
  destruct (split_lock line) as [[tag' pattern]|e]; [|discriminate].
  destruct (re_match env pattern _) as [[|]|e]; try discriminate.
  intros [= ->]. reflexivity.
Qed.

Lemma _tag_runs_scan (st st1 st2 : State) (latest spec text : string) :
  cache_tag st = None ->
  latest_version env self st = (Ok latest, st1) ->
  _version_compare env self (current_version env) latest = Ok false ->
  _download env self "_update_spec" "latest" st1 = (Ok spec, st2) ->
  decode env spec = Ok text ->
  _tag env self st =
    match scan_locks env self (identifier env self) (PyStr.splitlines text) with
    | Ok t => (Ok t, set_cache_tag t st2)
    | Raise e => (Raise e, st2)
    end.
Proof.
  intros Hc Hl Hv Hd Ht. unfold _tag, cached. rewrite Hc.
  rewrite (bind_Ok _ _ _ _ _ Hl). unfold lift at 1.
  unfold bind at 1. rewrite Hv.
  rewrite (bind_Ok _ _ _ _ _ Hd). unfold bind, lift. rewrite Ht.
  destruct (scan_locks _ _ _ _); reflexivity.
Qed.

(** C1 (amended).  With no explicit target tag, the FIRST lock rule in
    file order whose pattern matches the identifier of the build decides:
    [_tag] is [tags/<tag of that rule>], and the rules after it are not
    read. *)
Theorem first_matching_lock_wins (st st1 st2 : State)
    (latest spec text line tag : string) (before after : list string) :
  _target_tag self = "latest" ->
  cache_tag st = None ->
  latest_version env self st = (Ok latest, st1) ->
  _version_compare env self (current_version env) latest = Ok false ->
  _download env self "_update_spec" "latest" st1 = (Ok spec, st2) ->
  decode env spec = Ok text ->
  PyStr.splitlines text = before ++ line :: after ->
  forallb (not_matching env self) before = true ->
  matching_lock env self line = Some tag ->
  _tag env self st
  = (Ok ("tags/" +:+ tag), set_cache_tag ("tags/" +:+ tag) st2).
Proof.
  intros Hlatest Hc Hl Hv Hd Ht Hlines Hbefore Hline.
  rewrite (_tag_runs_scan _ _ _ _ _ _ Hc Hl Hv Hd Ht), Hlines.
  clear Hlines.
  induction before as [|l before IH]; cbn [app forallb] in *.
  - rewrite (scan_locks_matching _ _ _ Hline), Hlatest. reflexivity.
  - apply andb_true_iff in Hbefore as [Hl1 Hb].
    rewrite (scan_locks_not_matching _ _ Hl1). apply IH, Hb.
Qed.

(** C8 (amended).  With an explicit target tag, a matching lock rule
    whose comparison with the requested tag raises [ValueError] (the tag
    of the rule or the requested tag is not a version) is NOT passed over:
    the exception is swallowed and [_tag] is forced to
    [tags/<tag of that rule>], without reading the rules after it. *)
Theorem unparseable_lock_forces_tag (st st1 st2 : State)
    (latest spec text line tag : string) (before after : list string)
    (e : exn) :
  _target_tag self <> "latest" ->
  cache_tag st = None ->
  latest_version env self st = (Ok latest, st1) ->
  _version_compare env self (current_version env) latest = Ok false ->
  _download env self "_update_spec" "latest" st1 = (Ok spec, st2) ->
  decode env spec = Ok text ->
  PyStr.splitlines text = before ++ line :: after ->
  forallb (passed_over env self) before = true ->
  matching_lock env self line = Some tag ->
  lock_not_lower env self tag = Raise e ->
  is_kind ValueError e = true ->
  _tag env self st
  = (Ok ("tags/" +:+ tag), set_cache_tag ("tags/" +:+ tag) st2).
Proof.
  intros Hpinned Hc Hl Hv Hd Ht Hlines Hbefore Hline He Hk.
  rewrite (_tag_runs_scan _ _ _ _ _ _ Hc Hl Hv Hd Ht), Hlines.
  clear Hlines.
  induction before as [|l before IH]; cbn [app forallb] in *.
  - rewrite (scan_locks_matching _ _ _ Hline), He, Hk.
    apply String.eqb_neq in Hpinned. rewrite Hpinned. reflexivity.
  - apply andb_true_iff in Hbefore as [Hl1 Hb].
    rewrite (scan_locks_passed_over _ _ Hpinned Hl1). apply IH, Hb.
Qed.

End Locks.

Lemma first_matching_lock_wins_witness :
  _tag Scenario.Locked.env Scenario.Locked.self Scenario.Locked.st
  = (Ok "tags/2024.01.01",
     set_cache_tag "tags/2024.01.01"
       (snd (_download Scenario.Locked.env Scenario.Locked.self
               "_update_spec" "latest"
               (snd (latest_version Scenario.Locked.env Scenario.Locked.self
                       Scenario.Locked.st))))).
Proof.
  apply (first_matching_lock_wins Scenario.Locked.env Scenario.Locked.self
           Scenario.Locked.st
           (snd (latest_version Scenario.Locked.env Scenario.Locked.self
                   Scenario.Locked.st)) _
           "2024.03.01" Scenario.two_locks
           Scenario.two_locks "lock 2024.01.01 .*-linux.*" "2024.01.01"
           [] ["lock 2024.02.01 .*-linux.*"]).
  - reflexivity.
  - reflexivity.
  - apply run_to; vm_compute; reflexivity.
  - reflexivity.
  - apply run_to; vm_compute; reflexivity.
  - reflexivity.
  - reflexivity.
  - reflexivity.
  - reflexivity.
Defined.

(** C1 as stated fails: both lock lines of the specification match the
    build, and [_tag] is the tag of the first one, not of the last. *)
Lemma last_matching_lock_counterexample :
  _target_tag Scenario.Locked.self = "latest" /\
  PyStr.splitlines Scenario.two_locks
  = ["lock 2024.01.01 .*-linux.*"; "lock 2024.02.01 .*-linux.*"] /\
  matching_lock Scenario.Locked.env Scenario.Locked.self
    "lock 2024.01.01 .*-linux.*" = Some "2024.01.01" /\
  matching_lock Scenario.Locked.env Scenario.Locked.self
    "lock 2024.02.01 .*-linux.*" = Some "2024.02.01" /\
  fst (_tag Scenario.Locked.env Scenario.Locked.self Scenario.Locked.st)
  = Ok "tags/2024.01.01" /\
  fst (_tag Scenario.Locked.env Scenario.Locked.self Scenario.Locked.st)
  <> Ok "tags/2024.02.01".
Proof.
  repeat split; try (vm_compute; reflexivity).
  vm_compute. discriminate.
Qed.

Lemma unparseable_lock_forces_tag_witness :
  _tag Scenario.Pinned.env Scenario.Pinned.self Scenario.Pinned.st
  = (Ok "tags/py37",
     set_cache_tag "tags/py37"
       (snd (_download Scenario.Pinned.env Scenario.Pinned.self
               "_update_spec" "latest"
               (snd (latest_version Scenario.Pinned.env Scenario.Pinned.self
                       Scenario.Pinned.st))))).
Proof.
  apply (unparseable_lock_forces_tag Scenario.Pinned.env Scenario.Pinned.self
           Scenario.Pinned.st
           (snd (latest_version Scenario.Pinned.env Scenario.Pinned.self
                   Scenario.Pinned.st)) _
           "experimental"
           ("lock py37 .*-linux.*" +:+ Concrete.LF
            +:+ "lock 2022.08.18 .*-linux.*" +:+ Concrete.LF)
           ("lock py37 .*-linux.*" +:+ Concrete.LF
            +:+ "lock 2022.08.18 .*-linux.*" +:+ Concrete.LF)
           "lock py37 .*-linux.*" "py37"
           [] ["lock 2022.08.18 .*-linux.*"]
           (Exn ValueError "invalid literal for int() with base 10")).
  - discriminate.
  - reflexivity.
  - apply run_to; vm_compute; reflexivity.
  - reflexivity.
  - apply run_to; vm_compute; reflexivity.
  - reflexivity.
  - reflexivity.
  - reflexivity.
  - reflexivity.
  - reflexivity.
  - reflexivity.
Defined.

(** C8 as stated fails: for the target [nightly@experimental] the first
    matching rule has the tag [py37], which is not a version; the rule is
    not passed over, and [_tag] is forced to [tags/py37]. *)
Lemma unparseable_lock_counterexample :
  fst (__init__ Scenario.Pinned.env (Some "nightly@experimental")
         Scenario.Pinned.st) = Ok Scenario.Pinned.self /\
  matching_lock Scenario.Pinned.env Scenario.Pinned.self
    "lock py37 .*-linux.*" = Some "py37" /\
  version_tuple Scenario.Pinned.env "py37"
  = Raise (Exn ValueError "invalid literal for int() with base 10") /\
  fst (_tag Scenario.Pinned.env Scenario.Pinned.self Scenario.Pinned.st)
  = Ok "tags/py37".
Proof.
  repeat split; vm_compute; reflexivity.
Qed.

(** ** The file transaction *)

Section Transaction.

Variables (env : Env) (self : Updater).

(** What one call into [os] does to the state. *)
Lemma os_do_inv (c : os_call) (possible : gmap string file -> bool)
    (effect : gmap string file -> gmap string file)
    (st st' : State) (r : Res unit) :
  os_do env c possible effect st = (r, st') ->
  console st' = console st /\
  _download_retcode st' = _download_retcode st /\
  atexit st' = atexit st /\
  ((r = Ok tt /\ possible (fs st) = true /\
    fs st' = effect (fs st) /\
    os_history st' = (c, true) :: os_history st) \/
   (exists e, r = Raise e /\ is_kind OSError e = true /\
    fs st' = fs st /\ os_history st' = (c, false) :: os_history st)).
Proof.
  unfold os_do.
  destruct (negb _ && possible (fs st))%bool eqn:E; intros [= <- <-];
    repeat split; simpl.
  - left. apply andb_true_iff in E as [_ E]. auto.
  - right. exists (Exn OSError "OSError"). auto.
Qed.

Lemma _report_error_run (msg : string) (expected : bool) (st : State) :
  _report_error msg expected st
  = (Ok tt,
     set_retcode 100
       (set_console
          (fun l => l ++ [report_error msg
                            (if expected then Some false else None)]) st)).
Proof. reflexivity. Qed.


(** C6.  When the executable has been renamed to the backup path and the
    rename of the new file onto the executable raises, the error is
    reported first and the backup is then renamed back.  The result is
    never [True]: it is [None] when the rename back succeeds, and the
    [OSError] of the rename back otherwise.  After a rename back that
    succeeds, the executable is the file it was, and, the backup path
    having been free, so is the whole file system. *)
Theorem failed_swap_rolls_back (new_filename old : string)
    (st st1 st2 st3 : State) (mask : Z) (e : exn) :
  old <> filename env ->
  os_stat_st_mode env (filename env) st = (Ok mask, st1) ->
  os_rename env (filename env) old st1 = (Ok tt, st2) ->
  os_rename env new_filename (filename env) st2 = (Raise e, st3) ->
  exists (r : Res unit) (st5 : State),
    os_rename env old (filename env)
      (set_retcode 100
         (set_console
            (fun l => l ++ [report_error
                              "Unable to overwrite current version" None])
            st3))
    = (r, st5) /\
    update_swap env self new_filename (Some old) st
    = (match r with Ok _ => Ok None | Raise e' => Raise e' end, st5) /\
    _download_retcode st5 = Some 100%Z /\
    console st5
    = console st ++ [report_error "Unable to overwrite current version" None] /\
    (r = Ok tt ->
     fs st5 !! filename env = fs st !! filename env /\
     (fs st !! old = None -> fs st5 = fs st)).
Proof.
  intros Hne Hstat Hmove Hswap.
  destruct (os_rename env old (filename env) _) as [r st5] eqn:Hback.
  exists r, st5. split; [reflexivity|].
  (* what each call leaves behind *)
  assert (Hs : console st1 = console st /\ fs st1 = fs st).
  { unfold os_stat_st_mode, bind, gets in Hstat.
    destruct (os_do env (Stat _) _ _ st) as [[[]|e0] st0] eqn:Hs;
      [|discriminate].
    injection Hstat as _ <-.
    apply os_do_inv in Hs as (Cs & _ & _ & [(_ & _ & Fs & _) | (? & ? & _)]);
      [auto | discriminate]. }
  destruct Hs as [Cs Fs].
  pose proof Hmove as Hm.
  apply os_do_inv in Hm as (Cm & _ & _ & [(_ & Pm & Fm & _) | (? & ? & _)]);
    [|discriminate].
  pose proof Hswap as Hw.
  apply os_do_inv in Hw
    as (Cw & _ & _ & [(? & _) | (e' & [= <-] & Ke & Fw & _)]);
    [discriminate|].
  pose proof Hback as Hb.
  apply os_do_inv in Hb as (Cb & Rb & _ & Hb).
  split; [|split; [|split]].
  - unfold update_swap, bind, try_except, ret.
    rewrite Hstat, Hmove. cbn [negb]. rewrite Hswap, Ke.
    rewrite _report_error_run, Hback.
    destruct r as [[]|e']; reflexivity.
  - rewrite Rb. reflexivity.
  - rewrite Cb. simpl. rewrite Cw, Cm, Cs. reflexivity.
  - intros ->.
    destruct Hb as [(_ & Pb & Fb & _) | (? & ? & _)]; [|discriminate].
    simpl in Fb, Pb. rewrite Fw, Fm, Fs in Fb, Pb.
    unfold exists_in in Pm. rewrite Fs in Pm.
    destruct (fs st !! filename env) as [f|] eqn:Ef; [|discriminate].
    rewrite lookup_insert_eq in Fb.
    assert (Hl : fs st5 !! filename env = Some f)
      by (rewrite Fb; apply lookup_insert_eq).
    split; [exact Hl|].
    intros Hfree. apply map_eq. intros i. rewrite Fb.
    destruct (decide (i = filename env)) as [->|Hi].
    + rewrite lookup_insert_eq. symmetry. exact Ef.
    + rewrite lookup_insert_ne by congruence.
      destruct (decide (i = old)) as [->|Hio].
      * rewrite lookup_delete_eq. symmetry. exact Hfree.
      * rewrite lookup_delete_ne by congruence.
        rewrite lookup_insert_ne by congruence.
        rewrite lookup_delete_ne by congruence. reflexivity.
Qed.

End Transaction.


Lemma failed_swap_rolls_back_witness :
  exists (r : Res unit) (st5 : State),
    os_rename Scenario.SwapFails.env "/opt/yt-dlp.old"
      (filename Scenario.SwapFails.env) Scenario.SwapFails.reported
    = (r, st5) /\
    update_swap Scenario.SwapFails.env Scenario.Locked.self
      "/opt/yt-dlp.new" (Some "/opt/yt-dlp.old") Scenario.SwapFails.st
    = (match r with Ok _ => Ok None | Raise e' => Raise e' end, st5) /\
    _download_retcode st5 = Some 100%Z /\
    console st5
    = console Scenario.SwapFails.st
      ++ [report_error "Unable to overwrite current version" None] /\
    (r = Ok tt ->
     fs st5 !! filename Scenario.SwapFails.env
     = fs Scenario.SwapFails.st !! filename Scenario.SwapFails.env /\
     (fs Scenario.SwapFails.st !! "/opt/yt-dlp.old" = None ->
      fs st5 = fs Scenario.SwapFails.st)).
Proof.
  apply (failed_swap_rolls_back Scenario.SwapFails.env Scenario.Locked.self
           "/opt/yt-dlp.new" "/opt/yt-dlp.old" Scenario.SwapFails.st
           Scenario.SwapFails.after_stat Scenario.SwapFails.after_move
           Scenario.SwapFails.after_swap 33261%Z
           (Exn OSError "OSError")).
  - vm_compute. discriminate.
  - apply run_to; vm_compute; reflexivity.
  - apply run_to; vm_compute; reflexivity.
  - apply run_to; vm_compute; reflexivity.
Defined.

(** ** What is memoized stays *)

Lemma memo_refl (st : State) : memo_kept st st.
Proof. split; auto. Qed.

Lemma memo_trans (a b c : State) :
  memo_kept a b -> memo_kept b c -> memo_kept a c.
Proof. intros (T1 & V1) (T2 & V2). split; auto. Qed.

Lemma memo_same (st0 s s' : State) :
  cache_tag s' = cache_tag s ->
  cache_version_info s' = cache_version_info s ->
  memo_kept st0 s -> memo_kept st0 s'.
Proof.
  intros Ht Hv (T & V). split.
  - intros t H. rewrite Ht. auto.
  - intros k i H. rewrite Hv. auto.
Qed.

Lemma memo_set_console (st0 s : State) (f : list event -> list event) :
  memo_kept st0 s -> memo_kept st0 (set_console f s).
Proof. apply memo_same; reflexivity. Qed.

Lemma memo_set_retcode (st0 s : State) (z : Z) :
  memo_kept st0 s -> memo_kept st0 (set_retcode z s).
Proof. apply memo_same; reflexivity. Qed.

Lemma memo_set_atexit (st0 s : State) (l : list string) :
  memo_kept st0 s -> memo_kept st0 (set_atexit l s).
Proof. apply memo_same; reflexivity. Qed.

Lemma memo_set_os (st0 s : State) (m : gmap string file)
    (h : list (os_call * bool)) :
  memo_kept st0 s -> memo_kept st0 (set_os m h s).
Proof. apply memo_same; reflexivity. Qed.

(** A computation that keeps what is memoized. *)
Definition keeps_memo {A} (m : M A) : Prop :=
  forall st, wp m (fun _ st' => memo_kept st st') st.

Lemma memo_after {A} (m : M A) (st0 s : State) (r : Res A) (s' : State) :
  keeps_memo m -> m s = (r, s') -> memo_kept st0 s -> memo_kept st0 s'.
Proof. intros Hm E H. eapply memo_trans; [exact H | exact (Hm _ _ _ E)]. Qed.

Lemma keeps_memo_ret {A} (a : A) : keeps_memo (ret a).
Proof. intros st. apply wp_ret, memo_refl. Qed.

Lemma keeps_memo_raise {A} (e : exn) : keeps_memo (@raise A e).
Proof. intros st. apply wp_raise, memo_refl. Qed.

Lemma keeps_memo_lift {A} (x : Res A) : keeps_memo (lift x).
Proof. intros st. apply wp_lift, memo_refl. Qed.

Lemma keeps_memo_emit (ev : event) : keeps_memo (emit ev).
Proof. intros st. apply wp_emit, memo_set_console, memo_refl. Qed.

Lemma keeps_memo_bind {A B} (m : M A) (k : A -> M B) :
  keeps_memo m -> (forall a, keeps_memo (k a)) -> keeps_memo (bind m k).
Proof.
  intros Hm Hk st. apply wp_bind.
  eapply wp_conseq; [apply Hm|]. intros [a|e] st1 H1; [|exact H1].
  eapply wp_conseq; [apply Hk|]. intros r st2 H2.
  eapply memo_trans; eassumption.
Qed.

(** A memoized computation stores its result only where nothing was
    stored. *)
Lemma keeps_memo_cached {A} (get : State -> option A)
    (set : A -> State -> State) (body : M A) :
  keeps_memo body ->
  (forall a st s, get st = None -> memo_kept st s -> memo_kept st (set a s)) ->
  keeps_memo (cached get set body).
Proof.
  intros Hb Hs st. apply wp_cached.
  - intros _ _. apply memo_refl.
  - intros Hg. eapply wp_conseq; [apply Hb|].
    intros [a|e] st1 H1; [apply Hs; assumption | exact H1].
Qed.

Create HintDb memo.

#[local] Hint Resolve keeps_memo_ret keeps_memo_raise keeps_memo_lift
  keeps_memo_emit : memo.

Section KeepsMemo.

Variables (env : Env) (self : Updater).

Lemma keeps_memo_get_version_info (tag : string) :
  keeps_memo (_get_version_info env self tag).
Proof.
  apply keeps_memo_cached.
  - apply keeps_memo_bind; auto with memo.
  - intros v st s Hg (T & V). split; [exact T|].
    intros k i Hk. cbn.
    destruct (decide (tag = k)) as [<-|Hne]; [congruence|].
    rewrite lookup_insert_ne by exact Hne. auto.
Qed.

Lemma keeps_memo_get_tag_name (info : VersionInfo) :
  keeps_memo (get_tag_name info).
Proof. unfold get_tag_name. destruct (tag_name info); auto with memo. Qed.

Lemma keeps_memo_latest_version : keeps_memo (latest_version env self).
Proof.
  apply keeps_memo_bind;
    auto using keeps_memo_get_version_info, keeps_memo_get_tag_name.
Qed.

Lemma keeps_memo_download (name tag : string) :
  keeps_memo (_download env self name tag).
Proof.
  apply keeps_memo_bind; [apply keeps_memo_get_version_info|]. intros info.
  cbv beta zeta. destruct (negb _); [auto with memo|].
  apply keeps_memo_bind; auto with memo.
Qed.

Lemma keeps_memo_tag : keeps_memo (_tag env self).
Proof.
  apply keeps_memo_cached.
  - apply keeps_memo_bind; [apply keeps_memo_latest_version|]. intros latest.
    apply keeps_memo_bind; [auto with memo|]. intros [|]; [auto with memo|].
    apply keeps_memo_bind; [apply keeps_memo_download|]. intros spec.
    apply keeps_memo_bind; auto with memo.
  - intros t st s Hg (T & V). split; [|exact V].
    intros t' Ht'. congruence.
Qed.

Lemma keeps_memo_new_version : keeps_memo (new_version env self).
Proof.
  apply keeps_memo_bind; [apply keeps_memo_tag|]. intros tag.
  cbv beta. destruct (PyStr.startswith _ _); [auto with memo|].
  apply keeps_memo_bind; [apply keeps_memo_tag|]. intros tag'.
  apply keeps_memo_bind;
    auto using keeps_memo_get_version_info, keeps_memo_get_tag_name.
Qed.

Lemma keeps_memo_full_new_version : keeps_memo (_full_new_version env self).
Proof.
  apply keeps_memo_bind; [apply keeps_memo_new_version | auto with memo].
Qed.

Lemma keeps_memo_release_hash : keeps_memo (release_hash env self).
Proof.
  apply keeps_memo_cached.
  - apply keeps_memo_bind; [apply keeps_memo_tag|]. intros tag.
    apply keeps_memo_bind; [apply keeps_memo_download|]. intros sums.
    apply keeps_memo_bind; [auto with memo|]. intros text.
    apply keeps_memo_bind; [auto with memo|]. intros d.
    apply keeps_memo_bind; [auto with memo|]. intros name.
    cbv beta. destruct (d !! name); auto with memo.
  - intros h st s _ H. apply memo_same with (s := s); auto.
Qed.

(** After a read of [_tag] that returned, the tag is memoized. *)
Lemma tag_cached (s s' : State) (t : string) :
  _tag env self s = (Ok t, s') -> cache_tag s' = Some t.
Proof.
  unfold _tag, cached. destruct (cache_tag s) as [t0|] eqn:Ec.
  - intros [= <- <-]. exact Ec.
  - match goal with
    | |- (let (_, _) := ?x in _) = _ -> _ => destruct x as [[a|e] s1]
    end; intros [= <- <-]. reflexivity.
Qed.

(** What a download that returned has read. *)
Lemma download_inv (name tag : string) (s s' : State) (data : string) :
  _download env self name tag s = (Ok data, s') ->
  exists info url,
    cache_version_info s' !! tag = Some info /\
    asset_url name info = Some url /\ url <> "" /\
    urlopen env url = Ok data.
Proof.
  unfold _download, bind at 1.
  destruct (_get_version_info env self tag s) as [[info|e] s1] eqn:Ei;
    [|discriminate].
  assert (Hc : cache_version_info s1 !! tag = Some info).
  { revert Ei. unfold _get_version_info, cached, bind, emit, lift.
    destruct (cache_version_info s !! tag) eqn:Ec.
    - intros [= <- <-]. exact Ec.
    - destruct (urlopen_json env _); intros [= <- <-]. cbn.
      apply lookup_insert_eq. }
  destruct (asset_url name info) as [url|] eqn:Eu; cbn [truthy negb];
    [|discriminate].
  destruct url as [|c url]; cbn [negb]; [discriminate|].
  unfold bind, emit, lift. cbn [fmt_opt].
  destruct (urlopen env (String c url)) as [d|e] eqn:Eo; intros [= <- <-].
  exists info, (String c url).
  split; [exact Hc|]. split; [exact Eu|]. split; [discriminate | exact Eo].
Qed.

Lemma fetched_after_download (name tag data : string) (s1 s2 s3 : State) :
  release_name env = Ok name ->
  _tag env self s1 = (Ok tag, s2) ->
  _download env self name tag s2 = (Ok data, s3) ->
  fetched env s3 data.
Proof.
  intros Hn Ht Hd.
  destruct (download_inv _ _ _ _ _ Hd) as (info & url & Hi & Hu & Hne & Ho).
  exists name, tag, info, url. repeat split; try assumption.
  apply (keeps_memo_download _ _ _ _ _ Hd), (tag_cached _ _ _ Ht).
Qed.

End KeepsMemo.

Lemma fetched_kept (env : Env) (s s' : State) (data : string) :
  fetched env s data -> memo_kept s s' -> fetched env s' data.
Proof.
  intros (name & tag & info & url & Hn & Ht & Hi & Hu) (T & V).
  exists name, tag, info, url. auto.
Qed.

(** [fetched] says what it is meant to: in a state where [data] is
    fetched, [_tag] is resolved and [_download] of the release name at that
    tag returns [data]. *)
Lemma fetched_download (env : Env) (self : Updater) (st : State)
    (data : string) :
  fetched env st data ->
  exists name tag,
    release_name env = Ok name /\
    _tag env self st = (Ok tag, st) /\
    fst (_download env self name tag st) = Ok data.
Proof.
  intros (name & tag & info & url & Hn & Ht & Hi & Hu & Hne & Ho).
  exists name, tag. split; [exact Hn|]. split.
  - unfold _tag, cached. rewrite Ht. reflexivity.
  - unfold _download, bind at 1, _get_version_info, cached.
    rewrite Hi. cbv zeta. rewrite Hu.
    destruct url as [|c url]; [congruence|]. cbn [truthy negb fmt_opt].
    unfold bind, emit, lift. rewrite Ho. reflexivity.
Qed.

#[local] Hint Resolve keeps_memo_get_version_info keeps_memo_latest_version
  keeps_memo_download keeps_memo_tag keeps_memo_new_version
  keeps_memo_full_new_version keeps_memo_release_hash : memo.

(** ** The result of [update] *)

Section Quiet.

Variable allowed : os_call -> Prop.

Lemma quiet_refl (st : State) : quiet_step allowed st st.
Proof. split; [lia|]. exists []. split; [reflexivity | intros c []]. Qed.

Lemma quiet_trans (a b c : State) :
  quiet_step allowed a b -> quiet_step allowed b c -> quiet_step allowed a c.
Proof.
  intros (L1 & h1 & E1 & A1) (L2 & h2 & E2 & A2). split; [lia|].
  exists (h2 ++ h1). split.
  - rewrite E2, E1, app_assoc. reflexivity.
  - intros x Hx. apply in_app_or in Hx as [Hx|Hx]; auto.
Qed.

Lemma net_step_length (st st' : State) :
  net_step st st' -> length (console st) <= length (console st').
Proof. intros (_ & _ & _ & _ & l & ->). rewrite length_app. lia. Qed.

Lemma quiet_net (st0 s s' : State) :
  net_step s s' -> quiet_step allowed st0 s -> quiet_step allowed st0 s'.
Proof.
  intros Hn Hq. eapply quiet_trans; [exact Hq|].
  split; [apply net_step_length, Hn|].
  exists []. split; [apply Hn | intros c []].
Qed.

Lemma quiet_set_os (st0 s : State) (m : gmap string file) (c : os_call)
    (ok : bool) (h : list (os_call * bool)) :
  os_history s = h ->
  (ok = false -> allowed c) ->
  quiet_step allowed st0 s ->
  quiet_step allowed st0 (set_os m ((c, ok) :: h) s).
Proof.
  intros <- Ha Hq. eapply quiet_trans; [exact Hq|].
  split; [simpl; lia|]. exists [(c, ok)]. split; [reflexivity|].
  intros x [[= E1 E2]|[]]. subst. auto.
Qed.

Lemma quiet_set_console (st0 s : State) (ev : event) :
  quiet_step allowed st0 s ->
  quiet_step allowed st0 (set_console (fun l => l ++ [ev]) s).
Proof.
  intros Hq. eapply quiet_trans; [exact Hq|].
  split; [simpl; rewrite length_app; lia|].
  exists []. split; [reflexivity | intros c []].
Qed.

Lemma quiet_set_retcode (st0 s : State) (z : Z) :
  quiet_step allowed st0 s -> quiet_step allowed st0 (set_retcode z s).
Proof.
  intros Hq. eapply quiet_trans; [exact Hq|].
  split; [simpl; lia|]. exists []. split; [reflexivity | intros c []].
Qed.

Lemma quiet_set_atexit (st0 s : State) (l : list string) :
  quiet_step allowed st0 s -> quiet_step allowed st0 (set_atexit l s).
Proof.
  intros Hq. eapply quiet_trans; [exact Hq|].
  split; [simpl; lia|]. exists []. split; [reflexivity | intros c []].
Qed.

Lemma outcome_after (raised : exn -> State -> Prop)
    (F : State -> Prop) (st st1 st' : State)
    (r : Res (option bool)) :
  quiet_step allowed st st1 ->
  outcome raised allowed F st1 r st' -> outcome raised allowed F st r st'.
Proof.
  intros Hq. destruct r as [[[|]|]|e]; simpl.
  - intros (Hq' & Hl & HF). split; [|auto]. eapply quiet_trans; eassumption.
  - auto.
  - destruct Hq as [L _]. lia.
  - auto.
Qed.

End Quiet.

Lemma wp_net {A} (m : M A) (Q : Res A -> State -> Prop) (st : State) :
  net_only m ->
  (forall r st', m st = (r, st') -> net_step st st' -> Q r st') ->
  wp m Q st.
Proof. intros Hm HQ r st' E. apply (HQ _ _ E), (Hm _ _ _ E). Qed.

Lemma wp_report_error (msg : string) (expected : bool)
    (Q : Res unit -> State -> Prop) (st : State) :
  Q (Ok tt)
    (set_retcode 100
       (set_console
          (fun l => l ++ [report_error msg
                            (if expected then Some false else None)]) st)) ->
  wp (_report_error msg expected) Q st.
Proof. intros H r st' [= <- <-]. exact H. Qed.

Lemma wp_gets {A} (f : State -> A) (Q : Res A -> State -> Prop) (st : State) :
  Q (Ok (f st)) st -> wp (gets f) Q st.
Proof. intros H r st' [= <- <-]. exact H. Qed.

Lemma wp_atexit_register (cmd : string) (Q : Res unit -> State -> Prop)
    (st : State) :
  Q (Ok tt) (set_atexit (atexit st ++ [cmd]) st) ->
  wp (atexit_register cmd) Q st.
Proof. intros H r st' [= <- <-]. exact H. Qed.

Lemma wp_os_do (env : Env) (c : os_call) (possible : gmap string file -> bool)
    (effect : gmap string file -> gmap string file)
    (Q : Res unit -> State -> Prop) (st : State) :
  (possible (fs st) = true ->
   Q (Ok tt) (set_os (effect (fs st)) ((c, true) :: os_history st) st)) ->
  (forall e, is_kind OSError e = true ->
             Q (Raise e) (set_os (fs st) ((c, false) :: os_history st) st)) ->
  wp (os_do env c possible effect) Q st.
Proof.
  intros Hok Hfail r st'. unfold os_do.
  destruct (negb _ && possible (fs st))%bool eqn:E; intros [= <- <-].
  - apply Hok. apply andb_true_iff in E as [_ E]. exact E.
  - apply Hfail. reflexivity.
Qed.


(** Reading the console, the file system and the call history back from
    an updated state. *)

Lemma console_set_console (f : list event -> list event) (st : State) :
  console (set_console f st) = f (console st).
Proof. reflexivity. Qed.

Lemma console_set_retcode (z : Z) (st : State) :
  console (set_retcode z st) = console st.
Proof. reflexivity. Qed.

Lemma console_set_cache_version_info (m : gmap string VersionInfo) (st : State) :
  console (set_cache_version_info m st) = console st.
Proof. reflexivity. Qed.

Lemma console_set_cache_tag (t : string) (st : State) :
  console (set_cache_tag t st) = console st.
Proof. reflexivity. Qed.

Lemma console_set_cache_release_hash (h : string) (st : State) :
  console (set_cache_release_hash h st) = console st.
Proof. reflexivity. Qed.

Lemma console_set_os (m : gmap string file) (h : list (os_call * bool)) (st : State) :
  console (set_os m h st) = console st.
Proof. reflexivity. Qed.

Lemma console_set_atexit (l : list string) (st : State) :
  console (set_atexit l st) = console st.
Proof. reflexivity. Qed.

Lemma fs_set_console (f : list event -> list event) (st : State) :
  fs (set_console f st) = fs st.
Proof. reflexivity. Qed.

Lemma fs_set_retcode (z : Z) (st : State) :
  fs (set_retcode z st) = fs st.
Proof. reflexivity. Qed.

Lemma fs_set_cache_version_info (m : gmap string VersionInfo) (st : State) :
  fs (set_cache_version_info m st) = fs st.
Proof. reflexivity. Qed.

Lemma fs_set_cache_tag (t : string) (st : State) :
  fs (set_cache_tag t st) = fs st.
Proof. reflexivity. Qed.

Lemma fs_set_cache_release_hash (h : string) (st : State) :
  fs (set_cache_release_hash h st) = fs st.
Proof. reflexivity. Qed.

Lemma fs_set_os (m : gmap string file) (h : list (os_call * bool)) (st : State) :
  fs (set_os m h st) = m.
Proof. reflexivity. Qed.

Lemma fs_set_atexit (l : list string) (st : State) :
  fs (set_atexit l st) = fs st.
Proof. reflexivity. Qed.

Lemma os_history_set_console (f : list event -> list event) (st : State) :
  os_history (set_console f st) = os_history st.
Proof. reflexivity. Qed.

Lemma os_history_set_retcode (z : Z) (st : State) :
  os_history (set_retcode z st) = os_history st.
Proof. reflexivity. Qed.

Lemma os_history_set_cache_version_info (m : gmap string VersionInfo) (st : State) :
  os_history (set_cache_version_info m st) = os_history st.
Proof. reflexivity. Qed.

Lemma os_history_set_cache_tag (t : string) (st : State) :
  os_history (set_cache_tag t st) = os_history st.
Proof. reflexivity. Qed.

Lemma os_history_set_cache_release_hash (h : string) (st : State) :
  os_history (set_cache_release_hash h st) = os_history st.
Proof. reflexivity. Qed.

Lemma os_history_set_os (m : gmap string file) (h : list (os_call * bool)) (st : State) :
  os_history (set_os m h st) = h.
Proof. reflexivity. Qed.

Lemma os_history_set_atexit (l : list string) (st : State) :
  os_history (set_atexit l st) = os_history st.
Proof. reflexivity. Qed.

Create Rewrite HintDb state.

#[local] Hint Rewrite
  console_set_console console_set_retcode console_set_cache_version_info
  console_set_cache_tag console_set_cache_release_hash console_set_os
  console_set_atexit fs_set_console fs_set_retcode
  fs_set_cache_version_info fs_set_cache_tag fs_set_cache_release_hash
  fs_set_os fs_set_atexit os_history_set_console
  os_history_set_retcode os_history_set_cache_version_info os_history_set_cache_tag
  os_history_set_cache_release_hash os_history_set_os os_history_set_atexit
  : state.

(** One step of symbolic execution. *)
Ltac wp_step :=
  lazymatch goal with
  | |- wp (bind _ _) _ _ => apply wp_bind
  | |- wp (ret _) _ _ => apply wp_ret
  | |- wp (raise _) _ _ => apply wp_raise
  | |- wp (lift ?x) _ _ => apply wp_lift; destruct x eqn:?
  | |- wp (emit _) _ _ => apply wp_emit
  | |- wp (gets _) _ _ => apply wp_gets
  | |- wp (try_except _ _ _) _ _ => apply wp_try_except
  | |- wp (_report_error _ _) _ _ => apply wp_report_error
  | |- wp (atexit_register _) _ _ => apply wp_atexit_register
  | |- wp (os_do _ _ _ _) _ _ => apply wp_os_do; [intros ? | intros ? ?]
  | |- wp (if ?c then _ else _) _ _ => destruct c eqn:?
  | |- if ?c then _ else _ => destruct c eqn:?; try congruence
  | |- wp (latest_version _ _) _ _ =>
      apply wp_net; [apply net_only_latest_version | intros [?|?] ? ? ?]
  | |- wp (has_update _ _) _ _ =>
      apply wp_net; [apply net_only_has_update | intros [?|?] ? ? ?]
  | |- wp (_tag _ _) _ _ =>
      apply wp_net; [apply net_only_tag | intros [?|?] ? ? ?]
  | |- wp (_full_new_version _ _) _ _ =>
      apply wp_net; [apply net_only_full_new_version | intros [?|?] ? ? ?]
  | |- wp (release_hash _ _) _ _ =>
      apply wp_net; [apply net_only_release_hash | intros [?|?] ? ? ?]
  | |- wp (_download _ _ _ _) _ _ =>
      apply wp_net; [apply net_only_download | intros [?|?] ? ? ?]
  end; cbv beta iota zeta; cbn [negb]; autorewrite with state in *.

Ltac wp_steps := repeat wp_step.

(** Goals [quiet_step allowed st0 s] for a state [s] built from earlier
    ones. *)
Ltac quiet :=
  repeat first
    [ assumption
    | apply quiet_refl
    | apply quiet_set_console
    | apply quiet_set_retcode
    | apply quiet_set_atexit
    | apply quiet_set_os;
      [autorewrite with state; reflexivity | try discriminate; auto |]
    | eapply quiet_net; [eassumption |] ].

(** Goals [length (console st0) < length (console s)] and the like. *)
Ltac grown :=
  repeat match goal with
         | H : net_step _ _ |- _ => apply net_step_length in H
         | H : quiet_step _ _ _ |- _ => destruct H as [H _]
         end;
  cbn [console set_console set_retcode set_os set_atexit
         set_cache_tag set_cache_version_info set_cache_release_hash] in *;
  rewrite ?length_app in *; cbn [length] in *; lia.

Lemma append_empty_r (s : string) : s +:+ "" = s.
Proof.
  induction s as [|c s IH]; [reflexivity|].
  change (String c (s +:+ "") = String c s). rewrite IH. reflexivity.
Qed.

Lemma append_suffix_neq (s t : string) : t <> "" -> s +:+ t <> s.
Proof.
  intros Ht E. rewrite <- (append_empty_r s) in E at 2.
  apply (inj (String.append s)) in E. contradiction.
Qed.

Lemma append_suffixes_neq (s t u : string) : t <> u -> s +:+ t <> s +:+ u.
Proof. intros Ht E. apply (inj (String.append s)) in E. contradiction. Qed.

Lemma content_chmod (m : gmap string file) (p : string) (mode : Z) :
  content <$> match m !! p with
              | Some f => <[p := {| content := content f; st_mode := mode |}]> m
              | None => m
              end !! p
  = content <$> m !! p.
Proof.
  destruct (m !! p) as [f|] eqn:E; [|rewrite E; reflexivity].
  rewrite lookup_insert_eq. reflexivity.
Qed.

(** Goals [memo_kept st0 s] for a state [s] built from earlier ones. *)
Ltac memo :=
  repeat first
    [ assumption
    | apply memo_refl
    | apply memo_set_console
    | apply memo_set_retcode
    | apply memo_set_atexit
    | apply memo_set_os
    | match goal with
      | H : ?m ?s = (_, ?s') |- memo_kept _ ?s' =>
          apply (memo_after m _ s _ s' ltac:(auto with memo) H)
      end ].

(** The parts of [update] after the download keep what is memoized. *)
Section UpdateMemo.

Variables (env : Env) (self : Updater).

Ltac pass spec :=
  eapply wp_conseq;
  [ apply spec
  | let Hm := fresh "Hm" in
    intros ? ? Hm; refine (memo_trans _ _ _ _ Hm); memo ].

Lemma update_cleanup_memo (old : option (string * Z)) (st : State) :
  wp (update_cleanup env self old) (fun _ st' => memo_kept st st') st.
Proof.
  unfold update_cleanup, os_remove, os_chmod.
  destruct old as [[o m]|]; wp_steps; memo.
Qed.

Lemma update_swap_memo (new_filename : string) (old : option string)
    (st : State) :
  wp (update_swap env self new_filename old)
     (fun _ st' => memo_kept st st') st.
Proof.
  unfold update_swap, os_stat_st_mode, os_rename.
  destruct old as [o|]; wp_steps; memo; pass update_cleanup_memo.
Qed.

Lemma update_write_memo (data new_filename : string) (old : option string)
    (st : State) :
  wp (update_write env self data new_filename old)
     (fun _ st' => memo_kept st st') st.
Proof.
  unfold update_write, write_file, _report_permission_error.
  wp_steps; memo; pass update_swap_memo.
Qed.

Lemma update_install_memo (data new_filename : string) (old : option string)
    (st : State) :
  wp (update_install env self data new_filename old)
     (fun _ st' => memo_kept st st') st.
Proof.
  unfold update_install, _report_network_error.
  wp_steps; memo; pass update_write_memo.
Qed.

End UpdateMemo.

Section UpdateResult.

Variables (env : Env) (self : Updater).
Variables allowed fatal : os_call -> Prop.
Hypothesis fatal_stat : fatal (Stat (filename env)).

(** The state the run of [update] starts in. *)
Variable st0 : State.

Abbreviation out := (outcome (unguarded env self st0 fatal) allowed).

(** The file system of a state reached through network-only steps. *)
Ltac fs_back :=
  autorewrite with state;
  repeat (match goal with
          | H : net_step ?s ?s' |- context [fs ?s'] => rewrite (proj1 H)
          end; autorewrite with state).

Ltac success :=
  unfold outcome; cbv beta iota; split; [quiet | split];
  [ do 2 eexists; autorewrite with state; reflexivity
  | unfold holds in *; fs_back ].

(** The ends of the paths of a symbolic execution. *)
Ltac leaf :=
  lazymatch goal with
  | |- True => exact I
  | |- outcome _ _ _ _ (Raise _) _ =>
      unfold outcome, unguarded; cbv beta iota;
      first [ right; left; eexists; eassumption
            | right; right; do 2 eexists;
              split; [autorewrite with state; reflexivity | auto] ]
  | |- outcome _ _ _ _ (Ok None) _ => unfold outcome; cbv beta iota; grown
  | |- outcome _ _ _ _ (Ok (Some true)) _ => success
  | |- _ => idtac
  end.

(** Where a part of [update] hands over to the next part. *)
Ltac hand_over spec :=
  eapply wp_conseq;
  [ apply spec
  | let Ho := fresh "Ho" in
    intros ? ? Ho; refine (outcome_after _ _ _ _ _ _ _ _ Ho); quiet ].

Lemma check_update_spec (st : State) :
  wp (check_update env self)
     (fun r st' => match r with
                   | Raise _ => True
                   | Ok true => quiet_step allowed st st'
                   | Ok false => length (console st) < length (console st')
                   end) st.
Proof.
  unfold check_update, _report_network_error, _sha256_file, read_file.
  wp_steps; try exact I; try grown; try quiet.
Qed.

Lemma update_cleanup_spec (old : option (string * Z)) (data : string)
    (st : State) :
  (forall o m, old = Some (o, m) -> o <> filename env /\ allowed (Remove o)) ->
  holds env data (fs st) ->
  wp (update_cleanup env self old) (out (fun s => holds env data (fs s)) st) st.
Proof.
  intros Hold Hdata.
  unfold update_cleanup, os_remove, os_chmod.
  destruct old as [[o m]|]; [destruct (Hold o m eq_refl) as [Hne Hal]|];
    wp_steps; leaf.
  all: rewrite ?content_chmod, ?lookup_delete_ne by congruence; exact Hdata.
Qed.

(** The names [update] gives the new file and the backup. *)
Definition names_ok (new_filename : string) (old : option string) : Prop :=
  match old with
  | Some o => o <> filename env /\ new_filename <> filename env /\
              new_filename <> o /\ allowed (Remove o) /\
              fatal (Rename o (filename env))
  | None => new_filename = filename env
  end.

Lemma update_swap_spec (new_filename : string) (old : option string)
    (data : string) (st : State) :
  names_ok new_filename old ->
  content <$> fs st !! new_filename = Some data ->
  wp (update_swap env self new_filename old)
     (out (fun s => holds env data (fs s)) st) st.
Proof.
  intros Hnames Hdata. unfold update_swap, os_stat_st_mode, os_rename.
  destruct old as [o|].
  - destruct Hnames as (Hof & Hnf & Hno & Hal & Hfr).
    wp_steps; leaf.
    hand_over update_cleanup_spec.
    + intros o' m' [= <- <-]. auto.
    + unfold holds. autorewrite with state.
      unfold exists_in in *.
      destruct (fs st !! filename env) as [f0|] eqn:Ef; [|discriminate].
      rewrite lookup_insert_ne, lookup_delete_ne by congruence.
      destruct (fs st !! new_filename) as [g|] eqn:Eg; [|discriminate].
      rewrite lookup_insert_eq. exact Hdata.
  - simpl in Hnames. subst new_filename. hand_over update_cleanup_spec.
    + discriminate.
    + exact Hdata.
Qed.

Lemma update_write_spec (new_filename : string) (old : option string)
    (data : string) (st : State) :
  names_ok new_filename old ->
  wp (update_write env self data new_filename old)
     (out (fun s => holds env data (fs s)) st) st.
Proof.
  intros Hnames. unfold update_write, write_file, _report_permission_error.
  wp_steps; leaf.
  hand_over update_swap_spec; [exact Hnames|].
  autorewrite with state. rewrite lookup_insert_eq, lookup_insert_eq.
  reflexivity.
Qed.

Lemma update_install_spec (new_filename : string) (old : option string)
    (data : string) (st : State) :
  names_ok new_filename old ->
  wp (update_install env self data new_filename old)
     (out (fun s => holds env data (fs s)) st) st.
Proof.
  intros Hnames. unfold update_install, _report_network_error.
  wp_steps; leaf; hand_over update_write_spec; exact Hnames.
Qed.

Lemma outcome_mono (F F' : State -> Prop) (st st' : State)
    (r : Res (option bool)) :
  (forall m, F m -> F' m) ->
  out F st r st' -> out F' st r st'.
Proof.
  intros HF. destruct r as [[[|]|]|e]; unfold outcome; try exact id.
  intros (Hq & Hl & Hh). auto.
Qed.

Lemma outcome_installed (data : string) (s st st' : State)
    (r : Res (option bool)) :
  fetched env s data ->
  memo_kept s st' ->
  out (fun x => holds env data (fs x)) st r st' ->
  out (installed env) st r st'.
Proof.
  intros Hf Hm. destruct r as [[[|]|]|e]; unfold outcome; try exact id.
  intros (Hq & Hl & Hh). split; [exact Hq|]. split; [exact Hl|].
  exists data. split; [exact (fetched_kept _ _ _ _ Hf Hm) | exact Hh].
Qed.

Lemma update_download_spec (new_filename : string) (old : option string)
    (st : State) :
  names_ok new_filename old ->
  wp (update_download env self new_filename old)
     (out (installed env) st) st.
Proof.
  intros Hnames.
  unfold update_download, os_path_exists, os_remove, _report_network_error.
  destruct old as [o|]; wp_steps; leaf.
  all: match goal with
       | Hn : release_name env = Ok ?n,
         Ht : _tag env self _ = (Ok ?t, _),
         Hd : _download env self ?n ?t _ = (Ok ?d, _) |- _ =>
           let E := fresh "E" in
           intros ? ? E;
           refine (outcome_after _ _ _ _ _ _ _ _
                     (outcome_installed _ _ _ _ _
                        (fetched_after_download _ _ _ _ _ _ _ _ Hn Ht Hd)
                        (update_install_memo _ _ _ _ _ _ _ _ E)
                        (update_install_spec _ _ _ _ Hnames _ _ E)));
           quiet
       end.
Qed.

Lemma update_spec :
  allowed (Remove (filename env +:+ ".old")) ->
  fatal (Rename (filename env +:+ ".old") (filename env)) ->
  wp (update env self)
     (out (fun s => updatable env /\ installed env s) st0) st0.
Proof.
  intros Hal Hfr. unfold update, _report_permission_error. wp_step.
  intros r0 s0 E0. pose proof (check_update_spec st0 _ _ E0) as H0.
  destruct r0 as [[|]|e]; cbn [negb].
  3:{ left. exact E0. }
  2:{ wp_steps. simpl. exact H0. }
  wp_steps; leaf.
  assert (Hup : updatable env).
  { repeat split; [assumption | |];
      match goal with
      | H : negb ?b = false |- ?b = true =>
          apply negb_false_iff in H; exact H
      end. }
  destruct (String.eqb (detect_variant env) "zip");
    (eapply wp_conseq;
     [ apply update_download_spec
     | let Ho := fresh "Ho" in
       intros ? ? Ho;
       refine (outcome_after _ _ _ _ _ _ _ _
                 (outcome_mono _ _ _ _ _ _ Ho)); [quiet | auto] ]).
  - reflexivity.
  - repeat split; try exact Hal; try exact Hfr.
    + apply append_suffix_neq. discriminate.
    + apply append_suffix_neq. discriminate.
    + apply append_suffixes_neq. discriminate.
Qed.

End UpdateResult.

Lemma run_update_inv (env : Env) (st st' : State) (r : Res (option bool)) :
  run_update env st = (r, st') ->
  (exists self st1, __init__ env None st = (Ok self, st1) /\
                    update env self st1 = (r, st')) \/
  (exists e, __init__ env None st = (Raise e, st') /\ r = Raise e).
Proof.
  unfold run_update, bind.
  destruct (__init__ env None st) as [[self|e] st1]; intros E.
  - left. eauto.
  - right. injection E as <- <-. eauto.
Qed.

(** C10 (amended).  What the result of [update] tells.  [True] is
    returned only when the build is updatable, the executable and its
    directory are writable, every call into [os] made during the run
    succeeded except possibly the removal of the backup, the last line
    printed is the success message, and the file at the path of the
    executable holds the bytes that this run fetched: those behind the
    download URL of the asset with the release name of the build, in the
    metadata memoized for the tag that [_tag] resolved.  [False] is never
    returned.  Every other run that returns gives [None], and has printed
    at least one line by then.  But not every failure ends in [None]: an
    exception leaves [update] from [check_update], from the computation of
    the label of the new version, from [os.stat] and from the rename back
    of a rollback; only a failed removal of a stale backup, download,
    verification, write or rename of the swap is caught.  [run_update]
    gives what [update] gives for the [Updater] built without a target. *)
Theorem update_result (env : Env) (st st' : State) (r : Res (option bool)) :
  (forall self : Updater,
      update env self st = (r, st') ->
      update_postcondition env self st r st') /\
  (run_update env st = (r, st') ->
   (exists self st1,
       __init__ env None st = (Ok self, st1) /\
       update env self st1 = (r, st') /\
       update_postcondition env self st1 r st') \/
   (exists e, __init__ env None st = (Raise e, st') /\ r = Raise e)).
Proof.
  assert (Hu : forall self s, update env self s = (r, st') ->
                              update_postcondition env self s r st').
  { intros self s H.
    pose proof (update_spec env self (backup_disposal env) (outside_try env)
                  (or_introl eq_refl) s eq_refl (or_intror eq_refl) _ _ H)
      as Ho.
    destruct r as [[[|]|]|e]; simpl in Ho |- *; try exact Ho.
    destruct Ho as (Hq & Hl & Hup & Hi). auto. }
  split; [intros self; apply Hu|].
  intros H. apply run_update_inv in H as [(self & st1 & Hi & H) | He].
  - left. exists self, st1. auto.
  - right. exact He.
Qed.

Lemma update_result_witness :
  update_postcondition Scenario.Locked.env Scenario.Locked.self
    Scenario.Locked.st (Ok (Some true))
    (snd (update Scenario.Locked.env Scenario.Locked.self Scenario.Locked.st)).
Proof.
  apply (proj1 (update_result Scenario.Locked.env Scenario.Locked.st
                  (snd (update Scenario.Locked.env Scenario.Locked.self
                          Scenario.Locked.st))
                  (Ok (Some true))) Scenario.Locked.self).
  apply run_to; vm_compute; reflexivity.
Defined.

(** Not every failure ends in [None], and [True] does not mean that
    nothing was reported: when the rename of the new file onto the
    executable fails and the rename back fails too, [update] raises
    [OSError] and leaves no file at the path of the executable; and when
    only the removal of the backup fails, [update] reports an error, sets
    the exit code 100, and still returns [True]. *)
Lemma update_raises_counterexample :
  fst (update Builds.RollbackFails.env Scenario.Locked.self Scenario.Locked.st)
  = Raise (Exn OSError "OSError") /\
  fs (snd (update Builds.RollbackFails.env Scenario.Locked.self
             Scenario.Locked.st)) !! "/opt/yt-dlp" = None /\
  fst (update Builds.BackupStays.env Scenario.Locked.self Scenario.Locked.st)
  = Ok (Some true) /\
  _download_retcode
    (snd (update Builds.BackupStays.env Scenario.Locked.self
            Scenario.Locked.st)) = Some 100%Z.
Proof. repeat split; vm_compute; reflexivity. Qed.

(** * Further properties *)

(** ** The tables of variants *)

Lemma reasons_of_variant (v : string) :
  dict_get v _NON_UPDATEABLE_REASONS
  = if dict_mem v _FILE_SUFFIXES then Some None
    else match dict_get v _NON_UPDATEABLE_REASONS with
         | Some (Some r) => Some (Some r)
         | _ => None
         end.
Proof.
  unfold dict_mem.
  cbv [_NON_UPDATEABLE_REASONS _FILE_SUFFIXES map app fst snd dict_get].
  repeat (destruct (String.eqb v _); [reflexivity|]).
  reflexivity.
Qed.

Lemma reasons_nonempty (v : string) (r : string) :
  dict_get v _NON_UPDATEABLE_REASONS = Some (Some r) -> r <> "".
Proof.
  cbv [_NON_UPDATEABLE_REASONS _FILE_SUFFIXES map app fst snd dict_get
         unpackaged_reason].
  repeat (destruct (String.eqb v _); [intros [= <-]; discriminate|]).
  discriminate.
Qed.

Lemma reason_without_hint (env : Env) :
  truthy (UPDATE_HINT env) = false ->
  if dict_mem (detect_variant env) _FILE_SUFFIXES
  then is_non_updateable env = None
  else truthy (is_non_updateable env) = true.
Proof.
  unfold is_non_updateable. intros Hh. rewrite Hh.
  rewrite reasons_of_variant.
  destruct (dict_mem (detect_variant env) _FILE_SUFFIXES); [reflexivity|].
  destruct (dict_get (detect_variant env) _NON_UPDATEABLE_REASONS)
    as [[r|]|] eqn:E.
  - apply truthy_Some. eapply reasons_nonempty, E.
  - destruct (truthy (VARIANT env)); reflexivity.
  - destruct (truthy (VARIANT env)); reflexivity.
Qed.

(** X1.  Without an update hint, [is_non_updateable] gives no reason
    exactly for the variants that have a release file suffix, and a
    non-empty reason for every other variant, known or not; an update hint,
    when set, is the reason whatever the variant. *)
Theorem non_updateable_reason (env : Env) :
  (truthy (UPDATE_HINT env) = true -> is_non_updateable env = UPDATE_HINT env) /\
  (truthy (UPDATE_HINT env) = false ->
   if dict_mem (detect_variant env) _FILE_SUFFIXES
   then is_non_updateable env = None
   else truthy (is_non_updateable env) = true).
Proof.
  split.
  - intros Hh. unfold is_non_updateable. rewrite Hh. reflexivity.
  - apply reason_without_hint.
Qed.

Lemma non_updateable_reason_witness :
  if dict_mem (detect_variant Scenario.Locked.env) _FILE_SUFFIXES
  then is_non_updateable Scenario.Locked.env = None
  else truthy (is_non_updateable Scenario.Locked.env) = true.
Proof.
  apply (proj2 (non_updateable_reason Scenario.Locked.env)). reflexivity.
Defined.

(** X2.  A build that passes the guard of [update] has a release name:
    the lookup of its file suffix cannot fail, and the name is [yt-dlp]
    followed by that suffix. *)
Theorem updatable_has_release_name (env : Env) :
  truthy (is_non_updateable env) = false ->
  exists suffix,
    dict_get (detect_variant env) _FILE_SUFFIXES = Some suffix /\
    release_name env = Ok ("yt-dlp" +:+ suffix).
Proof.
  intros Hg. unfold release_name.
  destruct (truthy (UPDATE_HINT env)) eqn:Hh.
  - unfold is_non_updateable in Hg. rewrite Hh in Hg. congruence.
  - pose proof (reason_without_hint env Hh) as H.
    unfold dict_mem in H.
    destruct (dict_get (detect_variant env) _FILE_SUFFIXES) as [suffix|].
    + eauto.
    + congruence.
Qed.

Lemma updatable_has_release_name_witness :
  exists suffix,
    dict_get (detect_variant Scenario.Locked.env) _FILE_SUFFIXES = Some suffix /\
    release_name Scenario.Locked.env = Ok ("yt-dlp" +:+ suffix).
Proof.
  apply (updatable_has_release_name Scenario.Locked.env). reflexivity.
Defined.

(** ** The constructor *)

Lemma init_fields (env : Env) (target : option string) (st st' : State)
    (u : Updater) :
  __init__ env target st = (Ok u, st') ->
  (_exact u, _target_channel u, _target_tag u) = target_attributes env target /\
  _target_repo u = dict_get (_target_channel u) UPDATE_SOURCES /\
  (st' = st \/
   st' = set_console
           (fun l => l ++ [report_warning
                             "You are downgrading to a version without --update-to"])
           st).
Proof.
  unfold __init__.
  destruct (target_attributes env target) as [[exact channel] tag].
  unfold bind, ret, lift, emit.
  destruct (_ && _)%bool.
  - destruct (version_tuple env tag) as [v|e]; [|discriminate].
    destruct (PyTuple.ltb v WARN_BEFORE_TAG); intros [= <- <-]; auto.
  - intros [= <- <-]. auto.
Qed.

Lemma target_attributes_shape (env : Env) (target : option string) :
  CHANNEL env <> "" -> target_shape (target_attributes env target).
Proof.
  intros Hc.
  assert (Hshape : forall (c0 : string) (t0 : option string),
             target_shape
               (let channel := if truthy (Some c0) then c0 else CHANNEL env in
                let '(exact, tag) :=
                  if negb (truthy t0) then (false, "latest")
                  else if String.eqb (fmt_opt t0) "latest" then (true, "latest")
                  else (true, "tags/" +:+ fmt_opt t0) in
                (exact, channel, tag))).
  { intros c0 t0. cbv zeta.
    assert (Hch : (if truthy (Some c0) then c0 else CHANNEL env) <> "")
      by (destruct c0; [exact Hc | discriminate]).
    destruct (truthy t0) eqn:Et; cbn [negb].
    - destruct (String.eqb_spec (fmt_opt t0) "latest") as [El|Enl].
      + repeat split; auto.
      + repeat split; auto; [|discriminate].
        right. exists (fmt_opt t0). repeat split; auto.
        destruct t0 as [[|c t]|]; try discriminate.
    - repeat split; auto. }
  unfold target_attributes.
  destruct (PyStr.rpartition _ _) as [[h t]|]; cbn [negb andb];
    [|destruct (dict_mem _ UPDATE_SOURCES)]; apply Hshape.
Qed.

(** X3.  What every [Updater] the constructor returns satisfies, on a build
    whose own channel has a name: the target channel is not empty; the
    target tag is [latest] or [tags/<tag>] for a non-empty tag other than
    [latest]; a target without a tag is the only non-exact one, and its tag
    is [latest]; the repository is the entry of the channel in
    [UPDATE_SOURCES], if any; and the constructor has printed nothing or
    the downgrade warning alone, changing nothing else. *)
Theorem init_invariants (env : Env) (target : option string) (st st' : State)
    (u : Updater) :
  CHANNEL env <> "" ->
  __init__ env target st = (Ok u, st') ->
  target_shape (_exact u, _target_channel u, _target_tag u) /\
  _target_repo u = dict_get (_target_channel u) UPDATE_SOURCES /\
  (st' = st \/
   st' = set_console
           (fun l => l ++ [report_warning
                             "You are downgrading to a version without --update-to"])
           st).
Proof.
  intros Hc Hi. apply init_fields in Hi as (Hf & Hr & Hs).
  rewrite Hf. split; [apply target_attributes_shape, Hc | auto].
Qed.

Lemma init_invariants_witness :
  target_shape (true, "nightly", "tags/experimental") /\
  Some "Grub4K/actions-archive-test" = dict_get "nightly" UPDATE_SOURCES /\
  (Scenario.Pinned.st = Scenario.Pinned.st \/
   Scenario.Pinned.st
   = set_console
       (fun l => l ++ [report_warning
                         "You are downgrading to a version without --update-to"])
       Scenario.Pinned.st).
Proof.
  apply (init_invariants Scenario.Pinned.env (Some "nightly@experimental")
           Scenario.Pinned.st Scenario.Pinned.st Scenario.Pinned.self).
  - discriminate.
  - reflexivity.
Defined.

(** X4.  On a build whose channel is one of [UPDATE_SOURCES], the
    constructor without a target always completes, prints nothing, and
    gives the non-exact target [latest] on the channel of the build; so
    [run_update] is [update] on that target. *)
Theorem init_default (env : Env) (st : State) :
  dict_mem (CHANNEL env) UPDATE_SOURCES = true ->
  let self := {| _exact := false;
                 _target_channel := CHANNEL env;
                 _target_tag := "latest";
                 _target_repo := dict_get (CHANNEL env) UPDATE_SOURCES |} in
  __init__ env None st = (Ok self, st) /\
  run_update env st = update env self st.
Proof.
  intros Hk.
  assert (Hi : __init__ env None st
               = (Ok {| _exact := false;
                        _target_channel := CHANNEL env;
                        _target_tag := "latest";
                        _target_repo := dict_get (CHANNEL env) UPDATE_SOURCES |},
                  st)).
  { unfold __init__, target_attributes.
    revert Hk. unfold dict_mem, UPDATE_SOURCES. cbn [dict_get].
    destruct (String.eqb_spec (CHANNEL env) "stable") as [->|_];
      [reflexivity|].
    destruct (String.eqb_spec (CHANNEL env) "nightly") as [->|_];
      [reflexivity | discriminate]. }
  cbv zeta. split; [exact Hi|].
  unfold run_update. apply (bind_Ok _ _ _ _ _ Hi).
Qed.

Lemma init_default_witness :
  __init__ Scenario.Locked.env None Scenario.Locked.st
  = (Ok Scenario.Locked.self, Scenario.Locked.st) /\
  run_update Scenario.Locked.env Scenario.Locked.st
  = update Scenario.Locked.env Scenario.Locked.self Scenario.Locked.st.
Proof.
  apply (init_default Scenario.Locked.env Scenario.Locked.st). reflexivity.
Defined.

(** ** Memoization *)

Lemma cached_again {A} (get : State -> option A) (set : A -> State -> State)
    (body : M A) (st st1 : State) (a : A) :
  (forall x s, get (set x s) = Some x) ->
  cached get set body st = (Ok a, st1) ->
  cached get set body st1 = (Ok a, st1).
Proof.
  intros Hgs. unfold cached.
  destruct (get st) as [a0|] eqn:Eg.
  - intros [= <- <-]. rewrite Eg. reflexivity.
  - destruct (body st) as [[a0|e] s0]; intros [= <- <-].
    rewrite Hgs. reflexivity.
Qed.

(** X5.  [_get_version_info] is memoized per tag: after a call that
    returned, a second call for the same tag returns the same metadata and
    leaves the state as it is, so nothing is requested or printed again; a
    call that raised has stored nothing; and a call never touches the
    entries of other tags. *)
Theorem get_version_info_memoized (env : Env) (self : Updater) (tag : string)
    (st st1 : State) (r : Res VersionInfo) :
  _get_version_info env self tag st = (r, st1) ->
  match r with
  | Ok info => _get_version_info env self tag st1 = (Ok info, st1)
  | Raise _ => cache_version_info st1 = cache_version_info st
  end /\
  (forall t, t <> tag -> cache_version_info st1 !! t = cache_version_info st !! t).
Proof.
  intros H. split.
  - destruct r as [info|e].
    + revert H. apply cached_again. intros x s. cbn. apply lookup_insert_eq.
    + revert H. unfold _get_version_info, cached, bind, emit, lift.
      destruct (cache_version_info st !! tag); [discriminate|].
      destruct (urlopen_json env _); intros [= _ <-]. reflexivity.
  - intros t Ht. revert H. unfold _get_version_info, cached, bind, emit, lift.
    destruct (cache_version_info st !! tag); [intros [= _ <-]; reflexivity|].
    destruct (urlopen_json env _); intros [= _ <-]; cbn; [|reflexivity].
    apply lookup_insert_ne. congruence.
Qed.

Lemma get_version_info_memoized_witness :
  _get_version_info Scenario.Locked.env Scenario.Locked.self "latest"
    (snd (_get_version_info Scenario.Locked.env Scenario.Locked.self "latest"
            Scenario.Locked.st))
  = (Ok (Scenario.release "2024.03.01" "https://dl/latest"),
     snd (_get_version_info Scenario.Locked.env Scenario.Locked.self "latest"
            Scenario.Locked.st)).
Proof.
  apply (proj1 (get_version_info_memoized Scenario.Locked.env
                  Scenario.Locked.self "latest" Scenario.Locked.st _
                  (Ok (Scenario.release "2024.03.01" "https://dl/latest"))
                  (run_to _ _ _ eq_refl))).
Defined.

(** X6.  [_tag] and [release_hash] are computed once: after a read that
    returned, every later read returns the same value and leaves the state
    as it is. *)
Theorem cached_properties_stable (env : Env) (self : Updater)
    (st st1 : State) :
  (forall t, _tag env self st = (Ok t, st1) ->
             _tag env self st1 = (Ok t, st1)) /\
  (forall h, release_hash env self st = (Ok h, st1) ->
             release_hash env self st1 = (Ok h, st1)).
Proof.
  split; intros x; apply cached_again; reflexivity.
Qed.

Lemma cached_properties_stable_witness :
  _tag Scenario.Locked.env Scenario.Locked.self
    (snd (_tag Scenario.Locked.env Scenario.Locked.self Scenario.Locked.st))
  = (Ok "tags/2024.01.01",
     snd (_tag Scenario.Locked.env Scenario.Locked.self Scenario.Locked.st)).
Proof.
  apply (proj1 (cached_properties_stable Scenario.Locked.env
                  Scenario.Locked.self Scenario.Locked.st _)).
  apply run_to. vm_compute. reflexivity.
Defined.

(** ** The lock file *)

Section LockFile.

Variables (env : Env) (self : Updater).

Lemma scan_locks_step (line : string) (rest : list string) :
  scan_locks env self (identifier env self) (line :: rest)
  = scan_locks env self (identifier env self) rest \/
  (exists e, scan_locks env self (identifier env self) (line :: rest) = Raise e) \/
  (exists tag, matching_lock env self line = Some tag /\
               scan_locks env self (identifier env self) (line :: rest)
               = Ok ("tags/" +:+ tag) /\
               (_target_tag self <> "latest" ->
                lock_not_lower env self tag <> Ok true)).
Proof.
  unfold matching_lock. cbn [scan_locks].
  destruct (PyStr.startswith "lock " line); cbn [negb]; [|auto].
  destruct (split_lock line) as [[tag pattern]|e]; [|eauto].
  destruct (re_match env pattern _) as [[|]|e]; [|auto|eauto].
  destruct (String.eqb_spec (_target_tag self) "latest") as [E|E]; cbn [negb].
  - right. right. exists tag. repeat split. intros H. contradiction.
  - destruct (lock_not_lower env self tag) as [[|]|e'] eqn:El; [auto| |].
    + right. right. exists tag. repeat split. congruence.
    + destruct (is_kind ValueError e'); [|eauto].
      right. right. exists tag. repeat split. congruence.
Qed.

(** X7.  Where the tag the loop over the lock file resolves to comes from:
    it is the target tag, or [tags/<tag>] for the tag of a line of the file
    that is a lock rule matching the build; and with an explicit target tag
    a rule is only applied when its tag did not compare as not lower than
    the requested one.  When no line is a matching rule, the target tag is
    kept. *)
Theorem scan_locks_provenance (lines : list string) :
  (forall t,
      scan_locks env self (identifier env self) lines = Ok t ->
      t = _target_tag self \/
      exists line tag,
        In line lines /\ matching_lock env self line = Some tag /\
        t = "tags/" +:+ tag /\
        (_target_tag self <> "latest" ->
         lock_not_lower env self tag <> Ok true)) /\
  (forallb (not_matching env self) lines = true ->
   scan_locks env self (identifier env self) lines = Ok (_target_tag self)).
Proof.
  split.
  - induction lines as [|line rest IH]; intros t.
    + intros [= <-]. auto.
    + destruct (scan_locks_step line rest) as [E|[[e E]|(tag & Em & E & Hl)]];
        rewrite E.
      * intros H. destruct (IH _ H) as [->|(l & tg & Hin & Hm)]; [auto|].
        right. exists l, tg. split; [right; exact Hin | exact Hm].
      * discriminate.
      * intros [= <-]. right. exists line, tag. repeat split; auto.
        left. reflexivity.
  - induction lines as [|line rest IH]; [reflexivity|].
    cbn [forallb]. intros [Hl Hr]%andb_true_iff.
    rewrite (scan_locks_not_matching _ _ _ _ Hl). auto.
Qed.

End LockFile.

Lemma scan_locks_provenance_witness :
  "tags/2024.01.01" = _target_tag Scenario.Locked.self \/
  exists line tag,
    In line (PyStr.splitlines Scenario.two_locks) /\
    matching_lock Scenario.Locked.env Scenario.Locked.self line = Some tag /\
    "tags/2024.01.01" = "tags/" +:+ tag /\
    (_target_tag Scenario.Locked.self <> "latest" ->
     lock_not_lower Scenario.Locked.env Scenario.Locked.self tag <> Ok true).
Proof.
  apply (proj1 (scan_locks_provenance Scenario.Locked.env Scenario.Locked.self
                  (PyStr.splitlines Scenario.two_locks))).
  vm_compute. reflexivity.
Defined.

Lemma partition_None (sep : ascii) (s : string) :
  PyStr.partition sep s = None <->
  forall c, In c (list_ascii_of_string s) -> c <> sep.
Proof.
  induction s as [|c s IH]; cbn [PyStr.partition list_ascii_of_string In].
  - split; [intros _ c [] | reflexivity].
  - destruct (Ascii.eqb_spec c sep) as [->|Hne].
    + split; [discriminate|]. intros H. destruct (H sep); auto.
    + destruct (PyStr.partition sep s) as [[h t]|].
      * split; [discriminate|]. intros H.
        assert (Hs : Some (h, t) = @None (string * string))
          by (apply IH; intros c' Hc'; apply H; auto).
        discriminate.
      * split; [|reflexivity]. intros _ c' [<-|Hc']; [exact Hne|].
        apply (proj1 IH eq_refl), Hc'.
Qed.

(** X8.  A lock line without a pattern field stops the loop with a
    [ValueError]: when the lines before it are not matching rules and the
    text after [lock ] holds no space, the unpacking of the three fields
    fails, whatever the lines after it are, and whether or not a target tag
    was given. *)
Theorem lock_without_pattern_raises (env : Env) (self : Updater)
    (before after : list string) (line : string) :
  forallb (not_matching env self) before = true ->
  PyStr.startswith "lock " line = true ->
  (forall c, In c (list_ascii_of_string (PyStr.drop 5 line)) -> c <> " "%char) ->
  scan_locks env self (identifier env self) (before ++ line :: after)
  = Raise (Exn ValueError "not enough values to unpack (expected 3, got 2)").
Proof.
  intros Hb Hs Hn. induction before as [|l before IH]; cbn [app forallb] in *.
  - cbn [scan_locks]. rewrite Hs. cbn [negb]. unfold split_lock.
    apply partition_None in Hn. rewrite Hn. reflexivity.
  - apply andb_true_iff in Hb as [Hl Hb].
    rewrite (scan_locks_not_matching _ _ _ _ Hl). apply IH, Hb.
Qed.

Lemma lock_without_pattern_raises_witness :
  scan_locks Scenario.Locked.env Scenario.Locked.self
    (identifier Scenario.Locked.env Scenario.Locked.self)
    (["# rules"] ++ "lock 2024.01.01" :: ["lock 2024.02.01 .*"])
  = Raise (Exn ValueError "not enough values to unpack (expected 3, got 2)").
Proof.
  apply (lock_without_pattern_raises Scenario.Locked.env Scenario.Locked.self
           ["# rules"] ["lock 2024.02.01 .*"] "lock 2024.01.01").
  - reflexivity.
  - reflexivity.
  - intros c H. vm_compute in H.
    repeat (destruct H as [<-|H]; [discriminate|]). destruct H.
Defined.

(** ** The checksum list *)

Lemma hash_dict_spec (lines : list string) (d : gmap string string) :
  if forallb two_fields lines
  then exists d', hash_dict lines d = Ok d' /\
                  forall name, d' !! name
                               = match last_digest name lines with
                                 | Some x => Some x
                                 | None => d !! name
                                 end
  else hash_dict lines d
       = Raise (Exn ValueError
                  "dictionary update sequence element has the wrong length").
Proof.
  revert d. induction lines as [|ln rest IH]; intros d.
  - cbn. eauto.
  - cbn [forallb hash_dict last_digest]. unfold two_fields at 1.
    destruct (PyStr.split ln) as [|digest [|n [|x l]]]; cbn [andb];
      try reflexivity.
    specialize (IH (<[n := digest]> d)).
    destruct (forallb two_fields rest); [|exact IH].
    destruct IH as (d' & -> & Hd'). exists d'. split; [reflexivity|].
    intros name. rewrite Hd'.
    destruct (last_digest name rest); [reflexivity|].
    destruct (String.eqb_spec n name) as [->|Hne].
    + apply lookup_insert_eq.
    + apply lookup_insert_ne, Hne.
Qed.

(** X9.  The table read from [SHA2-256SUMS].  When every line has exactly
    two fields, the table gives a file name the digest of the LAST line
    that names it, and nothing to a name no line has; when some line has
    another number of fields (a blank line is one), building the table
    raises [ValueError], whatever the other lines are. *)
Theorem hash_dict_table (lines : list string) :
  (forallb two_fields lines = true ->
   exists d, hash_dict lines ∅ = Ok d /\
             forall name, d !! name = last_digest name lines) /\
  (forallb two_fields lines = false ->
   hash_dict lines ∅
   = Raise (Exn ValueError
              "dictionary update sequence element has the wrong length")) /\
  two_fields "" = false.
Proof.
  pose proof (hash_dict_spec lines ∅) as H.
  split; [|split; [|reflexivity]]; intros E; rewrite E in H; [|exact H].
  destruct H as (d & Hd & Hl). exists d. split; [exact Hd|].
  intros name. rewrite Hl. destruct (last_digest name lines); [reflexivity|].
  apply lookup_empty.
Qed.

(** ** Downloads *)

Lemma asset_url_In (name : string) (info : VersionInfo) (url : string) :
  asset_url name info = Some url -> In (name, url) (assets info).
Proof.
  unfold asset_url.
  destruct (find _ _) as [[n u]|] eqn:E; [|discriminate].
  intros [= <-]. apply find_some in E as [Hin Hn]. cbn in Hn.
  apply String.eqb_eq in Hn. subst. exact Hin.
Qed.

(** X10.  What [_download] returns and when it asks.  The bytes it returns
    are those behind the download URL of an asset with the requested name
    in the metadata now memoized for the tag, and that URL is not empty;
    when the metadata arrives but has no such asset (or an empty URL for
    it), [_download] raises [Unable to find download URL] having opened no
    download URL: the state is the one the metadata request left. *)
Theorem download_provenance (env : Env) (self : Updater) (name tag : string)
    (st st' : State) :
  (forall data,
      _download env self name tag st = (Ok data, st') ->
      exists info url,
        cache_version_info st' !! tag = Some info /\
        In (name, url) (assets info) /\ url <> "" /\
        urlopen env url = Ok data) /\
  (forall info,
      _get_version_info env self tag st = (Ok info, st') ->
      truthy (asset_url name info) = false ->
      _download env self name tag st
      = (Raise (Exn OtherException "Unable to find download URL"), st')).
Proof.
  split.
  - intros data. unfold _download, bind at 1.
    destruct (_get_version_info env self tag st) as [[info|e] st1] eqn:Ei;
      [|discriminate].
    assert (Hc : cache_version_info st1 !! tag = Some info).
    { revert Ei. unfold _get_version_info, cached, bind, emit, lift.
      destruct (cache_version_info st !! tag) eqn:Ec.
      - intros [= <- <-]. exact Ec.
      - destruct (urlopen_json env _); intros [= <- <-]. cbn.
        apply lookup_insert_eq. }
    destruct (asset_url name info) as [url|] eqn:Eu; cbn [truthy negb];
      [|discriminate].
    destruct url as [|c url]; cbn [negb]; [discriminate|].
    unfold bind, emit, lift. cbn [fmt_opt].
    destruct (urlopen env (String c url)) as [d|e] eqn:Eo; intros [= <- <-].
    exists info, (String c url).
    split; [exact Hc|]. split; [apply asset_url_In, Eu|].
    split; [discriminate | exact Eo].
  - intros info Hi Hu. unfold _download.
    rewrite (bind_Ok _ _ _ _ _ Hi). cbv zeta. rewrite Hu. reflexivity.
Qed.

Lemma download_provenance_witness :
  exists info url,
    cache_version_info
      (snd (_download Scenario.Locked.env Scenario.Locked.self
              "_update_spec" "latest" Scenario.Locked.st)) !! "latest"
    = Some info /\
    In ("_update_spec", url) (assets info) /\ url <> "" /\
    urlopen Scenario.Locked.env url = Ok Scenario.two_locks.
Proof.
  apply (proj1 (download_provenance Scenario.Locked.env Scenario.Locked.self
                  "_update_spec" "latest" Scenario.Locked.st _)).
  apply run_to. vm_compute. reflexivity.
Defined.

(** ** The effects of [check_update] *)

(** Equations between the parts of the states of a symbolic execution that
    network steps and updates of the console leave alone. *)
Ltac back :=
  repeat match goal with
         | H : net_step _ _ |- _ => destruct H as (?Hfs & ?Hh & ?Ha & ?Hr & _)
         end;
  cbn [atexit fs os_history _download_retcode set_console set_retcode set_os
         set_atexit set_cache_tag set_cache_version_info
         set_cache_release_hash] in *.

Section CheckUpdate.

Variables (env : Env) (self : Updater).

Lemma check_update_effects (st : State) :
  wp (check_update env self)
     (fun r st' =>
        fs st' = fs st /\ atexit st' = atexit st /\
        (os_history st' = os_history st \/
         truthy (is_non_updateable env) = false /\
         exists ok, os_history st' = (ReadAll (filename env), ok) :: os_history st /\
                    if ok then r = Ok true else exists e, r = Raise e)) st.
Proof.
  unfold check_update, _report_network_error, _sha256_file, read_file.
  wp_steps; back.
  all: split; [congruence|]; split; [congruence|].
  all: first [ left; congruence
             | right; split; [apply negb_true_iff; assumption|];
               eexists; split; [f_equal; congruence | cbn; eauto] ].
Qed.

(** X11.  [check_update] only looks: whatever it returns or raises, the
    file system and the [atexit] registrations are as before, and it makes
    at most one call into [os], the read of the executable for the build
    hash, on an updatable build only; when that read is refused the
    [OSError] leaves [check_update], and when it succeeds the result is
    [True]. *)
Theorem check_update_only_reads (st st' : State) (r : Res bool) :
  check_update env self st = (r, st') ->
  fs st' = fs st /\ atexit st' = atexit st /\
  (os_history st' = os_history st \/
   truthy (is_non_updateable env) = false /\
   exists ok, os_history st' = (ReadAll (filename env), ok) :: os_history st /\
              if ok then r = Ok true else exists e, r = Raise e).
Proof. apply check_update_effects. Qed.

(** X12.  When [check_update] gives up before any comparison.  With no
    repository for the target channel it returns [False] after one error
    line, exit code 100, and without any request: the memo table of
    release metadata is untouched.  With a repository, a failure to obtain
    the latest version is never raised: it is reported as a network error,
    exit code 100, and the result is [False]. *)
Theorem check_update_gives_up (st : State) :
  (truthy (_target_repo self) = false ->
   exists msg,
     check_update env self st
     = (Ok false,
        set_retcode 100 (set_console (fun l => l ++ [report_error msg None]) st))) /\
  (forall e st1,
      truthy (_target_repo self) = true ->
      latest_version env self st = (Raise e, st1) ->
      exists msg,
        check_update env self st
        = (Ok false,
           set_retcode 100
             (set_console (fun l => l ++ [report_error msg (Some false)]) st1))).
Proof.
  split.
  - intros H. unfold check_update. rewrite H. cbn [negb].
    eexists. reflexivity.
  - intros e st1 H Hl. unfold check_update. rewrite H. cbn [negb].
    eexists. unfold bind at 1.
    rewrite (try_except_Raise _ _ _ _ _ _ (bind_Raise _ _ _ _ _ Hl)).
    reflexivity.
Qed.

End CheckUpdate.

Lemma check_update_only_reads_witness :
  fs (snd (check_update Scenario.Locked.env Scenario.Locked.self
             Scenario.Locked.st))
  = fs Scenario.Locked.st /\
  atexit (snd (check_update Scenario.Locked.env Scenario.Locked.self
                 Scenario.Locked.st))
  = atexit Scenario.Locked.st /\
  (os_history (snd (check_update Scenario.Locked.env Scenario.Locked.self
                      Scenario.Locked.st))
   = os_history Scenario.Locked.st \/
   truthy (is_non_updateable Scenario.Locked.env) = false /\
   exists ok,
     os_history (snd (check_update Scenario.Locked.env Scenario.Locked.self
                        Scenario.Locked.st))
     = (ReadAll (filename Scenario.Locked.env), ok)
       :: os_history Scenario.Locked.st /\
     if ok then Ok true = Ok true else exists e, @Ok bool true = Raise e).
Proof.
  apply (check_update_only_reads Scenario.Locked.env Scenario.Locked.self
           Scenario.Locked.st _ (Ok true)).
  apply run_to. vm_compute. reflexivity.
Defined.

(** ** The footprint of [update] *)

Section Confined.

Variable paths : list string.

Lemma confined_refl (st : State) : confined paths st st.
Proof. split; [reflexivity|]. exists []. split; [reflexivity | intros c ok p []]. Qed.

Lemma confined_trans (a b c : State) :
  confined paths a b -> confined paths b c -> confined paths a c.
Proof.
  intros (F1 & h1 & E1 & A1) (F2 & h2 & E2 & A2). split.
  - intros p Hp. rewrite F2, F1 by exact Hp. reflexivity.
  - exists (h2 ++ h1). split.
    + rewrite E2, E1, app_assoc. reflexivity.
    + intros x ok p Hx. apply in_app_or in Hx as [Hx|Hx]; eauto.
Qed.

Lemma confined_same (st0 s s' : State) :
  fs s' = fs s -> os_history s' = os_history s ->
  confined paths st0 s -> confined paths st0 s'.
Proof.
  intros Hf Hh Hc. eapply confined_trans; [exact Hc|]. split.
  - intros p _. rewrite Hf. reflexivity.
  - exists []. split; [exact Hh | intros c ok p []].
Qed.

Lemma confined_net (st0 s s' : State) :
  net_step s s' -> confined paths st0 s -> confined paths st0 s'.
Proof. intros (Hf & Hh & _). apply confined_same; assumption. Qed.

Lemma confined_set_os (st0 s : State) (m : gmap string file) (c : os_call)
    (ok : bool) (h : list (os_call * bool)) :
  os_history s = h ->
  (forall p, In p (paths_of c) -> In p paths) ->
  (forall p, ~ In p paths -> m !! p = fs s !! p) ->
  confined paths st0 s ->
  confined paths st0 (set_os m ((c, ok) :: h) s).
Proof.
  intros <- Hc Hm Hq. eapply confined_trans; [exact Hq|]. split.
  - exact Hm.
  - exists [(c, ok)]. split; [reflexivity|].
    intros x b p [[= E1 E2]|[]]. subst. apply Hc.
Qed.

Lemma confined_set_console (st0 s : State) (f : list event -> list event) :
  confined paths st0 s -> confined paths st0 (set_console f s).
Proof. apply confined_same; reflexivity. Qed.

Lemma confined_set_retcode (st0 s : State) (z : Z) :
  confined paths st0 s -> confined paths st0 (set_retcode z s).
Proof. apply confined_same; reflexivity. Qed.

Lemma confined_set_atexit (st0 s : State) (l : list string) :
  confined paths st0 s -> confined paths st0 (set_atexit l s).
Proof. apply confined_same; reflexivity. Qed.

End Confined.

(** Goals [confined paths st0 s] for a state [s] built from earlier ones. *)
Ltac outside :=
  let p := fresh "p" in
  let Hp := fresh "Hp" in
  intros p Hp; autorewrite with state;
  repeat match goal with
         | |- context [match ?x with Some _ => _ | None => _ end] => destruct x
         end;
  repeat first
    [ rewrite lookup_insert_ne
        by (let E := fresh in intros E; apply Hp; rewrite <- E; auto)
    | rewrite lookup_delete_ne
        by (let E := fresh in intros E; apply Hp; rewrite <- E; auto) ];
  reflexivity.

Ltac named :=
  let p := fresh "p" in
  cbn [paths_of In]; intros p; intros;
  repeat match goal with
         | H : _ \/ _ |- _ => destruct H as [H|H]
         | H : False |- _ => destruct H
         end; subst; auto.

Ltac conf :=
  repeat first
    [ assumption
    | apply confined_refl
    | apply confined_set_os;
      [autorewrite with state; reflexivity | named | outside |]
    | eapply confined_net; [eassumption |]
    | apply confined_set_console
    | apply confined_set_retcode
    | apply confined_set_atexit ].

Section Footprint.

Variables (env : Env) (self : Updater) (paths : list string).
Hypothesis exe_in : In (filename env) paths.

Abbreviation within st := (fun (_ : Res (option bool)) st' => confined paths st st').

Ltac hand spec :=
  eapply wp_conseq;
  [ apply spec
  | let Hc := fresh "Hc" in
    intros ? ? Hc; refine (confined_trans _ _ _ _ _ Hc); conf ].

Lemma check_update_confined (st : State) :
  wp (check_update env self) (fun _ st' => confined paths st st') st.
Proof.
  unfold check_update, _report_network_error, _sha256_file, read_file.
  wp_steps; conf.
Qed.

Lemma update_cleanup_confined (old : option (string * Z)) (st : State) :
  (forall o m, old = Some (o, m) -> In o paths) ->
  wp (update_cleanup env self old) (within st) st.
Proof.
  intros Hold. unfold update_cleanup, os_remove, os_chmod.
  destruct old as [[o m]|]; [pose proof (Hold o m eq_refl)|];
    wp_steps; conf.
Qed.

Lemma update_swap_confined (new_filename : string) (old : option string)
    (st : State) :
  In new_filename paths -> (forall o, old = Some o -> In o paths) ->
  wp (update_swap env self new_filename old) (within st) st.
Proof.
  intros Hnew Hold. unfold update_swap, os_stat_st_mode, os_rename.
  destruct old as [o|]; [pose proof (Hold o eq_refl)|].
  - wp_steps; conf. hand update_cleanup_confined.
    intros o' m' [= <- <-]. assumption.
  - hand update_cleanup_confined. discriminate.
Qed.

Lemma update_write_confined (data new_filename : string) (old : option string)
    (st : State) :
  In new_filename paths -> (forall o, old = Some o -> In o paths) ->
  wp (update_write env self data new_filename old) (within st) st.
Proof.
  intros Hnew Hold. unfold update_write, write_file, _report_permission_error.
  wp_steps; conf. hand update_swap_confined; assumption.
Qed.

Lemma update_install_confined (data new_filename : string)
    (old : option string) (st : State) :
  In new_filename paths -> (forall o, old = Some o -> In o paths) ->
  wp (update_install env self data new_filename old) (within st) st.
Proof.
  intros Hnew Hold. unfold update_install, _report_network_error.
  wp_steps; conf; hand update_write_confined; assumption.
Qed.

Lemma update_download_confined (new_filename : string) (old : option string)
    (st : State) :
  In new_filename paths -> (forall o, old = Some o -> In o paths) ->
  wp (update_download env self new_filename old) (within st) st.
Proof.
  intros Hnew Hold.
  unfold update_download, os_path_exists, os_remove, _report_network_error.
  destruct old as [o|]; [pose proof (Hold o eq_refl)|];
    wp_steps; conf; hand update_install_confined; assumption.
Qed.

End Footprint.

Lemma update_confined (env : Env) (self : Updater) (st : State) :
  wp (update env self) (fun _ st' => confined (update_paths env) st st') st.
Proof.
  assert (Hexe : In (filename env) (update_paths env)) by (left; reflexivity).
  unfold update, _report_permission_error. apply wp_bind.
  eapply wp_conseq; [apply check_update_confined, Hexe|].
  intros r0 s0 Hc. cbv beta.
  destruct r0 as [[|]|e]; cbn [negb]; wp_steps; conf.
  all: destruct (String.eqb (detect_variant env) "zip").
  all: eapply wp_conseq;
    [ apply update_download_confined
    | let Hd := fresh "Hd" in
      intros ? ? Hd; refine (confined_trans _ _ _ _ _ Hd); conf ].
  all: try exact Hexe; try discriminate.
  - right. left. reflexivity.
  - intros o [= <-]. right. right. left. reflexivity.
Qed.

(** X13.  [update] stays within three paths.  Whatever it returns or
    raises, every file other than the executable, [<executable>.new] and
    [<executable>.old] is as it was, absent ones included, and every call
    into [os] made during the run names these paths only.  The same holds
    of [run_update]. *)
Theorem update_footprint (env : Env) (st st' : State)
    (r : Res (option bool)) :
  (forall self, update env self st = (r, st') ->
                confined (update_paths env) st st') /\
  (run_update env st = (r, st') -> confined (update_paths env) st st').
Proof.
  split.
  - intros self. apply update_confined.
  - intros H. apply run_update_inv in H as [(self & st1 & Hi & H) | (e & Hi & _)].
    + apply update_confined in H. cbv beta in H.
      refine (confined_trans _ _ _ _ _ H).
      apply init_fields in Hi as (_ & _ & [->| ->]); conf.
    + revert Hi. unfold __init__.
      destruct (target_attributes env None) as [[exact channel] tag].
      unfold bind, ret, lift, emit.
      destruct (_ && _)%bool.
      * destruct (version_tuple env tag) as [v|e']; [|intros [= _ <-]; conf].
        destruct (PyTuple.ltb v WARN_BEFORE_TAG); discriminate.
      * discriminate.
Qed.

Lemma update_footprint_witness :
  confined (update_paths Scenario.Locked.env) Scenario.Locked.st
    (snd (update Scenario.Locked.env Scenario.Locked.self Scenario.Locked.st)).
Proof.
  apply (proj1 (update_footprint Scenario.Locked.env Scenario.Locked.st
                  (snd (update Scenario.Locked.env Scenario.Locked.self
                          Scenario.Locked.st))
                  (Ok (Some true))) Scenario.Locked.self).
  apply run_to; vm_compute; reflexivity.
Defined.

(** X14.  On a build that cannot be updated in place, [update] touches
    nothing: no call into [os] is made, the file system and the [atexit]
    registrations are as before, and the result is never [True]; when
    [check_update] found an update, the reason is reported as an error,
    exit code 100, and the result is [None]. *)
Theorem non_updatable_build_untouched (env : Env) (self : Updater)
    (st st' : State) (r : Res (option bool)) :
  truthy (is_non_updateable env) = true ->
  update env self st = (r, st') ->
  fs st' = fs st /\ os_history st' = os_history st /\
  atexit st' = atexit st /\ r <> Ok (Some true) /\
  (forall s1, check_update env self st = (Ok true, s1) ->
              r = Ok None /\
              st' = set_retcode 100
                      (set_console
                         (fun l => l ++ [report_error
                                           (fmt_opt (is_non_updateable env))
                                           (Some false)]) s1)).
Proof.
  intros Hn. unfold update, bind at 1.
  destruct (check_update env self st) as [[[|]|e] s1] eqn:Ec;
    pose proof (check_update_effects env self st _ _ Ec) as (Hf & Ha & Hh);
    cbn [negb]; rewrite ?Hn.
  all: destruct Hh as [Hh|[Hh _]]; [|congruence].
  all: intros [= <- <-]; cbn.
  all: repeat split; try assumption; try discriminate.
  all: intros; congruence.
Qed.

Lemma non_updatable_build_untouched_witness :
  fs (snd (update Builds.source_env Scenario.Locked.self Scenario.Locked.st))
  = fs Scenario.Locked.st /\
  os_history (snd (update Builds.source_env Scenario.Locked.self
                     Scenario.Locked.st))
  = os_history Scenario.Locked.st.
Proof.
  destruct (non_updatable_build_untouched Builds.source_env
              Scenario.Locked.self Scenario.Locked.st
              (snd (update Builds.source_env Scenario.Locked.self
                      Scenario.Locked.st))
              (Ok None)) as (Hf & Hh & _).
  - reflexivity.
  - apply run_to. vm_compute. reflexivity.
  - split; [exact Hf | exact Hh].
Defined.

(** ** The swap as a transaction *)

Section Swap.

Variables (env : Env) (self : Updater) (f : file) (registered : list string).

Lemma old_not_exe : filename env +:+ ".old" <> filename env.
Proof. apply append_suffix_neq. discriminate. Qed.

Lemma new_not_exe : filename env +:+ ".new" <> filename env.
Proof. apply append_suffix_neq. discriminate. Qed.

Lemma new_not_old : filename env +:+ ".new" <> filename env +:+ ".old".
Proof. apply append_suffixes_neq. discriminate. Qed.

(** Lookups in the file system of a state of a symbolic execution. *)
Ltac look :=
  autorewrite with state;
  cbn [atexit set_console set_retcode set_os set_atexit];
  repeat first
    [ rewrite lookup_insert_eq
    | rewrite lookup_delete_eq
    | rewrite lookup_insert_ne
        by first [ exact old_not_exe | exact new_not_exe | exact new_not_old
                 | apply not_eq_sym;
                   first [ exact old_not_exe | exact new_not_exe
                         | exact new_not_old ] ]
    | rewrite lookup_delete_ne
        by first [ exact old_not_exe | exact new_not_exe | exact new_not_old
                 | apply not_eq_sym;
                   first [ exact old_not_exe | exact new_not_exe
                         | exact new_not_old ] ]
    | match goal with
      | H : _ !! _ = _ |- _ => progress rewrite H
      | H : fs _ = _ |- _ => progress rewrite H
      | H : atexit _ = _ |- _ => progress rewrite H
      end
    | progress cbv beta iota
    | progress cbn [content st_mode] ].

Ltac is_kept :=
  left; split; [discriminate|]; unfold kept; look; split; reflexivity.

Ltac is_stranded :=
  right; left; unfold stranded; look;
  split; [reflexivity|]; split; [reflexivity|]; split; [reflexivity|];
  do 2 eexists; split; reflexivity.

Ltac is_replaced :=
  right; right; unfold replaced;
  match goal with H : windows_like env = _ |- _ => rewrite H end;
  look; eexists; split; [reflexivity|]; split; [reflexivity|];
  first [ split; reflexivity
        | split; [reflexivity|];
          split; [first [left; reflexivity | right; reflexivity]|];
          intros; first [discriminate | reflexivity] ].

Ltac settle :=
  unfold swap_outcome; back; autorewrite with state;
  first [is_kept | is_stranded | is_replaced].

Lemma update_cleanup_txn (data : string) (mode : Z) (st : State) :
  fs st !! filename env = Some {| content := data; st_mode := mode |} ->
  fs st !! (filename env +:+ ".old") = Some f ->
  fs st !! (filename env +:+ ".new") = None ->
  atexit st = registered ->
  wp (update_cleanup env self (Some (filename env +:+ ".old", st_mode f)))
     (swap_outcome env f registered data) st.
Proof.
  intros Hexe Hold Hnew Hreg.
  unfold update_cleanup, os_remove, os_chmod. cbv zeta.
  destruct (windows_like env) eqn:Hw; pose proof Hw as Hw';
    unfold windows_like in Hw'; rewrite Hw'; wp_steps; settle.
Qed.

Lemma update_swap_txn (data : string) (mode : Z) (st : State) :
  fs st !! filename env = Some f ->
  fs st !! (filename env +:+ ".new")
  = Some {| content := data; st_mode := mode |} ->
  atexit st = registered ->
  wp (update_swap env self (filename env +:+ ".new")
        (Some (filename env +:+ ".old")))
     (swap_outcome env f registered data) st.
Proof.
  intros Hexe Hnew Hreg. unfold update_swap, os_stat_st_mode, os_rename.
  wp_steps; try settle.
  look. apply (update_cleanup_txn data mode); look; reflexivity.
Qed.

Lemma update_write_txn (data : string) (st : State) :
  fs st !! filename env = Some f ->
  atexit st = registered ->
  wp (update_write env self data (filename env +:+ ".new")
        (Some (filename env +:+ ".old")))
     (swap_outcome env f registered data) st.
Proof.
  intros Hexe Hreg. unfold update_write, write_file, _report_permission_error.
  wp_steps; try settle.
  eapply update_swap_txn; look; reflexivity.
Qed.

Lemma update_install_txn (data : string) (st : State) :
  fs st !! filename env = Some f ->
  atexit st = registered ->
  wp (update_install env self data (filename env +:+ ".new")
        (Some (filename env +:+ ".old")))
     (swap_outcome env f registered data) st.
Proof.
  intros Hexe Hreg. unfold update_install, _report_network_error.
  wp_steps; try settle.
  all: back; apply update_write_txn; look; reflexivity.
Qed.

Lemma swap_outcome_fetched (data : string) (r : Res (option bool))
    (s st' : State) :
  fetched env s data ->
  memo_kept s st' ->
  swap_outcome env f registered data r st' ->
  update_outcome env f registered r st'.
Proof.
  intros Hd Hm [H|[H|H]]; [left; exact H | right; left; exact H |].
  right. right. exists data.
  split; [exact (fetched_kept _ _ _ _ Hd Hm) | exact H].
Qed.

Lemma update_download_txn (st : State) :
  fs st !! filename env = Some f ->
  atexit st = registered ->
  wp (update_download env self (filename env +:+ ".new")
        (Some (filename env +:+ ".old")))
     (update_outcome env f registered) st.
Proof.
  intros Hexe Hreg.
  unfold update_download, os_path_exists, os_remove, _report_network_error.
  wp_steps.
  all: try (unfold update_outcome; back; autorewrite with state; is_kept).
  all: match goal with
       | Hn : release_name env = Ok ?n,
         Ht : _tag env self _ = (Ok ?t, _),
         Hd : _download env self ?n ?t _ = (Ok ?d, _) |- _ =>
           let E := fresh "E" in
           intros ? ? E;
           refine (swap_outcome_fetched d _ _ _
                     (fetched_after_download _ _ _ _ _ _ _ _ Hn Ht Hd)
                     (update_install_memo _ _ _ _ _ _ _ _ E)
                     (update_install_txn d _ _ _ _ _ E))
       end.
  all: back; look; reflexivity.
Qed.

Lemma update_txn (st : State) :
  String.eqb (detect_variant env) "zip" = false ->
  fs st !! filename env = Some f ->
  atexit st = registered ->
  wp (update env self) (update_outcome env f registered) st.
Proof.
  intros Hz Hexe Hreg. unfold update, _report_permission_error. rewrite Hz.
  apply wp_bind. eapply wp_conseq; [apply check_update_effects|].
  intros r0 s0 (Hf & Ha & _). cbv beta.
  destruct r0 as [[|]|e]; cbn [negb]; wp_steps.
  all: try (unfold update_outcome; back; autorewrite with state; is_kept).
  back. apply update_download_txn; look; reflexivity.
Qed.

End Swap.

(** X15.  The swap never loses the executable silently.  On a build that
    is not the [zip] variant, with a file at the path of the executable,
    every run of [update] ends in one of three states: the executable is
    the file it was and nothing is registered with [atexit] (every result
    but [True]); or the executable holds the bytes that this run fetched,
    those behind the download URL of the asset with the release name of
    the build in the metadata memoized for the resolved tag, and the new
    file is gone; or there is no file at the path of the executable, the
    file it was is the backup [<executable>.old], and the run ended in the
    exception of the failed rename back. *)
Theorem update_keeps_or_replaces (env : Env) (self : Updater) (f : file)
    (st st' : State) (r : Res (option bool)) :
  String.eqb (detect_variant env) "zip" = false ->
  fs st !! filename env = Some f ->
  update env self st = (r, st') ->
  update_outcome env f (atexit st) r st'.
Proof.
  intros Hz Hexe H. exact (update_txn env self f (atexit st) st Hz Hexe eq_refl _ _ H).
Qed.

Lemma update_keeps_or_replaces_witness :
  update_outcome Scenario.SwapFails.env Scenario.exe []
    (Ok None)
    (snd (update Scenario.SwapFails.env Scenario.Locked.self
            Scenario.SwapFails.st)).
Proof.
  apply (update_keeps_or_replaces Scenario.SwapFails.env Scenario.Locked.self
           Scenario.exe Scenario.SwapFails.st).
  - reflexivity.
  - reflexivity.
  - apply run_to. vm_compute. reflexivity.
Defined.

Lemma update_outcome_True (env : Env) (f : file)
    (registered : list string) (st' : State) :
  update_outcome env f registered (Ok (Some true)) st' ->
  exists data, fetched env st' data /\
               replaced env f registered data (Ok (Some true)) st'.
Proof.
  intros [[H _]|[(_ & _ & _ & e & h & H & _)|H]]; [congruence | discriminate | exact H].
Qed.

(** X16.  What [True] means on the variants that are neither [zip] nor
    Windows-like: the executable holds the bytes that this run fetched
    for the resolved tag, WITH THE PERMISSION BITS IT HAD before the run,
    the new file is gone, the backup is gone or is still the old
    executable, and nothing was registered with [atexit]. *)
Theorem updated_in_place (env : Env) (self : Updater) (f : file)
    (st st' : State) :
  String.eqb (detect_variant env) "zip" = false ->
  windows_like env = false ->
  fs st !! filename env = Some f ->
  update env self st = (Ok (Some true), st') ->
  exists data,
    fetched env st' data /\
    fs st' !! filename env = Some {| content := data; st_mode := st_mode f |} /\
    fs st' !! (filename env +:+ ".new") = None /\
    (fs st' !! (filename env +:+ ".old") = None \/
     fs st' !! (filename env +:+ ".old") = Some f) /\
    atexit st' = atexit st.
Proof.
  intros Hz Hw Hexe H.
  pose proof (update_txn env self f (atexit st) st Hz Hexe eq_refl _ _ H) as Ha.
  apply update_outcome_True in Ha as (data & Hd & mode & Hf & Hn & Hrest).
  rewrite Hw in Hrest. destruct Hrest as (Hreg & Hold & Hmode).
  exists data. rewrite Hf, (Hmode eq_refl). auto.
Qed.

Lemma updated_in_place_witness :
  exists data,
    fetched Scenario.Locked.env
      (snd (update Scenario.Locked.env Scenario.Locked.self Scenario.Locked.st))
      data /\
    fs (snd (update Scenario.Locked.env Scenario.Locked.self Scenario.Locked.st))
      !! filename Scenario.Locked.env
    = Some {| content := data; st_mode := st_mode Scenario.exe |} /\
    fs (snd (update Scenario.Locked.env Scenario.Locked.self Scenario.Locked.st))
      !! (filename Scenario.Locked.env +:+ ".new") = None /\
    (fs (snd (update Scenario.Locked.env Scenario.Locked.self
                Scenario.Locked.st))
       !! (filename Scenario.Locked.env +:+ ".old") = None \/
     fs (snd (update Scenario.Locked.env Scenario.Locked.self
                Scenario.Locked.st))
       !! (filename Scenario.Locked.env +:+ ".old") = Some Scenario.exe) /\
    atexit (snd (update Scenario.Locked.env Scenario.Locked.self
                   Scenario.Locked.st))
    = atexit Scenario.Locked.st.
Proof.
  apply (updated_in_place Scenario.Locked.env Scenario.Locked.self
           Scenario.exe Scenario.Locked.st).
  - reflexivity.
  - reflexivity.
  - reflexivity.
  - apply run_to. vm_compute. reflexivity.
Defined.

(** X17.  What [True] means on the Windows-like variants ([win...] and
    [py2exe]): the executable holds the bytes that this run fetched for
    the resolved tag, the new file is gone, the old executable is still
    there as [<executable>.old], and exactly one command, the deferred
    deletion of that backup, was added to the [atexit] registrations. *)
Theorem updated_with_deferred_delete (env : Env) (self : Updater) (f : file)
    (st st' : State) :
  windows_like env = true ->
  fs st !! filename env = Some f ->
  update env self st = (Ok (Some true), st') ->
  exists data,
    fetched env st' data /\
    content <$> fs st' !! filename env = Some data /\
    fs st' !! (filename env +:+ ".new") = None /\
    fs st' !! (filename env +:+ ".old") = Some f /\
    atexit st'
    = atexit st ++ [deferred_delete (filename env +:+ ".old")].
Proof.
  intros Hw Hexe H.
  assert (Hz : String.eqb (detect_variant env) "zip" = false).
  { destruct (String.eqb_spec (detect_variant env) "zip") as [E|]; [|reflexivity].
    revert Hw. unfold windows_like. rewrite E. discriminate. }
  pose proof (update_txn env self f (atexit st) st Hz Hexe eq_refl _ _ H) as Ha.
  apply update_outcome_True in Ha as (data & Hd & mode & Hf & Hn & Hrest).
  rewrite Hw in Hrest. destruct Hrest as (Hreg & Hold).
  exists data. rewrite Hf. auto.
Qed.

Lemma updated_with_deferred_delete_witness :
  exists data,
    fetched Builds.Windows.env
      (snd (update Builds.Windows.env Scenario.Locked.self Scenario.Locked.st))
      data /\
    content <$> fs (snd (update Builds.Windows.env Scenario.Locked.self
                           Scenario.Locked.st))
                  !! filename Builds.Windows.env
    = Some data /\
    fs (snd (update Builds.Windows.env Scenario.Locked.self Scenario.Locked.st))
      !! (filename Builds.Windows.env +:+ ".new") = None /\
    fs (snd (update Builds.Windows.env Scenario.Locked.self Scenario.Locked.st))
      !! (filename Builds.Windows.env +:+ ".old") = Some Scenario.exe /\
    atexit (snd (update Builds.Windows.env Scenario.Locked.self
                   Scenario.Locked.st))
    = atexit Scenario.Locked.st
      ++ [deferred_delete (filename Builds.Windows.env +:+ ".old")].
Proof.
  apply (updated_with_deferred_delete Builds.Windows.env Scenario.Locked.self
           Scenario.exe Scenario.Locked.st).
  - reflexivity.
  - reflexivity.
  - apply run_to. vm_compute. reflexivity.
Defined.

(** ** A build that is up to date *)

Section UpToDate.

Variables (env : Env) (self : Updater).

Lemma get_version_info_hit (tag : string) (info : VersionInfo) (s : State) :
  cache_version_info s !! tag = Some info ->
  _get_version_info env self tag s = (Ok info, s).
Proof. intros H. unfold _get_version_info, cached. rewrite H. reflexivity. Qed.

Lemma latest_version_inv (st st1 : State) (latest : string) :
  latest_version env self st = (Ok latest, st1) ->
  cache_tag st1 = cache_tag st /\
  exists info, cache_version_info st1 !! _target_tag self = Some info /\
               tag_name info = Some latest.
Proof.
  unfold latest_version, bind at 1.
  destruct (_get_version_info env self (_target_tag self) st)
    as [[info|e] s] eqn:Ei; [|discriminate].
  unfold get_tag_name. destruct (tag_name info) as [t|] eqn:Et; [|discriminate].
  intros [= <- <-]. revert Ei.
  unfold _get_version_info, cached, bind, emit, lift.
  destruct (cache_version_info st !! _target_tag self) eqn:Ec.
  - intros [= <- <-]. eauto.
  - destruct (urlopen_json env _) as [i|e]; intros [= <- <-].
    split; [reflexivity|].
    eexists. split; [apply lookup_insert_eq | exact Et].
Qed.

Lemma latest_version_hit (s : State) (info : VersionInfo) (latest : string) :
  cache_version_info s !! _target_tag self = Some info ->
  tag_name info = Some latest ->
  latest_version env self s = (Ok latest, s).
Proof.
  intros Hc Ht. unfold latest_version.
  rewrite (bind_Ok _ _ _ _ _ (get_version_info_hit _ _ _ Hc)).
  unfold get_tag_name. rewrite Ht. reflexivity.
Qed.

(** X18.  A build that is up to date asks once.  With no target tag, when
    the latest release of the target channel compares as not newer than
    the running version, [check_update] returns [False] after exactly two
    lines, the available version and [yt-dlp is up to date]; the only
    request is the one for the metadata of the latest release: no
    [_update_spec] is downloaded, no call into [os] is made, and the tag is
    resolved to [latest]. *)
Theorem up_to_date_check (st st1 : State) (latest : string) :
  truthy (_target_repo self) = true ->
  _target_tag self = "latest" ->
  cache_tag st = None ->
  latest_version env self st = (Ok latest, st1) ->
  _version_compare env self (current_version env) latest = Ok true ->
  check_update env self st
  = (Ok false,
     set_console
       (fun l => l ++ [to_screen ("yt-dlp is up to date ("
                                  +:+ _full_current_version env +:+ ")")])
       (set_cache_tag "latest"
          (set_console
             (fun l => l ++ [to_screen
                               ("Available: " +:+ _target_channel self +:+ "@"
                                +:+ latest +:+ ", Current: "
                                +:+ _full_current_version env)])
             st1))).
Proof.
  intros Hrepo Htag Hc Hl Hv.
  destruct (latest_version_inv _ _ _ Hl) as (Hc1 & info & Hi & Ht).
  set (s2 := set_console
               (fun l => l ++ [to_screen
                                 ("Available: " +:+ _target_channel self +:+ "@"
                                  +:+ latest +:+ ", Current: "
                                  +:+ _full_current_version env)]) st1).
  set (s3 := set_cache_tag "latest" s2).
  assert (Hl2 : latest_version env self s2 = (Ok latest, s2))
    by (apply (latest_version_hit s2 info); assumption).
  assert (Ht2 : _tag env self s2 = (Ok "latest", s3)).
  { unfold _tag, cached. cbn [cache_tag s2 set_console]. rewrite Hc1, Hc.
    rewrite (bind_Ok _ _ _ _ _ Hl2). unfold bind, lift. rewrite Hv, Htag.
    reflexivity. }
  assert (Ht3 : _tag env self s3 = (Ok "latest", s3)) by reflexivity.
  assert (Hn : new_version env self s2 = (Ok latest, s3)).
  { unfold new_version. rewrite (bind_Ok _ _ _ _ _ Ht2).
    change (PyStr.startswith "tags/" "latest") with false. cbv iota.
    rewrite (bind_Ok _ _ _ _ _ Ht3).
    assert (Hi3 : cache_version_info s3 !! "latest" = Some info)
      by (rewrite <- Htag; exact Hi).
    rewrite (bind_Ok _ _ _ _ _ (get_version_info_hit _ _ _ Hi3)).
    unfold get_tag_name. rewrite Ht. reflexivity. }
  assert (Hh : has_update env self s2 = (Ok false, s3)).
  { unfold has_update. rewrite (bind_Ok _ _ _ _ _ Hn).
    unfold bind, lift. rewrite Hv. reflexivity. }
  unfold check_update. rewrite Hrepo. cbn [negb].
  assert (Hshown :
    try_except
      (do latest0 <- latest_version env self;
       do _ <- emit (to_screen
                 ("Available: " +:+ _target_channel self +:+ "@" +:+ latest0
                  +:+ ", Current: " +:+ _full_current_version env));
       ret true)
      (fun _ => true)
      (fun err =>
         do _ <- _report_network_error self
                   ("obtain version info (" +:+ exn_msg err +:+ ")")
                   "; Please try again later or";
         ret false) st = (Ok true, s2)).
  { apply try_except_Ok. rewrite (bind_Ok _ _ _ _ _ Hl). reflexivity. }
  rewrite (bind_Ok _ _ _ _ _ Hshown). cbn [negb].
  rewrite (bind_Ok _ _ _ _ _ Hh). cbv iota.
  rewrite (bind_Ok _ _ _ _ _ Ht3). rewrite Htag.
  reflexivity.
Qed.

End UpToDate.

Lemma up_to_date_check_witness :
  check_update Builds.current_env Scenario.Locked.self Scenario.Locked.st
  = (Ok false,
     set_console
       (fun l => l ++ [to_screen ("yt-dlp is up to date ("
                                  +:+ _full_current_version Builds.current_env
                                  +:+ ")")])
       (set_cache_tag "latest"
          (set_console
             (fun l => l ++ [to_screen
                               ("Available: "
                                +:+ _target_channel Scenario.Locked.self +:+ "@"
                                +:+ "2024.03.01" +:+ ", Current: "
                                +:+ _full_current_version Builds.current_env)])
             (snd (latest_version Builds.current_env Scenario.Locked.self
                     Scenario.Locked.st))))).
Proof.
  apply (up_to_date_check Builds.current_env Scenario.Locked.self
           Scenario.Locked.st).
  - reflexivity.
  - reflexivity.
  - reflexivity.
  - apply run_to. vm_compute. reflexivity.
  - vm_compute. reflexivity.
Defined.

(** ** Locks below the requested version *)

(** X19.  A lock can override an explicit request.  With an explicit
    target tag, the first matching lock rule whose tag parses to a version
    strictly below the requested one (in the lexicographic order of
    version tuples) decides: the loop resolves to [tags/<tag of the rule>]
    instead of the requested tag, passing over the rules before it that do
    not match or are not lower. *)
Theorem lower_lock_overrides_request (env : Env) (self : Updater)
    (before after : list string) (line tag : string) (tl tr : list Z) :
  _target_tag self <> "latest" ->
  forallb (passed_over env self) before = true ->
  matching_lock env self line = Some tag ->
  version_tuple env tag = Ok tl ->
  version_tuple env (PyStr.drop 5 (_target_tag self)) = Ok tr ->
  PyTuple.lex_lt tl tr ->
  scan_locks env self (identifier env self) (before ++ line :: after)
  = Ok ("tags/" +:+ tag).
Proof.
  intros Hp Hb Hm Hl Hr Hlt.
  induction before as [|l before IH]; cbn [app forallb] in *.
  - rewrite (scan_locks_matching _ _ _ _ _ Hm).
    apply String.eqb_neq in Hp. rewrite Hp. cbn [negb].
    unfold lock_not_lower. rewrite Hl, Hr.
    rewrite PyTupleFacts.geb_ltb.
    apply PyTupleFacts.ltb_lex_lt in Hlt. rewrite Hlt. reflexivity.
  - apply andb_true_iff in Hb as [Hl1 Hb].
    rewrite (scan_locks_passed_over _ _ _ _ Hp Hl1). apply IH, Hb.
Qed.

Lemma lower_lock_overrides_request_witness :
  scan_locks Scenario.Locked.env Builds.pinned_self
    (identifier Scenario.Locked.env Builds.pinned_self)
    (["lock 2024.03.01 .*-linux.*"] ++ "lock 2024.01.01 .*-linux.*"
       :: ["lock 2023.01.01 .*"])
  = Ok ("tags/" +:+ "2024.01.01").
Proof.
  apply (lower_lock_overrides_request Scenario.Locked.env Builds.pinned_self
           ["lock 2024.03.01 .*-linux.*"] ["lock 2023.01.01 .*"]
           "lock 2024.01.01 .*-linux.*" "2024.01.01"
           [2024; 1; 1]%Z [2024; 2; 1]%Z).
  - discriminate.
  - vm_compute. reflexivity.
  - vm_compute. reflexivity.
  - vm_compute. reflexivity.
  - vm_compute. reflexivity.
  - apply PyTupleFacts.ltb_lex_lt. reflexivity.
Defined.

(** ** Detection of the variant *)

Section DetectionFacts.

Variables (env : Env) (rt : Runtime).

Lemma detection_cases :
  match _get_variant_and_executable_path env rt with
  | Ok (v, p) =>
      if sys_frozen rt
      then p = sys_executable rt /\
           (v = "py2exe" /\ sys_MEIPASS rt = None \/
            v = sys_platform rt +:+ "_dir" /\
            sys_MEIPASS rt = Some (os_path_dirname env (sys_executable rt)) \/
            exists machine,
              machine_suffix env rt = Ok machine /\
              v = remove_end (sys_platform rt) "32" +:+ machine +:+ "_exe")
      else v = "zip" /\ loader_is_zipimporter rt = true /\
           p = os_path_join rt (module_dirname rt) ".." \/
           loader_is_zipimporter rt = false /\ p = module_dirname rt /\
           (v = "source" \/ v = "unknown")
  | Raise e =>
      if sys_frozen rt
      then sys_platform rt = "darwin" /\
           version_tuple env (platform_mac_ver rt) = Raise e
      else loader_is_zipimporter rt = false /\ sys_argv rt = []
  end.
Proof.
  unfold _get_variant_and_executable_path.
  destruct (sys_frozen rt).
  - destruct (sys_MEIPASS rt) as [meipass|]; [|auto].
    destruct (String.eqb_spec meipass (os_path_dirname env (sys_executable rt)))
      as [->|_]; [auto|].
    destruct (machine_suffix env rt) as [machine|e] eqn:Em; [eauto 6|].
    revert Em. unfold machine_suffix.
    destruct (String.eqb_spec (sys_platform rt) "darwin") as [Hd|_];
      [|discriminate].
    destruct (version_tuple env (platform_mac_ver rt)); [discriminate|].
    intros [= ->]. auto.
  - destruct (loader_is_zipimporter rt); [auto|].
    destruct (sys_argv rt) as [|argv0 l]; [auto|].
    destruct (_ && _)%bool; auto 6.
Qed.

End DetectionFacts.

(** X20.  What [_get_variant_and_executable_path] can return.  For a
    frozen program the path is [sys.executable] and the variant is
    [py2exe] (no [_MEIPASS]), [<platform>_dir] (unpacked next to the
    executable) or [<platform without 32><machine>_exe]; for a program
    that is not frozen the variant is [zip] exactly when the module was
    loaded by a [zipimporter], with the parent of the module directory as
    path, and [source] or [unknown] otherwise, with the module directory
    as path.  The detection raises only for a frozen macOS program whose
    macOS version does not parse, or for an unfrozen one with an empty
    [sys.argv]. *)
Theorem detection_result (env : Env) (rt : Runtime) :
  (forall v p,
      _get_variant_and_executable_path env rt = Ok (v, p) ->
      if sys_frozen rt
      then p = sys_executable rt /\
           (v = "py2exe" /\ sys_MEIPASS rt = None \/
            v = sys_platform rt +:+ "_dir" /\
            sys_MEIPASS rt = Some (os_path_dirname env (sys_executable rt)) \/
            exists machine,
              machine_suffix env rt = Ok machine /\
              v = remove_end (sys_platform rt) "32" +:+ machine +:+ "_exe")
      else v = "zip" /\ loader_is_zipimporter rt = true /\
           p = os_path_join rt (module_dirname rt) ".." \/
           loader_is_zipimporter rt = false /\ p = module_dirname rt /\
           (v = "source" \/ v = "unknown")) /\
  (forall e,
      _get_variant_and_executable_path env rt = Raise e ->
      if sys_frozen rt
      then sys_platform rt = "darwin" /\
           version_tuple env (platform_mac_ver rt) = Raise e
      else loader_is_zipimporter rt = false /\ sys_argv rt = []).
Proof.
  pose proof (detection_cases env rt) as H.
  split.
  - intros v p E. rewrite E in H. exact H.
  - intros e E. rewrite E in H. exact H.
Qed.

Lemma detection_result_witness :
  if sys_frozen Runtimes.checkout
  then "/src/yt_dlp" = sys_executable Runtimes.checkout /\
       ("source" = "py2exe" /\ sys_MEIPASS Runtimes.checkout = None \/
        "source" = sys_platform Runtimes.checkout +:+ "_dir" /\
        sys_MEIPASS Runtimes.checkout
        = Some (os_path_dirname Runtimes.checkout_env
                  (sys_executable Runtimes.checkout)) \/
        exists machine,
          machine_suffix Runtimes.checkout_env Runtimes.checkout = Ok machine /\
          "source"
          = remove_end (sys_platform Runtimes.checkout) "32" +:+ machine
            +:+ "_exe")
  else "source" = "zip" /\ loader_is_zipimporter Runtimes.checkout = true /\
       "/src/yt_dlp"
       = os_path_join Runtimes.checkout (module_dirname Runtimes.checkout) ".." \/
       loader_is_zipimporter Runtimes.checkout = false /\
       "/src/yt_dlp" = module_dirname Runtimes.checkout /\
       ("source" = "source" \/ "source" = "unknown").
Proof.
  apply (proj1 (detection_result Runtimes.checkout_env Runtimes.checkout)).
  reflexivity.
Defined.

Lemma last_char_append (s t : string) :
  t <> "" -> last_char (s +:+ t) = last_char t.
Proof.
  intros Ht. induction s as [|c s IH]; [reflexivity|].
  change (String c s +:+ t) with (String c (s +:+ t)).
  cbn [last_char]. rewrite IH.
  destruct t as [|d t]; [contradiction|].
  cbn [last_char]. destruct (last_char t); reflexivity.
Qed.

Lemma dir_has_no_suffix (platform : string) :
  dict_mem (platform +:+ "_dir") _FILE_SUFFIXES = false.
Proof.
  assert (Hr : last_char (platform +:+ "_dir") = Some "r"%char)
    by (rewrite last_char_append by discriminate; reflexivity).
  unfold dict_mem. cbv [_FILE_SUFFIXES dict_get].
  repeat match goal with
         | |- context [String.eqb ?a ?b] =>
             destruct (String.eqb_spec a b) as [E|_];
             [rewrite E in Hr; discriminate|]
         end.
  reflexivity.
Qed.

(** X21.  Which detected builds [update] can replace, when neither a
    variant nor a hint was fixed at build time.  A program that is not
    frozen is updatable exactly when its module was loaded by a
    [zipimporter]; a frozen program without [_MEIPASS] ([py2exe]) is
    updatable; a frozen program unpacked next to its executable
    ([<platform>_dir]) is not, whatever the platform is called. *)
Theorem detected_updatable (env : Env) (rt : Runtime) :
  detected env rt ->
  (sys_frozen rt = false ->
   truthy (is_non_updateable env) = negb (loader_is_zipimporter rt)) /\
  (sys_frozen rt = true -> sys_MEIPASS rt = None ->
   is_non_updateable env = None) /\
  (sys_frozen rt = true ->
   sys_MEIPASS rt = Some (os_path_dirname env (sys_executable rt)) ->
   truthy (is_non_updateable env) = true).
Proof.
  intros (Hv & Hh & Hd).
  pose proof (reason_without_hint env Hh) as Hr.
  assert (Hdv : detect_variant env = fst (variant_and_executable_path env))
    by (unfold detect_variant; rewrite Hv; reflexivity).
  rewrite Hdv in Hr. revert Hd Hr.
  destruct (variant_and_executable_path env) as [v p]. cbn [fst].
  unfold _get_variant_and_executable_path.
  split; [|split].
  - intros Hf. revert Hd. rewrite Hf.
    destruct (loader_is_zipimporter rt).
    + intros [= <- _]. cbn in Hr. rewrite Hr. reflexivity.
    + destruct (sys_argv rt) as [|argv0 l]; [discriminate|].
      destruct (_ && _)%bool; intros [= <- _]; exact Hr.
  - intros Hf Hm. revert Hd. rewrite Hf, Hm. intros [= <- _]. exact Hr.
  - intros Hf Hm. revert Hd. rewrite Hf, Hm, String.eqb_refl.
    intros [= <- _]. rewrite dir_has_no_suffix in Hr. exact Hr.
Qed.

Lemma detected_updatable_witness :
  truthy (is_non_updateable Runtimes.checkout_env)
  = negb (loader_is_zipimporter Runtimes.checkout).
Proof.
  apply (proj1 (detected_updatable Runtimes.checkout_env Runtimes.checkout
                  (conj eq_refl (conj eq_refl eq_refl)))).
  reflexivity.
Defined.

(** X22.  The names of the x86 family are one machine.  For a frozen
    one-file program off macOS, two runtimes that differ only in how the
    machine calls itself, both within [x86], [x86_64], [amd64], [i386] and
    [i686] in any letter case, are detected as the same variant: only the
    word size of the interpreter tells [_x86] from the plain name. *)
Theorem x86_names_are_one_machine (env : Env) (rt rt' : Runtime) :
  sys_platform rt <> "darwin" ->
  sys_platform rt' = sys_platform rt ->
  platform_architecture rt' = platform_architecture rt ->
  in_list (PyText.lower (platform_machine rt)) x86_names = true ->
  in_list (PyText.lower (platform_machine rt')) x86_names = true ->
  machine_suffix env rt' = machine_suffix env rt /\
  machine_suffix env rt
  = Ok (if String.eqb (PyText.take 2 (platform_architecture rt)) "32"
        then "_x86" else "").
Proof.
  intros Hd Hp Ha Hm Hm'. unfold machine_suffix. rewrite Hp, Ha.
  apply String.eqb_neq in Hd. rewrite Hd. cbv zeta.
  change (PyStr.drop 1 ("_" +:+ PyText.lower (platform_machine rt)))
    with (PyText.lower (platform_machine rt)).
  change (PyStr.drop 1 ("_" +:+ PyText.lower (platform_machine rt')))
    with (PyText.lower (platform_machine rt')).
  rewrite Hm, Hm'. split; reflexivity.
Qed.

Lemma x86_names_are_one_machine_witness :
  machine_suffix Scenario.Locked.env Runtimes.linux_onefile_amd64
  = machine_suffix Scenario.Locked.env Runtimes.linux_onefile /\
  machine_suffix Scenario.Locked.env Runtimes.linux_onefile
  = Ok (if String.eqb
             (PyText.take 2 (platform_architecture Runtimes.linux_onefile))
             "32"
        then "_x86" else "").
Proof.
  apply (x86_names_are_one_machine Scenario.Locked.env Runtimes.linux_onefile
           Runtimes.linux_onefile_amd64).
  - discriminate.
  - reflexivity.
  - reflexivity.
  - reflexivity.
  - reflexivity.
Defined.

(** ** The git head *)

(** X23.  What [current_git_head] raises and returns.  It raises exactly
    what the detection of the variant raises, which happens only when no
    variant was fixed at build time and
    [_get_variant_and_executable_path] raises; nothing that [git] raises
    leaves it.  What it returns other than [None] is a commit id: only
    when the detected variant is [source] and [git] ran, and then the
    result is the output of [git] with the surrounding whitespace removed,
    not empty and made of the characters [0-9a-f] only. *)
Theorem git_head_is_hex (env : Env) (rt : Runtime) :
  (forall h,
      current_git_head env rt = Ok (Some h) ->
      detect_variant_in env rt = Ok "source" /\
      (exists stdout, git_rev_parse rt = Ok stdout /\ h = PyText.strip stdout) /\
      h <> "" /\
      Forall (fun c => is_hex_digit c = true) (list_ascii_of_string h)) /\
  (forall e,
      current_git_head env rt = Raise e <-> detect_variant_in env rt = Raise e) /\
  (forall e,
      detect_variant_in env rt = Raise e ->
      truthy (VARIANT env) = false /\
      _get_variant_and_executable_path env rt = Raise e).
Proof.
  split; [|split].
  - intros h. unfold current_git_head.
    destruct (detect_variant_in env rt) as [variant|e]; [|discriminate].
    destruct (String.eqb_spec variant "source") as [->|_];
      cbn [negb]; [|discriminate].
    destruct (git_rev_parse rt) as [stdout|e]; [|discriminate].
    destruct (fullmatch_hex (PyText.strip stdout)) eqn:Ef; [|discriminate].
    intros [= <-]. split; [reflexivity|]. split; [eauto|].
    revert Ef. unfold fullmatch_hex.
    destruct (PyText.strip stdout) as [|c s]; [discriminate|].
    intros Ef. split; [discriminate|].
    apply List.Forall_forall. intros x Hx.
    exact (proj1 (forallb_forall _ _) Ef x Hx).
  - intros e. unfold current_git_head.
    destruct (detect_variant_in env rt) as [variant|e0];
      [|split; intros [= ->]; reflexivity].
    split; [|discriminate].
    destruct (negb _); [discriminate|].
    destruct (git_rev_parse rt) as [stdout|e1]; [|discriminate].
    destruct (fullmatch_hex _); discriminate.
  - intros e. unfold detect_variant_in.
    destruct (truthy (VARIANT env)); [discriminate|].
    destruct (_get_variant_and_executable_path env rt) as [[v p]|e0];
      [discriminate|].
    intros [= ->]. auto.
Qed.

Lemma git_head_is_hex_witness :
  detect_variant_in Runtimes.checkout_env Runtimes.checkout = Ok "source" /\
  (exists stdout,
      git_rev_parse Runtimes.checkout = Ok stdout /\
      "1a2b3c4" = PyText.strip stdout) /\
  "1a2b3c4" <> "" /\
  Forall (fun c => is_hex_digit c = true) (list_ascii_of_string "1a2b3c4").
Proof.
  apply (proj1 (git_head_is_hex Runtimes.checkout_env Runtimes.checkout)).
  reflexivity.
Defined.

(** ** Restart *)

(** X24.  [restart] runs the command it announces, and never an empty
    one.  Either it prints one debug line, [Restarting:] with the quoted
    command, and its result is that of running this command, which is
    [sys.orig_argv] when that is a non-empty list and otherwise
    [sys.argv], non-empty, of a frozen program; or no such command exists
    and it raises the assertion error, having printed and run nothing. *)
Theorem restart_runs_announced_command (rt : Runtime) (st st' : State)
    (r : Res Z) :
  restart rt st = (r, st') ->
  (exists c,
      c <> [] /\
      (sys_orig_argv rt = Some c \/
       (sys_orig_argv rt = None \/ sys_orig_argv rt = Some []) /\
       sys_frozen rt = true /\ sys_argv rt = c) /\
      st' = set_console
              (fun l => l ++ [write_debug ("Restarting: " +:+ shell_quote rt c)])
              st /\
      r = Popen_run rt c) \/
  ((sys_orig_argv rt = None \/ sys_orig_argv rt = Some []) /\
   (sys_frozen rt = false \/ sys_argv rt = []) /\
   st' = st /\
   r = Raise (Exn OtherException "Must be frozen or Py >= 3.10")).
Proof.
  unfold restart, cmd.
  destruct (sys_orig_argv rt) as [[|a l]|] eqn:Eo.
  2:{ intros [= <- <-]. left. exists (a :: l).
      split; [discriminate|]. auto. }
  all: destruct (sys_frozen rt) eqn:Ef;
    [destruct (sys_argv rt) as [|a l] eqn:Ea|]; intros [= <- <-].
  all: first [ right; repeat split; auto; fail
             | left; exists (a :: l); split; [discriminate|];
               split; [right; auto | split; reflexivity] ].
Qed.

Lemma restart_runs_announced_command_witness :
  (exists c,
      c <> [] /\
      (sys_orig_argv Runtimes.linux_onefile = Some c \/
       (sys_orig_argv Runtimes.linux_onefile = None \/
        sys_orig_argv Runtimes.linux_onefile = Some []) /\
       sys_frozen Runtimes.linux_onefile = true /\
       sys_argv Runtimes.linux_onefile = c) /\
      snd (restart Runtimes.linux_onefile Scenario.Locked.st)
      = set_console
          (fun l => l ++ [write_debug
                            ("Restarting: "
                             +:+ shell_quote Runtimes.linux_onefile c)])
          Scenario.Locked.st /\
      Ok 0%Z = Popen_run Runtimes.linux_onefile c) \/
  ((sys_orig_argv Runtimes.linux_onefile = None \/
    sys_orig_argv Runtimes.linux_onefile = Some []) /\
   (sys_frozen Runtimes.linux_onefile = false \/
    sys_argv Runtimes.linux_onefile = []) /\
   snd (restart Runtimes.linux_onefile Scenario.Locked.st) = Scenario.Locked.st /\
   Ok 0%Z = Raise (Exn OtherException "Must be frozen or Py >= 3.10")).
Proof.
  apply (restart_runs_announced_command Runtimes.linux_onefile
           Scenario.Locked.st).
  apply run_to. reflexivity.
Defined.

(** ** Paths that cannot be written *)

Lemma update_unwritable (env : Env) (self : Updater) (st : State) :
  os_access_W_OK env (filename env) = false \/
  os_access_W_OK env (os_path_dirname env (filename env)) = false ->
  wp (update env self)
     (fun r st' =>
        fs st' = fs st /\ atexit st' = atexit st /\ r <> Ok (Some true) /\
        (os_history st' = os_history st \/
         exists ok, os_history st'
                    = (ReadAll (filename env), ok) :: os_history st)) st.
Proof.
  intros Hw. unfold update, _report_permission_error. apply wp_bind.
  eapply wp_conseq; [apply check_update_effects|].
  intros r0 s0 (Hf & Ha & Hh). cbv beta.
  assert (Hh' : os_history s0 = os_history st \/
                exists ok, os_history s0
                           = (ReadAll (filename env), ok) :: os_history st).
  { destruct Hh as [Hh|(_ & ok & Hh & _)]; eauto. }
  clear Hh.
  destruct r0 as [[|]|e]; cbn [negb]; wp_steps; back.
  all: try (split; [congruence|]; split; [congruence|];
            split; [discriminate|];
            destruct Hh' as [Hh'|(ok & Hh')];
            [left; congruence | right; exists ok; congruence]).
  exfalso. destruct Hw as [Hw|Hw]; rewrite Hw in *; discriminate.
Qed.

(** X25.  The two permission checks come before any write.  When the
    executable or its directory is not writable, [update] never returns
    [True], leaves the file system and the [atexit] registrations as they
    were, and the only call into [os] it can have made is the read of the
    executable by [check_update]: no stale backup is removed and nothing is
    downloaded to disk. *)
Theorem unwritable_blocks_update (env : Env) (self : Updater) (st st' : State)
    (r : Res (option bool)) :
  os_access_W_OK env (filename env) = false \/
  os_access_W_OK env (os_path_dirname env (filename env)) = false ->
  update env self st = (r, st') ->
  fs st' = fs st /\ atexit st' = atexit st /\ r <> Ok (Some true) /\
  (os_history st' = os_history st \/
   exists ok, os_history st' = (ReadAll (filename env), ok) :: os_history st).
Proof. intros Hw H. exact (update_unwritable env self st Hw _ _ H). Qed.

Lemma unwritable_blocks_update_witness :
  fs (snd (update Builds.readonly_env Scenario.Locked.self Scenario.Locked.st))
  = fs Scenario.Locked.st /\
  atexit (snd (update Builds.readonly_env Scenario.Locked.self
                 Scenario.Locked.st))
  = atexit Scenario.Locked.st /\
  @Ok (option bool) None <> Ok (Some true) /\
  (os_history (snd (update Builds.readonly_env Scenario.Locked.self
                      Scenario.Locked.st))
   = os_history Scenario.Locked.st \/
   exists ok,
     os_history (snd (update Builds.readonly_env Scenario.Locked.self
                        Scenario.Locked.st))
     = (ReadAll (filename Builds.readonly_env), ok)
       :: os_history Scenario.Locked.st).
Proof.
  apply (unwritable_blocks_update Builds.readonly_env Scenario.Locked.self
           Scenario.Locked.st).
  - left. reflexivity.
  - apply run_to. vm_compute. reflexivity.
Defined.
